(** * finance_dash: the import and normalisation pipeline, embedded in Rocq

    The development follows [src/backend]: [models.py] (records and
    [signed_amount]), [importers.py] (field parsers, classifier, normaliser,
    orchestrator), [database.py] (SQLite repository: upserts and the cash
    aggregate) and [services.py] ([PortfolioService.import_workbook]), and
    the handlers of [api.py] that refresh a rate and keep the display
    currency.

    Conventions of the embedding.
    - A Python [float] is a binary64 value: Rocq's primitive [float], with
      the IEEE operations of [PrimFloat].
    - A Python [str] is a [string] of ASCII characters; the case mappings
      and the white space of [str.lower], [str.upper] and [str.strip] are
      those of the ASCII range.  Outside ASCII no character maps onto one of
      the letters the code compares against ("CHF", "frais", "fee"), so the
      comparisons modelled here agree with Python's on every text; the white
      space [str.strip] removes there (U+0085, U+00A0 and the other Unicode
      spaces) and the digits other than 0 to 9 that [Decimal] reads are
      outside the model.
    - [Optional[T]] is [option T]; a raised exception is an explicit
      [Raise e] of the error monad [result]. *)

From Stdlib Require Import ZArith NArith List String Ascii Bool Lia.
From Stdlib Require Import PrimFloat SpecFloat FloatOps.
From Stdlib Require FloatAxioms.
From Stdlib Require Import Sorted Permutation.
Import ListNotations.

Set Warnings "-inexact-float".

Local Open Scope string_scope.
Local Open Scope bool_scope.

(** ** Exceptions *)

Inductive exn : Set :=
| ZeroDivisionError
| InvalidOperation
| ValueError
| OverflowError
| TypeError.

Inductive result (A : Type) : Type :=
| Ok (a : A)
| Raise (e : exn).

Arguments Ok {A} a.
Arguments Raise {A} e.

Definition bind {A B : Type} (c : result A) (k : A -> result B) : result B :=
  match c with
  | Ok a => k a
  | Raise e => Raise e
  end.

Notation "x <- c ;; k" := (bind c (fun x => k))
  (at level 61, c at next level, right associativity).

Definition exn_eqb (a b : exn) : bool :=
  match a, b with
  | ZeroDivisionError, ZeroDivisionError
  | InvalidOperation, InvalidOperation
  | ValueError, ValueError
  | OverflowError, OverflowError
  | TypeError, TypeError => true
  | _, _ => false
  end.

(** [try: c except classes: handler]: an exception of [c] whose class is
    listed runs the handler, any other propagates. *)
Definition try_except {A : Type} (c : result A) (classes : list exn)
    (handler : result A) : result A :=
  match c with
  | Ok a => Ok a
  | Raise e => if existsb (exn_eqb e) classes then handler else Raise e
  end.

(** ** Python text primitives *)

Module Text.

Definition is_upper (c : ascii) : bool :=
  (65 <=? nat_of_ascii c)%nat && (nat_of_ascii c <=? 90)%nat.

Definition is_lower (c : ascii) : bool :=
  (97 <=? nat_of_ascii c)%nat && (nat_of_ascii c <=? 122)%nat.

Definition lower_char (c : ascii) : ascii :=
  if is_upper c then ascii_of_nat (nat_of_ascii c + 32) else c.

Definition upper_char (c : ascii) : ascii :=
  if is_lower c then ascii_of_nat (nat_of_ascii c - 32) else c.

Fixpoint map_chars (f : ascii -> ascii) (s : string) : string :=
  match s with
  | EmptyString => EmptyString
  | String c rest => String (f c) (map_chars f rest)
  end.

(** [s.lower()] and [s.upper()] *)
Definition lower : string -> string := map_chars lower_char.
Definition upper : string -> string := map_chars upper_char.

(** White space as [str.strip()] sees it: TAB, LF, VT, FF, CR, the
    separators FS, GS, RS, US, and the blank. *)
Definition is_space (c : ascii) : bool :=
  let n := nat_of_ascii c in
  ((9 <=? n)%nat && (n <=? 13)%nat)
  || ((28 <=? n)%nat && (n <=? 31)%nat)
  || (n =? 32)%nat.

Fixpoint lstrip (s : string) : string :=
  match s with
  | EmptyString => EmptyString
  | String c rest => if is_space c then lstrip rest else s
  end.

Fixpoint rstrip (s : string) : string :=
  match s with
  | EmptyString => EmptyString
  | String c rest =>
      match rstrip rest with
      | EmptyString => if is_space c then EmptyString else String c EmptyString
      | kept => String c kept
      end
  end.

(** [s.strip()] *)
Definition strip (s : string) : string := rstrip (lstrip s).

(** Truth value of a text: [bool(s)] *)
Definition truthy (s : string) : bool :=
  match s with
  | EmptyString => false
  | String _ _ => true
  end.

(** [needle in hay] *)
Fixpoint contains (needle hay : string) : bool :=
  prefix needle hay
  || match hay with
     | EmptyString => false
     | String _ rest => contains needle rest
     end.

(** [s.split(",", 1)[0]]: the text before the first comma, all of [s]
    when it has none. *)
Fixpoint before_first_comma (s : string) : string :=
  match s with
  | EmptyString => EmptyString
  | String c rest =>
      if Ascii.eqb c "," then EmptyString
      else String c (before_first_comma rest)
  end.

(** [s.replace(old, new)] for a non-empty [old]: occurrences are found from
    the left and do not overlap.  [skip] counts the characters of a matched
    occurrence still to be dropped. *)
Fixpoint replace_from (old new : string) (skip : nat) (s : string) : string :=
  match s with
  | EmptyString => EmptyString
  | String c rest =>
      match skip with
      | S k => replace_from old new k rest
      | O =>
          if prefix old s
          then new ++ replace_from old new (String.length old - 1) rest
          else String c (replace_from old new 0 rest)
      end
  end.

Definition replace (old new s : string) : string := replace_from old new 0 s.

(** [sep.join(parts)] *)
Fixpoint join (sep : string) (parts : list string) : string :=
  match parts with
  | [] => EmptyString
  | [p] => p
  | p :: more => p ++ sep ++ join sep more
  end.

End Text.

(** ** Python floats *)

Module Float.

Definition zero : float := PrimFloat.zero.

(** [bool(x)]: false for [0.0] and [-0.0], true otherwise (NaN included). *)
Definition truthy (x : float) : bool := negb (PrimFloat.eqb x zero).

(** [x or 0.0] for an optional float [x]: [None] and both zeros give the
    right operand. *)
Definition or_zero (x : option float) : float :=
  match x with
  | None => zero
  | Some v => if truthy v then v else zero
  end.

(** [a / b]: raises on a zero divisor, IEEE division otherwise. *)
Definition div (a b : float) : result float :=
  if PrimFloat.eqb b zero then Raise ZeroDivisionError
  else Ok (PrimFloat.div a b).

End Float.

(** ** Domain models ([models.py]) *)

(** A cell of a sheet read with [dtype=str]: a text, or the NaN that stands
    for a blank cell.  [str_of] is Python's [str(value)]. *)
Inductive value : Set :=
| VNaN
| VStr (s : string).

Definition str_of (v : value) : string :=
  match v with
  | VNaN => "nan"
  | VStr s => s
  end.

(** [datetime.date] *)
Record date : Set := mkDate { year : Z; month : Z; day : Z }.

(** A [uuid.UUID], named by the order in which [uuid4] minted it, and a
    [datetime] in microseconds since the epoch. *)
Definition UUID : Set := N.
Definition datetime : Set := Z.

(** A raw payload: the row's columns in sheet order, blanks as empty texts. *)
Definition payload : Set := list (string * string).

Record BankTransactionRecord : Set := mkRecord {
  id : UUID;
  sheet_name : string;
  account_id : value;
  account_name : value;
  account_holder : value;
  transaction_date : option date;
  transaction_time : option string;
  accounting_date : option date;
  amount_chf : option float;
  debit : option float;
  credit : option float;
  balance : option float;
  transaction_currency : option string;
  fx_rate : option float;
  description : string;
  transaction_number : option string;
  category : option string;
  sub_category : option string;
  micro_category : option string;
  raw_payload : payload
}.

(** [BankTransactionRecord.signed_amount] *)
Definition signed_amount (self : BankTransactionRecord) : float :=
  match amount_chf self with
  | Some amount => amount
  | None =>
      let debit := Float.or_zero (debit self) in
      let credit := Float.or_zero (credit self) in
      PrimFloat.sub credit debit
  end.

Record NormalisedTransaction : Set := mkNormalised {
  tx_id : UUID;
  tx_sheet_name : string;
  tx_account_id : value;
  tx_account_name : value;
  tx_account_holder : value;
  tx_transaction_date : option date;
  tx_transaction_time : option string;
  tx_accounting_date : option date;
  tx_transaction_currency : string;
  tx_amount_chf : float;
  tx_amount_native : option float;
  tx_fx_rate : option float;
  tx_balance : option float;
  tx_description : string;
  tx_transaction_number : option string;
  tx_category : option string;
  tx_sub_category : option string;
  tx_micro_category : option string;
  tx_inferred_type : string;
  tx_inferred_counterparty : option value;
  tx_notes : option string;
  tx_created_at : datetime
}.

Record FxRate : Set := mkFxRate {
  base : string;
  quote : string;
  valuation_date : date;
  rate : float;
  source : string
}.

(** ** Classifier ([importers.py], [TransactionClassifier]) *)

Record ClassificationResult : Set := mkClassification {
  inferred_type : string;
  inferred_counterparty : option value;
  notes : option string
}.

(** [text or ""] for an optional text *)
Definition or_empty (text : option string) : string :=
  match text with
  | Some s => s
  | None => ""
  end.

Definition _is_inflow (record : BankTransactionRecord) : bool :=
  PrimFloat.ltb Float.zero (Float.or_zero (credit record))
  && PrimFloat.eqb (Float.or_zero (debit record)) Float.zero.

Definition _is_outflow (record : BankTransactionRecord) : bool :=
  PrimFloat.ltb Float.zero (Float.or_zero (debit record))
  && PrimFloat.eqb (Float.or_zero (credit record)) Float.zero.

Definition _extract_counterparty (record : BankTransactionRecord) : option value :=
  if Text.truthy (description record) then
    let primary_segment := Text.before_first_comma (description record) in
    match Text.strip primary_segment with
    | EmptyString => None
    | stripped => Some (VStr stripped)
    end
  else None.

(** The test of the first rule of [classify]. *)
Definition fee_rule (record : BankTransactionRecord) : bool :=
  let description := Text.lower (description record) in
  let category := Text.lower (or_empty (category record)) in
  Text.contains "frais" description
  || Text.contains "fee" description
  || Text.contains "frais" category.

Definition classify (record : BankTransactionRecord) : ClassificationResult :=
  if fee_rule record then
    mkClassification "FEE" (Some (account_name record)) (Some "Identified bank fee")
  else if _is_inflow record then
    mkClassification "DEPOSIT" (_extract_counterparty record) None
  else if _is_outflow record then
    mkClassification "WITHDRAWAL" (_extract_counterparty record) None
  else
    mkClassification "UNKNOWN" None (Some "Unable to infer direction").

(** ** Normaliser ([BankExcelImporter._normalise_record]) *)

(** [created_at] is the reading of the clock taken when the transaction is
    built ([default_factory=datetime.utcnow]); it is passed in as [now]. *)
Definition _normalise_record (now : datetime) (record : BankTransactionRecord)
    (classification : ClassificationResult) : result NormalisedTransaction :=
  amount_native <-
    match transaction_currency record, fx_rate record with
    | Some currency, Some fx =>
        if Text.truthy currency
           && negb (String.eqb (Text.upper currency) "CHF")
           && Float.truthy fx
        then
          try_except
            (quotient <- Float.div (signed_amount record) fx ;; Ok (Some quotient))
            [ZeroDivisionError]
            (Ok None)
        else Ok None
    | _, _ => Ok None
    end ;;
  Ok {| tx_id := id record;
        tx_sheet_name := sheet_name record;
        tx_account_id := account_id record;
        tx_account_name := account_name record;
        tx_account_holder := account_holder record;
        tx_transaction_date := transaction_date record;
        tx_transaction_time := transaction_time record;
        tx_accounting_date := accounting_date record;
        tx_transaction_currency :=
          (match transaction_currency record with
           | Some currency => if Text.truthy currency then currency else "CHF"
           | None => "CHF"
           end);
        tx_amount_chf := signed_amount record;
        tx_amount_native := amount_native;
        tx_fx_rate := fx_rate record;
        tx_balance := balance record;
        tx_description := description record;
        tx_transaction_number := transaction_number record;
        tx_category := category record;
        tx_sub_category := sub_category record;
        tx_micro_category := micro_category record;
        tx_inferred_type := inferred_type classification;
        tx_inferred_counterparty := inferred_counterparty classification;
        tx_notes := notes classification;
        tx_created_at := now |}.

(** ** [decimal.Decimal(text)] and [float(decimal)]

    Python's standard library, which [_parse_decimal] calls; it is no part
    of the repository.  The numeric-string syntax is that of the [decimal]
    module: optional sign, then digits with an optional fraction and an
    optional exponent, or an infinity, or a (signalling) NaN with diagnostic
    digits; white space around the text and underscores anywhere are
    dropped first.  [float] of a finite decimal is its correctly rounded
    binary64 value; of a signalling NaN it is a [ValueError].  The digits
    are the ASCII digits, and the exponent is taken as written: the limit
    of the implementation, which refuses a text whose exponent is beyond
    some 10^18, is outside the model. *)

Module Decimal.

Inductive decimal : Set :=
| Finite (negative : bool) (coefficient : N) (exponent : Z)
| Infinity (negative : bool)
| NaN (negative : bool) (signaling : bool) (diagnostic : N).

Definition is_digit (c : ascii) : bool :=
  (48 <=? nat_of_ascii c)%nat && (nat_of_ascii c <=? 57)%nat.

(** The longest prefix of digits, and what follows it. *)
Fixpoint span_digits (s : string) : string * string :=
  match s with
  | EmptyString => (EmptyString, EmptyString)
  | String c rest =>
      if is_digit c
      then let (digits, after) := span_digits rest in (String c digits, after)
      else (EmptyString, s)
  end.

Fixpoint digits_value (acc : N) (digits : string) : N :=
  match digits with
  | EmptyString => acc
  | String c rest =>
      digits_value (10 * acc + N.of_nat (nat_of_ascii c - 48)) rest
  end.

Definition split_sign (s : string) : bool * string :=
  match s with
  | String "-" rest => (true, rest)
  | String "+" rest => (false, rest)
  | _ => (false, s)
  end.

(** [(E[-+]?\d+)?] up to the end of the text: the exponent's value. *)
Definition parse_exponent (s : string) : option Z :=
  match s with
  | EmptyString => Some 0%Z
  | String c rest =>
      if Ascii.eqb c "e" || Ascii.eqb c "E" then
        let (negative, unsigned) := split_sign rest in
        match span_digits unsigned with
        | (String d ds, EmptyString) =>
            let magnitude := Z.of_N (digits_value 0 (String d ds)) in
            Some (if negative then (- magnitude)%Z else magnitude)
        | _ => None
        end
      else None
  end.

(** A number with at least one digit: coefficient and exponent. *)
Definition parse_number (s : string) : option (N * Z) :=
  let (intpart, after_int) := span_digits s in
  let (fracpart, after_frac) :=
    match after_int with
    | String "." rest => span_digits rest
    | _ => (EmptyString, after_int)
    end in
  if Text.truthy intpart || Text.truthy fracpart then
    match parse_exponent after_frac with
    | Some exp =>
        Some (digits_value 0 (intpart ++ fracpart),
              (exp - Z.of_nat (String.length fracpart))%Z)
    | None => None
    end
  else None.

(** [s?NaN\d*] up to the end of the text, on the lower-cased text. *)
Definition parse_nan (lowered : string) : option (bool * N) :=
  let (signaling, after) :=
    match lowered with
    | String "s" rest => (true, rest)
    | _ => (false, lowered)
    end in
  match after with
  | String "n" (String "a" (String "n" diag)) =>
      match span_digits diag with
      | (digits, EmptyString) => Some (signaling, digits_value 0 digits)
      | _ => None
      end
  | _ => None
  end.

(** [Decimal(value)] for a text [value] *)
Definition of_string (value : string) : result decimal :=
  let (negative, body) := split_sign (Text.replace "_" "" (Text.strip value)) in
  match parse_number body with
  | Some (coefficient, exponent) => Ok (Finite negative coefficient exponent)
  | None =>
      let lowered := Text.lower body in
      if String.eqb lowered "inf" || String.eqb lowered "infinity"
      then Ok (Infinity negative)
      else match parse_nan lowered with
           | Some (signaling, diagnostic) => Ok (NaN negative signaling diagnostic)
           | None => Raise InvalidOperation
           end
  end.

(** The binary64 value nearest to [coefficient * 10 ^ exponent], ties to
    even. *)
Definition round_to_binary64 (negative : bool) (coefficient : N) (exponent : Z)
    : spec_float :=
  match coefficient with
  | N0 => S754_zero negative
  | Npos m =>
      if (0 <=? exponent)%Z
      then binary_round prec emax negative
             (Z.to_pos (Zpos m * 10 ^ exponent)) 0
      else SFdiv prec emax
             (S754_finite negative m 0)
             (S754_finite false (Z.to_pos (10 ^ (- exponent))) 0)
  end.

(** [float(d)] *)
Definition to_float (d : decimal) : result float :=
  match d with
  | NaN _ true _ => Raise ValueError
  | NaN _ false _ => Ok PrimFloat.nan
  | Infinity negative =>
      Ok (if negative then PrimFloat.neg_infinity else PrimFloat.infinity)
  | Finite negative coefficient exponent =>
      Ok (SF2Prim (round_to_binary64 negative coefficient exponent))
  end.

End Decimal.

(** ** [dateutil.parser.parse(text, dayfirst=...)], reduced to its date

    Modelled from the spec: the date library [dateutil], which [_parse_date]
    calls, is no part of the repository.  The specification asks for
    day-first reading of ambiguous numeric dates ("03/04/2024" is 3 April).
    Modelled here are the texts made of three numeric fields joined by one
    of the separators [.], [/] and [-], the first two fields of one or two
    digits and the third of four, resolved as the library resolves them: as
    day, month and year, or as month, day and year.  The library's verdict
    on every other text is the parameter [parse_other] of [parse]. *)

Module DateUtil.

Definition is_separator (c : ascii) : bool :=
  Ascii.eqb c "." || Ascii.eqb c "/" || Ascii.eqb c "-".

Definition short_field (digits : string) : bool :=
  (String.length digits =? 1)%nat || (String.length digits =? 2)%nat.

(** The three fields of a text of the modelled shape. *)
Definition numeric_fields (s : string) : option (Z * Z * Z) :=
  let (first, after_first) := Decimal.span_digits s in
  match after_first with
  | String sep rest =>
      let (second, after_second) := Decimal.span_digits rest in
      match after_second with
      | String sep' rest' =>
          let (third, after_third) := Decimal.span_digits rest' in
          if is_separator sep && Ascii.eqb sep sep'
             && short_field first && short_field second
             && (String.length third =? 4)%nat
             && negb (Text.truthy after_third)
          then Some (Z.of_N (Decimal.digits_value 0 first),
                     Z.of_N (Decimal.digits_value 0 second),
                     Z.of_N (Decimal.digits_value 0 third))
          else None
      | EmptyString => None
      end
  | EmptyString => None
  end.

Definition is_leap (y : Z) : bool :=
  ((y mod 4 =? 0) && negb (y mod 100 =? 0) || (y mod 400 =? 0))%Z.

Definition days_in_month (y m : Z) : Z :=
  if (m =? 2)%Z then (if is_leap y then 29 else 28)%Z
  else if ((m =? 4) || (m =? 6) || (m =? 9) || (m =? 11))%Z then 30%Z
  else 31%Z.

(** [datetime.replace(year, month, day)]: refuses what is not a date. *)
Definition build (y m d : Z) : result date :=
  if ((1 <=? y) && (y <=? 9999) && (1 <=? m) && (m <=? 12)
      && (1 <=? d) && (d <=? days_in_month y m))%Z
  then Ok (mkDate y m d)
  else Raise ValueError.

(** The resolution of three numeric members of which the last was written
    as a year ([_ymd.resolve_ymd] with [yearfirst=False]). *)
Definition resolve_ymd (dayfirst : bool) (first second third : Z) : result date :=
  if (31 <? first)%Z then
    (* read as year, month, day: the four-digit member is no day *)
    build first second third
  else if (12 <? first)%Z || (dayfirst && (second <=? 12)%Z) then
    build third second first
  else
    build third first second.

Definition parse (parse_other : string -> result date) (dayfirst : bool)
    (timestr : string) : result date :=
  match numeric_fields timestr with
  | Some (first, second, third) => resolve_ymd dayfirst first second third
  | None => parse_other timestr
  end.

End DateUtil.

(** ** Field parsers ([importers.py], helper utilities) *)

Definition _clean_string (value : option value) : string :=
  match value with
  | None => ""
  | Some v => Text.strip (str_of v)
  end.

Definition _parse_decimal (value : option value) : result (option float) :=
  match value with
  | None => Ok None
  | Some v =>
      let stringified := Text.strip (str_of v) in
      if negb (Text.truthy stringified) then Ok None
      else
        let normalised :=
          Text.replace "," "." (Text.replace " " "" (Text.replace "'" "" stringified)) in
        try_except
          (d <- Decimal.of_string normalised ;;
           f <- Decimal.to_float d ;;
           Ok (Some f))
          [InvalidOperation; ValueError]
          (Ok None)
  end.

Definition _parse_date (parse_other : string -> result date)
    (value : option value) : result (option date) :=
  match value with
  | None => Ok None
  | Some v =>
      let stringified := Text.strip (str_of v) in
      if negb (Text.truthy stringified)
         || String.eqb stringified "NaT" || String.eqb stringified "nan"
      then Ok None
      else
        let stringified := Text.replace "[$]" "" stringified in
        try_except
          (parsed <- DateUtil.parse parse_other true stringified ;;
           Ok (Some parsed))
          [ValueError; OverflowError]
          (Ok None)
  end.

(** ** Python dictionaries, as association lists in insertion order *)

Section Dict.

Context {K V : Type} (key_eqb : K -> K -> bool).

(** [d.get(key)] *)
Fixpoint dict_get (d : list (K * V)) (key : K) : option V :=
  match d with
  | [] => None
  | (k, v) :: rest => if key_eqb k key then Some v else dict_get rest key
  end.

(** [d[key] = v] *)
Fixpoint dict_set (d : list (K * V)) (key : K) (v : V) : list (K * V) :=
  match d with
  | [] => [(key, v)]
  | (k, old) :: rest =>
      if key_eqb k key then (k, v) :: rest
      else (k, old) :: dict_set rest key v
  end.

End Dict.

(** ** The world of an import: the UUID source and the clock

    [minted] counts the identifiers handed out so far: [uuid4] never hands
    out an identifier twice.  [clock] gives the successive readings of
    [datetime.utcnow], [readings] counts those taken. *)

Record World : Type := mkWorld {
  minted : N;
  clock : nat -> datetime;
  readings : nat
}.

Definition IO (A : Type) : Type := World -> result (A * World).

Definition io_ret {A : Type} (a : A) : IO A := fun w => Ok (a, w).

Definition io_bind {A B : Type} (c : IO A) (k : A -> IO B) : IO B :=
  fun w =>
    match c w with
    | Ok (a, w') => k a w'
    | Raise e => Raise e
    end.

Definition io_lift {A : Type} (c : result A) : IO A :=
  fun w =>
    match c with
    | Ok a => Ok (a, w)
    | Raise e => Raise e
    end.

Notation "'do' x <- c ; k" := (io_bind c (fun x => k))
  (at level 10, x name, c at level 100, k at level 200).

Definition uuid4 : IO UUID :=
  fun w => Ok (minted w, mkWorld (N.succ (minted w)) (clock w) (readings w)).

Definition utcnow : IO datetime :=
  fun w => Ok (clock w (readings w), mkWorld (minted w) (clock w) (S (readings w))).

(** A loop over a list that threads an accumulator. *)
Fixpoint io_fold {A B : Type} (body : A -> B -> IO A) (acc : A) (items : list B)
    : IO A :=
  match items with
  | [] => io_ret acc
  | item :: more => do acc' <- body acc item ; io_fold body acc' more
  end.

(** ** Record extractor and orchestrator ([BankExcelImporter]) *)

(** A row of a [DataFrame]: its cells by column, in column order; a sheet is
    its rows, a workbook its sheets by name. *)
Definition row : Set := list (string * value).
Definition DataFrame : Set := list row.
Definition Workbook : Set := list (string * DataFrame).

(** [row.get(column)] and [row.get(column, "")] *)
Definition row_get (r : row) (column : string) : option value :=
  dict_get String.eqb r column.

Definition row_get_or_empty (r : row) (column : string) : value :=
  match row_get r column with
  | Some v => v
  | None => VStr ""
  end.

(** [row.fillna("").to_dict()] *)
Definition fillna_to_dict (r : row) : payload :=
  map (fun cell => (fst cell, match snd cell with VNaN => "" | VStr s => s end)) r.

Definition _collapse_description (r : row) : string :=
  let parts :=
    [ _clean_string (row_get r "descr_1");
      _clean_string (row_get r "descr_2");
      _clean_string (row_get r "descr_3") ] in
  Text.join ", " (filter Text.truthy parts).

(** [pd.read_excel(workbook, sheet_name=..., dtype=str)] with the column
    names stripped; a sheet the workbook lacks is a [ValueError]. *)
Definition _load_sheet (workbook : Workbook) (sheet_name : string) : result DataFrame :=
  match dict_get String.eqb workbook sheet_name with
  | Some dataframe =>
      Ok (map (map (fun cell => (Text.strip (fst cell), snd cell))) dataframe)
  | None => Raise ValueError
  end.

(** [text or "CHF"] *)
Definition or_chf (text : string) : string :=
  if Text.truthy text then text else "CHF".

Section Importer.

(** The date library's verdict on the texts [DateUtil] leaves open. *)
Variable parse_other : string -> result date.

(** The record built for one row, under a newly minted identifier. *)
Definition record_of_row (sheet_name : string) (r : row) : IO BankTransactionRecord :=
  let payload := fillna_to_dict r in
  do transaction_date <- io_lift (_parse_date parse_other (row_get r "transac_date")) ;
  do accounting_date <- io_lift (_parse_date parse_other (row_get r "accounting_date")) ;
  do amount_chf <- io_lift (_parse_decimal (row_get r "amount_chf")) ;
  do debit <- io_lift (_parse_decimal (row_get r "debit")) ;
  do credit <- io_lift (_parse_decimal (row_get r "credit")) ;
  do balance <- io_lift (_parse_decimal (row_get r "balance")) ;
  do fx_rate <- io_lift (_parse_decimal (row_get r "rate")) ;
  do id <- uuid4 ;
  io_ret {| id := id;
            sheet_name := sheet_name;
            account_id := row_get_or_empty r "account_id";
            account_name := row_get_or_empty r "account_name";
            account_holder := row_get_or_empty r "account_holder";
            transaction_date := transaction_date;
            transaction_time := Some (_clean_string (row_get r "transac_hour"));
            accounting_date := accounting_date;
            amount_chf := amount_chf;
            debit := debit;
            credit := credit;
            balance := balance;
            transaction_currency :=
              Some (or_chf (_clean_string (row_get r "transac_currency")));
            fx_rate := fx_rate;
            description := _collapse_description r;
            transaction_number := Some (_clean_string (row_get r "transac_nbr"));
            category := Some (_clean_string (row_get r "category"));
            sub_category := Some (_clean_string (row_get r "sub_category"));
            micro_category := Some (_clean_string (row_get r "micro_category"));
            raw_payload := payload |}.

(** The generator [_iter_records]: one suspended record per row, in row
    order; a record is built when the consumer asks for it. *)
Definition _iter_records (sheet_name : string) (dataframe : DataFrame)
    : list (IO BankTransactionRecord) :=
  map (record_of_row sheet_name) dataframe.

(** What [load] has gathered: the transactions and the raw lookup. *)
Definition Loaded : Type := list NormalisedTransaction * list (UUID * payload).

(** The inner loop of [load], for the next record of the generator. *)
Definition load_record (acc : Loaded) (next : IO BankTransactionRecord) : IO Loaded :=
  do record <- next ;
  let raw_lookup := dict_set N.eqb (snd acc) (id record) (raw_payload record) in
  let classification := classify record in
  do now <- utcnow ;
  do normalised <- io_lift (_normalise_record now record classification) ;
  io_ret ((fst acc ++ [normalised])%list, raw_lookup).

(** The body of the outer loop of [load]. *)
Definition load_sheet (workbook : Workbook) (acc : Loaded) (sheet : string) : IO Loaded :=
  do dataframe <- io_lift (_load_sheet workbook sheet) ;
  io_fold load_record acc (_iter_records sheet dataframe).

Definition load (workbook : Workbook) (sheet_names : list string) : IO Loaded :=
  io_fold (load_sheet workbook) ([], []) sheet_names.

End Importer.

(** ** SQLite repository ([database.py])

    A table is the list of its rows in insertion order.  A row holds the
    values bound to the statement's parameters; an ISO date text is kept as
    the date it writes, the JSON text of a payload as the payload.  What a
    REAL column keeps of a bound float is [stored_real] of it. *)

Record TransactionRow : Set := mkRow {
  row_id : UUID;
  row_sheet_name : string;
  row_account_id : value;
  row_account_name : value;
  row_account_holder : value;
  row_transaction_date : option date;
  row_transaction_time : option string;
  row_accounting_date : option date;
  row_transaction_currency : string;
  row_amount_chf : float;
  row_amount_native : option float;
  row_fx_rate : option float;
  row_debit : option string;
  row_credit : option string;
  row_balance : option float;
  row_description : string;
  row_transaction_number : option string;
  row_category : option string;
  row_sub_category : option string;
  row_micro_category : option string;
  row_inferred_type : string;
  row_inferred_counterparty : option value;
  row_notes : option string;
  row_raw_payload : payload;
  row_created_at : Z
}.

Record FxRow : Set := mkFxRow {
  fx_base : string;
  fx_quote : string;
  fx_valuation_date : date;
  fx_rate_value : float;
  fx_source : string
}.

Record Database : Set := mkDatabase {
  transactions : list TransactionRow;
  fx_rates : list FxRow
}.

(** The schema just initialised: empty tables. *)
Definition empty_database : Database := mkDatabase [] [].

Definition _date_to_iso (value : option date) : option date := value.

(** [created_at.isoformat(timespec="seconds")]: the whole seconds. *)
Definition isoformat_seconds (t : datetime) : Z := (t / 1000000)%Z.

(** The parameters [upsert_transactions] binds for one transaction. *)
Definition row_of_transaction (tx : NormalisedTransaction)
    (raw_lookup : list (UUID * payload)) : TransactionRow :=
  let payload :=
    match dict_get N.eqb raw_lookup (tx_id tx) with
    | Some p => p
    | None => []
    end in
  {| row_id := tx_id tx;
     row_sheet_name := tx_sheet_name tx;
     row_account_id := tx_account_id tx;
     row_account_name := tx_account_name tx;
     row_account_holder := tx_account_holder tx;
     row_transaction_date := _date_to_iso (tx_transaction_date tx);
     row_transaction_time := tx_transaction_time tx;
     row_accounting_date := _date_to_iso (tx_accounting_date tx);
     row_transaction_currency := tx_transaction_currency tx;
     row_amount_chf := tx_amount_chf tx;
     row_amount_native := tx_amount_native tx;
     row_fx_rate := tx_fx_rate tx;
     row_debit := dict_get String.eqb payload "debit";
     row_credit := dict_get String.eqb payload "credit";
     row_balance := tx_balance tx;
     row_description := tx_description tx;
     row_transaction_number := tx_transaction_number tx;
     row_category := tx_category tx;
     row_sub_category := tx_sub_category tx;
     row_micro_category := tx_micro_category tx;
     row_inferred_type := tx_inferred_type tx;
     row_inferred_counterparty := tx_inferred_counterparty tx;
     row_notes := tx_notes tx;
     row_raw_payload := payload;
     row_created_at := isoformat_seconds (tx_created_at tx) |}.

(** [INSERT ... ON CONFLICT(id) DO UPDATE SET] every other column to the
    new value: the row of that [id] is overwritten where it stands, a new
    [id] is appended. *)
Fixpoint upsert_row (table : list TransactionRow) (new : TransactionRow)
    : list TransactionRow :=
  match table with
  | [] => [new]
  | r :: rest =>
      if N.eqb (row_id r) (row_id new) then new :: rest
      else r :: upsert_row rest new
  end.

Definition upsert_transactions (db : Database)
    (txs : list NormalisedTransaction) (raw_lookup : list (UUID * payload))
    : Database :=
  mkDatabase
    (fold_left (fun table tx => upsert_row table (row_of_transaction tx raw_lookup))
               txs (transactions db))
    (fx_rates db).

(** [SELECT ... WHERE id = ?] *)
Definition find_transaction (db : Database) (i : UUID) : option TransactionRow :=
  find (fun r => N.eqb (row_id r) i) (transactions db).

Definition date_eqb (a b : date) : bool :=
  ((year a =? year b) && (month a =? month b) && (day a =? day b))%Z.

(** Chronological order, that of the ISO texts. *)
Definition date_ltb (a b : date) : bool :=
  ((year a <? year b)
   || ((year a =? year b)
       && ((month a <? month b) || ((month a =? month b) && (day a <? day b)))))%Z.

Definition same_fx_key (a b : FxRow) : bool :=
  String.eqb (fx_base a) (fx_base b)
  && String.eqb (fx_quote a) (fx_quote b)
  && date_eqb (fx_valuation_date a) (fx_valuation_date b)
  && String.eqb (fx_source a) (fx_source b).

(** [INSERT OR REPLACE] under [UNIQUE(base, quote, valuation_date, source)]:
    the row in conflict is deleted, the new one appended. *)
Definition upsert_fx_rates (db : Database) (rates : list FxRate) : Database :=
  mkDatabase
    (transactions db)
    (fold_left
       (fun table r =>
          let new := mkFxRow (Text.upper (base r)) (Text.upper (quote r))
                             (valuation_date r) (rate r) (source r) in
          (filter (fun old => negb (same_fx_key old new)) table ++ [new])%list)
       rates (fx_rates db)).

(** A row of the latest valuation date.  Among rows of the same date SQL
    fixes no order; the first in the table is taken here, and nothing is
    stated of the choice. *)
Fixpoint latest_row (best : FxRow) (rows : list FxRow) : FxRow :=
  match rows with
  | [] => best
  | r :: more =>
      latest_row
        (if date_ltb (fx_valuation_date best) (fx_valuation_date r) then r else best)
        more
  end.

(** The rows [WHERE base = ? AND quote = ?] of [get_latest_fx_rate]. *)
Definition fx_candidates (db : Database) (base quote : string) : list FxRow :=
  filter
    (fun r => String.eqb (fx_base r) (Text.upper base)
              && String.eqb (fx_quote r) (Text.upper quote))
    (fx_rates db).

(** [ORDER BY date(valuation_date) DESC LIMIT 1] *)
Definition get_latest_fx_rate (db : Database) (base quote : string) : option float :=
  match fx_candidates db base quote with
  | [] => None
  | first :: more => Some (fx_rate_value (latest_row first more))
  end.

Record CashSummary : Set := mkSummary {
  total_chf : float;
  transaction_count : nat;
  display_currency : string;
  display_total : float;
  fx_missing : bool;
  summary_fx_rate : option float
}.

(** What a REAL column keeps of a float bound to it: SQLite stores a NaN as
    NULL. *)
Definition stored_real (x : float) : option float :=
  if PrimFloat.is_nan x then None else Some x.

(** [COALESCE(SUM(amount_chf), 0.0)]: the amounts that are not NULL are
    added in row order, from zero; a sum that is NaN is returned as NULL,
    and NULL coalesces to zero.  (The addition is the plain one of SQLite
    before 3.44; later versions add with compensation.) *)
Definition sum_amount_chf (table : list TransactionRow) : float :=
  let sum :=
    fold_left
      (fun acc r =>
         match stored_real (row_amount_chf r) with
         | Some amount => PrimFloat.add acc amount
         | None => acc
         end)
      table Float.zero in
  if PrimFloat.is_nan sum then Float.zero else sum.

Definition cash_summary (db : Database) (display_currency : string) : CashSummary :=
  let total_chf := sum_amount_chf (transactions db) in
  let transaction_count := List.length (transactions db) in
  if String.eqb (Text.upper display_currency) "CHF" then
    mkSummary total_chf transaction_count "CHF" total_chf false None
  else
    match get_latest_fx_rate db "CHF" (Text.upper display_currency) with
    | None =>
        mkSummary total_chf transaction_count (Text.upper display_currency)
                  total_chf true None
    | Some rate =>
        mkSummary total_chf transaction_count (Text.upper display_currency)
                  (PrimFloat.mul total_chf rate) false (Some rate)
    end.

(** ** Application service ([services.py]) *)

(** [PortfolioService.import_workbook]: the number of transactions
    persisted, and the store after the upsert. *)
Definition import_workbook (parse_other : string -> result date)
    (workbook : Workbook) (sheet_names : list string) (db : Database)
    : IO (nat * Database) :=
  do loaded <- load parse_other workbook sheet_names ;
  let db' := upsert_transactions db (fst loaded) (snd loaded) in
  io_ret (List.length (fst loaded), db').

(** ** Listing the transactions ([SQLiteRepository.list_transactions])

    [ORDER BY transaction_date DESC, accounting_date DESC, created_at DESC
    LIMIT ?].  The three columns are compared as SQLite compares them: a
    NULL is below every text, ISO texts compare as the dates and times they
    write.  Among rows that agree on the three columns SQLite fixes no
    order; the model keeps the order of insertion, and the properties
    stated hold of any.  A negative limit is no limit; a limit that is no
    64-bit integer cannot be bound and is an [OverflowError]. *)

(** An optional date as an ordered key: NULL first, then the dates in
    chronological order. *)
Definition date_key (d : option date) : list Z :=
  match d with
  | None => [0; 0; 0; 0]%Z
  | Some d => [1; year d; month d; day d]%Z
  end.

Definition order_key (r : TransactionRow) : list Z :=
  (date_key (row_transaction_date r)
   ++ date_key (row_accounting_date r)
   ++ [row_created_at r])%list.

(** Lexicographic order of keys. *)
Fixpoint lex_leb (a b : list Z) : bool :=
  match a, b with
  | [], _ => true
  | _ :: _, [] => false
  | x :: a', y :: b' => ((x <? y) || ((x =? y) && lex_leb a' b'))%Z
  end.

(** [a] may stand before [b] in the listing: it is not older. *)
Definition not_older (a b : TransactionRow) : bool :=
  lex_leb (order_key b) (order_key a).

Fixpoint insert_newest_first (r : TransactionRow) (ordered : list TransactionRow)
    : list TransactionRow :=
  match ordered with
  | [] => [r]
  | x :: rest =>
      if not_older x r then x :: insert_newest_first r rest
      else r :: ordered
  end.

Definition order_by_newest (table : list TransactionRow) : list TransactionRow :=
  fold_right insert_newest_first [] table.

Definition list_transactions (db : Database) (limit : Z)
    : result (list TransactionRow) :=
  if ((limit <? - 2 ^ 63) || (2 ^ 63 <=? limit))%Z then Raise OverflowError
  else if (limit <? 0)%Z then Ok (order_by_newest (transactions db))
  else Ok (firstn (Z.to_nat limit) (order_by_newest (transactions db))).

(** [PortfolioService.recent_transactions] *)
Definition recent_transactions (db : Database) (limit : Z)
    : result (list TransactionRow) :=
  list_transactions db limit.

(** ** Settings and quotes ([database.py]) *)

(** [INSERT OR REPLACE] under a uniqueness constraint: the rows in conflict
    with the new one are deleted, the new one is appended.  [conflict] says
    when two rows agree on the unique columns. *)
Definition insert_or_replace {Row : Type} (conflict : Row -> Row -> bool)
    (table : list Row) (new : Row) : list Row :=
  (filter (fun old => negb (conflict old new)) table ++ [new])%list.

(** [models.Quote] *)
Record Quote : Set := mkQuote {
  quote_symbol : string;
  quote_valuation_date : date;
  quote_price : float;
  quote_currency : string;
  quote_source : string
}.

(** A row of the table [quotes]. *)
Record QuoteRow : Set := mkQuoteRow {
  qrow_symbol : string;
  qrow_valuation_date : date;
  qrow_price : float;
  qrow_currency : string;
  qrow_source : string
}.

(** [UNIQUE(symbol, valuation_date, source)] *)
Definition same_quote_key (a b : QuoteRow) : bool :=
  String.eqb (qrow_symbol a) (qrow_symbol b)
  && date_eqb (qrow_valuation_date a) (qrow_valuation_date b)
  && String.eqb (qrow_source a) (qrow_source b).

(** The parameters [log_quotes] binds for one quote.  A price that is NaN is
    bound as NULL, which the column [price REAL NOT NULL] refuses: the rows
    are those of quotes whose price is a number, and so are the properties
    stated of them. *)
Definition row_of_quote (q : Quote) : QuoteRow :=
  mkQuoteRow (Text.upper (quote_symbol q)) (quote_valuation_date q) (quote_price q)
             (Text.upper (quote_currency q)) (quote_source q).

Definition log_quotes (table : list QuoteRow) (quotes : list Quote) : list QuoteRow :=
  fold_left (fun rows q => insert_or_replace same_quote_key rows (row_of_quote q))
            quotes table.

(** The table [settings]: [key TEXT PRIMARY KEY, value TEXT NOT NULL]. *)
Definition SettingsTable : Set := list (string * string).

Definition same_setting_key (a b : string * string) : bool :=
  String.eqb (fst a) (fst b).

Definition set_setting (settings : SettingsTable) (key value : string)
    : SettingsTable :=
  insert_or_replace same_setting_key settings (key, value).

Definition get_setting (settings : SettingsTable) (key : string)
    (default : option string) : option string :=
  match find (fun row => String.eqb (fst row) key) settings with
  | None => default
  | Some row => Some (snd row)
  end.

(** ** Market data refresh ([services.py])

    The first argument of each stands for the method of the price service
    it calls: what the call returns, or what it raises. *)
Definition refresh_fx_rate
    (fetch_latest_fx_rate : string -> string -> result (option FxRate))
    (base quote : string) (db : Database) : result (option FxRate * Database) :=
  rate <- fetch_latest_fx_rate base quote ;;
  match rate with
  | Some r => Ok (Some r, upsert_fx_rates db [r])
  | None => Ok (None, db)
  end.

Definition refresh_equity_quote (fetch_equity_quote : string -> result (option Quote))
    (symbol : string) (table : list QuoteRow) : result (option Quote * list QuoteRow) :=
  quote <- fetch_equity_quote symbol ;;
  match quote with
  | Some q => Ok (Some q, log_quotes table [q])
  | None => Ok (None, table)
  end.

Definition refresh_crypto_quote (fetch_crypto_quote : string -> result (option Quote))
    (symbol : string) (table : list QuoteRow) : result (option Quote * list QuoteRow) :=
  quote <- fetch_crypto_quote symbol ;;
  match quote with
  | Some q => Ok (Some q, log_quotes table [q])
  | None => Ok (None, table)
  end.

(** ** Request handlers ([api.py])

    [lifespan] opens the SQLite connection when the application starts, in
    the thread of the event loop, and [sqlite3.connect] is called with its
    default [check_same_thread=True].  The handlers are plain [def]
    functions, which the framework runs in a worker thread of its pool.  A
    connection used in another thread than the one that opened it raises
    [sqlite3.ProgrammingError], on whatever method is called first.  A
    handler is modelled on the thread that runs it, on the values it passes
    to the services and on what it answers; routing and the validation of
    the query parameters are the framework's. *)

Inductive thread : Set :=
| EventLoop
| Worker (n : nat).

Definition same_thread (a b : thread) : bool :=
  match a, b with
  | EventLoop, EventLoop => true
  | Worker n, Worker m => Nat.eqb n m
  | _, _ => false
  end.

(** [app.state.repository]: the thread that opened the connection, and
    the tables behind it. *)
Record Repository (Tables : Type) : Type := mkRepository {
  opened_in : thread;
  tables : Tables
}.

Arguments mkRepository {Tables} opened_in tables.
Arguments opened_in {Tables} r.
Arguments tables {Tables} r.

(** The repository [lifespan] creates. *)
Definition lifespan {Tables : Type} (initial : Tables) : Repository Tables :=
  mkRepository EventLoop initial.

(** What a handler lets through: an exception of the services, or the
    refusal of the connection. *)
Inductive uncaught : Set :=
| Propagated (e : exn)
| ProgrammingError.

(** What a request handler does: it answers, raises an [HTTPException]
    with a status code, or lets an exception through. *)
Inductive handled (A : Type) : Type :=
| Answered (a : A)
| HTTPException (status_code : nat)
| Uncaught (u : uncaught).

Arguments Answered {A} a.
Arguments HTTPException {A} status_code.
Arguments Uncaught {A} u.

(** [POST /fx/refresh], run in the thread [caller]: the answer, and the
    tables the request leaves.  The price service is asked first; the
    connection is used only to store a rate that was fetched. *)
Definition api_refresh_fx_rate
    (fetch_latest_fx_rate : string -> string -> result (option FxRate))
    (base quote : string) (repository : Repository Database) (caller : thread)
    : handled FxRate * Database :=
  match refresh_fx_rate fetch_latest_fx_rate (Text.upper base) (Text.upper quote)
          (tables repository) with
  | Ok (Some rate, db') =>
      if same_thread (opened_in repository) caller then (Answered rate, db')
      else (Uncaught ProgrammingError, tables repository)
  | Ok (None, db') => (HTTPException 503, db')
  | Raise e => (Uncaught (Propagated e), tables repository)
  end.

(** [GET /settings/display-currency] and [PUT /settings/display-currency],
    run in the thread [caller]. *)
Definition get_display_currency (repository : Repository SettingsTable)
    (caller : thread) : handled (option string) :=
  if same_thread (opened_in repository) caller
  then Answered (get_setting (tables repository) "display_currency" (Some "CHF"))
  else Uncaught ProgrammingError.

Definition set_display_currency (repository : Repository SettingsTable)
    (caller : thread) (currency : string) : handled string * SettingsTable :=
  if same_thread (opened_in repository) caller
  then (Answered (Text.upper currency),
        set_setting (tables repository) "display_currency" (Text.upper currency))
  else (Uncaught ProgrammingError, tables repository).

(** * Definitions for the statements: specification-level counterparts
    and sample inputs *)

(** ** Sample records *)

(** A record with no amounts and an empty description. *)
Definition blank_record : BankTransactionRecord :=
  {| id := 0%N; sheet_name := "bank"; account_id := VStr "CH01";
     account_name := VStr "Compte courant"; account_holder := VStr "A. Muster";
     transaction_date := None; transaction_time := None; accounting_date := None;
     amount_chf := None; debit := None; credit := None; balance := None;
     transaction_currency := Some "CHF"; fx_rate := None;
     description := ""; transaction_number := None;
     category := None; sub_category := None; micro_category := None;
     raw_payload := [] |}.

(** Field updates: the record [r] with a few fields replaced. *)
Definition with_description (text : string) (r : BankTransactionRecord)
    : BankTransactionRecord :=
  {| id := id r; sheet_name := sheet_name r; account_id := account_id r;
     account_name := account_name r; account_holder := account_holder r;
     transaction_date := transaction_date r; transaction_time := transaction_time r;
     accounting_date := accounting_date r;
     amount_chf := amount_chf r; debit := debit r; credit := credit r;
     balance := balance r;
     transaction_currency := transaction_currency r; fx_rate := fx_rate r;
     description := text; transaction_number := transaction_number r;
     category := category r; sub_category := sub_category r;
     micro_category := micro_category r; raw_payload := raw_payload r |}.

Definition with_amounts (amount debit credit : option float)
    (r : BankTransactionRecord) : BankTransactionRecord :=
  {| id := id r; sheet_name := sheet_name r; account_id := account_id r;
     account_name := account_name r; account_holder := account_holder r;
     transaction_date := transaction_date r; transaction_time := transaction_time r;
     accounting_date := accounting_date r;
     amount_chf := amount; debit := debit; credit := credit;
     balance := balance r;
     transaction_currency := transaction_currency r; fx_rate := fx_rate r;
     description := description r; transaction_number := transaction_number r;
     category := category r; sub_category := sub_category r;
     micro_category := micro_category r; raw_payload := raw_payload r |}.

Definition with_currency (currency : option string) (fx : option float)
    (r : BankTransactionRecord) : BankTransactionRecord :=
  {| id := id r; sheet_name := sheet_name r; account_id := account_id r;
     account_name := account_name r; account_holder := account_holder r;
     transaction_date := transaction_date r; transaction_time := transaction_time r;
     accounting_date := accounting_date r;
     amount_chf := amount_chf r; debit := debit r; credit := credit r;
     balance := balance r;
     transaction_currency := currency; fx_rate := fx;
     description := description r; transaction_number := transaction_number r;
     category := category r; sub_category := sub_category r;
     micro_category := micro_category r; raw_payload := raw_payload r |}.

Definition with_account_name (name : value) (r : BankTransactionRecord)
    : BankTransactionRecord :=
  {| id := id r; sheet_name := sheet_name r; account_id := account_id r;
     account_name := name; account_holder := account_holder r;
     transaction_date := transaction_date r; transaction_time := transaction_time r;
     accounting_date := accounting_date r;
     amount_chf := amount_chf r; debit := debit r; credit := credit r;
     balance := balance r;
     transaction_currency := transaction_currency r; fx_rate := fx_rate r;
     description := description r; transaction_number := transaction_number r;
     category := category r; sub_category := sub_category r;
     micro_category := micro_category r; raw_payload := raw_payload r |}.

(** A fee that was credited: "Frais de tenue de compte", credit 12.5. *)
Definition credited_fee : BankTransactionRecord :=
  with_amounts None None (Some 12.5%float)
    (with_description "Frais de tenue de compte, T1" blank_record).

(** A deposit whose description starts with a comma. *)
Definition anonymous_deposit : BankTransactionRecord :=
  with_amounts None None (Some 12.5%float)
    (with_description " , virement" blank_record).

(** A purchase in dollars: -90 CHF at 0.90 CHF per dollar. *)
Definition dollar_purchase : BankTransactionRecord :=
  with_currency (Some "usd") (Some 0.9%float)
    (with_amounts (Some (-90)%float) None None
       (with_description "Acme Corp, invoice 123" blank_record)).

(** A fee booked on an account whose name cell is the empty text. *)
Definition unnamed_account_fee : BankTransactionRecord :=
  with_account_name (VStr "") (with_description "Annual card fee" blank_record).

(** ** Counterparts of the code used in the statements *)

(** The native amount [_normalise_record] derives. *)
Definition native_amount_of (record : BankTransactionRecord) : option float :=
  match transaction_currency record, fx_rate record with
  | Some currency, Some fx =>
      if Text.truthy currency
         && negb (String.eqb (Text.upper currency) "CHF")
         && Float.truthy fx
      then Some (PrimFloat.div (signed_amount record) fx)
      else None
  | _, _ => None
  end.

(** [s] with every [old] character replaced by the text [new]. *)
Fixpoint subst_char (old : ascii) (new : string) (s : string) : string :=
  match s with
  | EmptyString => EmptyString
  | String c rest =>
      if Ascii.eqb c old then new ++ subst_char old new rest
      else String c (subst_char old new rest)
  end.

(** The normalisation in the specification's words: thousands separators
    (apostrophe, blank) dropped, a decimal comma turned into a point. *)
Fixpoint strip_separators (s : string) : string :=
  match s with
  | EmptyString => EmptyString
  | String c rest =>
      if Ascii.eqb c "'" || Ascii.eqb c " " then strip_separators rest
      else String (if Ascii.eqb c "," then "."%char else c) (strip_separators rest)
  end.

(** [float(Decimal(text))], absent when either step refuses [text]. *)
Definition decimal_literal (text : string) : option float :=
  match Decimal.of_string text with
  | Ok d =>
      match Decimal.to_float d with
      | Ok f => Some f
      | Raise _ => None
      end
  | Raise _ => None
  end.

(** A date library that refuses every text it is asked about. *)
Definition parse_nothing (timestr : string) : result date := Raise ValueError.

(** What the date library documents for a text argument: a parsed value,
    or one of [ValueError] (its [ParserError]) and [OverflowError]. *)
Definition raises_as_documented (parse_other : string -> result date) : Prop :=
  forall (timestr : string) (e : exn),
    parse_other timestr = Raise e -> e = ValueError \/ e = OverflowError.

(** The states of the store: the empty schema and whatever the upserts make
    of it. *)
Inductive reachable : Database -> Prop :=
| reachable_empty : reachable empty_database
| reachable_transactions :
    forall db txs raw_lookup,
      reachable db -> reachable (upsert_transactions db txs raw_lookup)
| reachable_fx_rates :
    forall db rates, reachable db -> reachable (upsert_fx_rates db rates).

(** The test of [WHERE id = ?]. *)
Definition has_id (i : UUID) (r : TransactionRow) : bool := N.eqb (row_id r) i.

(** ** Sample stores and workbooks *)

(** A purchase of [amount] CHF stored under [i]. *)
Definition sample_transaction (i : UUID) (amount : float) (created : datetime)
    : NormalisedTransaction :=
  {| tx_id := i; tx_sheet_name := "bank"; tx_account_id := VStr "CH01";
     tx_account_name := VStr "Compte courant"; tx_account_holder := VStr "A. Muster";
     tx_transaction_date := Some (mkDate 2024 4 3); tx_transaction_time := Some "";
     tx_accounting_date := None; tx_transaction_currency := "CHF";
     tx_amount_chf := amount; tx_amount_native := None; tx_fx_rate := None;
     tx_balance := None; tx_description := "Acme Corp, invoice 123";
     tx_transaction_number := Some "42"; tx_category := Some "";
     tx_sub_category := Some ""; tx_micro_category := Some "";
     tx_inferred_type := "WITHDRAWAL";
     tx_inferred_counterparty := Some (VStr "Acme Corp"); tx_notes := None;
     tx_created_at := created |}.

(** The identifier 7 written on 3 April 2024, and written again a day
    and half a second later with another amount. *)
Definition first_write : NormalisedTransaction :=
  sample_transaction 7%N (-45)%float 1712131200000000%Z.

Definition second_write : NormalisedTransaction :=
  sample_transaction 7%N (-50)%float 1712217600500000%Z.

(** A row that holds, column by column, the values of a transaction: the
    dates as they are written, for debit and credit the texts of the raw
    payload, the payload itself, and the creation time to the second. *)
Definition holds_the_values_of (tx : NormalisedTransaction) (raw : payload)
    (stored : TransactionRow) : Prop :=
  row_id stored = tx_id tx
  /\ row_sheet_name stored = tx_sheet_name tx
  /\ row_account_id stored = tx_account_id tx
  /\ row_account_name stored = tx_account_name tx
  /\ row_account_holder stored = tx_account_holder tx
  /\ row_transaction_date stored = tx_transaction_date tx
  /\ row_transaction_time stored = tx_transaction_time tx
  /\ row_accounting_date stored = tx_accounting_date tx
  /\ row_transaction_currency stored = tx_transaction_currency tx
  /\ row_amount_chf stored = tx_amount_chf tx
  /\ row_amount_native stored = tx_amount_native tx
  /\ row_fx_rate stored = tx_fx_rate tx
  /\ row_debit stored = dict_get String.eqb raw "debit"
  /\ row_credit stored = dict_get String.eqb raw "credit"
  /\ row_balance stored = tx_balance tx
  /\ row_description stored = tx_description tx
  /\ row_transaction_number stored = tx_transaction_number tx
  /\ row_category stored = tx_category tx
  /\ row_sub_category stored = tx_sub_category tx
  /\ row_micro_category stored = tx_micro_category tx
  /\ row_inferred_type stored = tx_inferred_type tx
  /\ row_inferred_counterparty stored = tx_inferred_counterparty tx
  /\ row_notes stored = tx_notes tx
  /\ row_raw_payload stored = raw
  /\ row_created_at stored = (tx_created_at tx / 1000000)%Z.

(** [raw_lookup.get(str(tx.id), {})] *)
Definition raw_payload_of (raw_lookup : list (UUID * payload))
    (tx : NormalisedTransaction) : payload :=
  match dict_get N.eqb raw_lookup (tx_id tx) with
  | Some raw => raw
  | None => []
  end.

(** The sum of a column as SQL defines it, row after row: a NULL, which
    is what a NaN amount is stored as, adds nothing. *)
Inductive running_sum : list TransactionRow -> float -> Prop :=
| sum_of_no_row : running_sum [] 0%float
| sum_with_amount :
    forall rows sum r,
      running_sum rows sum ->
      PrimFloat.is_nan (row_amount_chf r) = false ->
      running_sum (rows ++ [r]) (PrimFloat.add sum (row_amount_chf r))
| sum_with_null :
    forall rows sum r,
      running_sum rows sum ->
      PrimFloat.is_nan (row_amount_chf r) = true ->
      running_sum (rows ++ [r]) sum.

(** A stored rate of CHF in a currency. *)
Definition chf_rate_of (db : Database) (currency : string) (r : FxRow) : Prop :=
  In r (fx_rates db) /\ fx_base r = "CHF" /\ fx_quote r = Text.upper currency.

(** A text of digits and date separators only. *)
Fixpoint plain (s : string) : bool :=
  match s with
  | EmptyString => true
  | String c rest => (Decimal.is_digit c || DateUtil.is_separator c) && plain rest
  end.

(** A decimal digit, its value, and the text of a date written with two
    digits for the day, two for the month and four for the year. *)
Definition is_decimal_digit (c : ascii) : Prop :=
  (48 <= nat_of_ascii c <= 57)%nat.

Definition digit_value (c : ascii) : Z := Z.of_nat (nat_of_ascii c - 48).

Definition is_date_separator (c : ascii) : Prop :=
  c = "."%char \/ c = "/"%char \/ c = "-"%char.

Definition numeric_date (d1 d2 sep m1 m2 y1 y2 y3 y4 : ascii) : string :=
  String d1 (String d2 (String sep (String m1 (String m2 (String sep
    (String y1 (String y2 (String y3 (String y4 EmptyString))))))))).

(** Chronological order as a proposition. *)
Definition date_lt (a b : date) : Prop :=
  (year a < year b
   \/ (year a = year b
       /\ (month a < month b \/ (month a = month b /\ day a < day b))))%Z.

(** A store with two purchases and two CHF to EUR rates, the later one
    stored first. *)
Definition store_with_rates : Database :=
  upsert_fx_rates
    (upsert_transactions empty_database
       [sample_transaction 1%N (-45)%float 0%Z; sample_transaction 2%N (-55)%float 0%Z]
       [])
    [ mkFxRate "chf" "eur" (mkDate 2024 4 3) 1.5%float "ecb";
      mkFxRate "CHF" "EUR" (mkDate 2024 3 28) 1.25%float "ecb" ].

(** A store with a purchase and a row whose amount cell was blank. *)
Definition store_with_blank_amount : Database :=
  upsert_transactions empty_database
    [sample_transaction 1%N PrimFloat.nan 0%Z; sample_transaction 2%N (-55)%float 0%Z]
    [].

(** One data row of a bank statement. *)
Definition statement_row : row :=
  [ ("account_id", VStr "CH01"); ("account_name", VStr "Compte courant");
    ("account_holder", VStr "A. Muster"); ("transac_date", VStr "03.04.2024");
    ("transac_hour", VStr "10:15"); ("accounting_date", VStr "04.04.2024");
    ("debit", VStr "45,00"); ("credit", VStr "0,00");
    ("balance", VStr "1'234,50"); ("transac_currency", VStr "CHF");
    ("descr_1", VStr "Acme Corp"); ("descr_2", VStr "invoice 123");
    ("descr_3", VStr ""); ("transac_nbr", VStr "42"); ("category", VStr "Achats") ].

(** A workbook of one sheet, "bank", with that one row. *)
Definition ledger : Workbook := [("bank", [statement_row])].

(** A world in which no identifier was minted yet and whose clock is read
    on successive days. *)
Definition first_world : World :=
  mkWorld 0%N
    (fun n => nth n [1712131200000000%Z; 1712217600000000%Z] 1712304000000000%Z) 0.

(** The identifiers [uuid4] hands out in [n] calls, [start] having been
    handed out before. *)
Fixpoint ids_from (start : N) (n : nat) : list UUID :=
  match n with
  | O => []
  | S k => start :: ids_from (N.succ start) k
  end.

(** The data rows of one sheet. *)
Definition sheet_rows (workbook : Workbook) (sheet : string) : nat :=
  match dict_get String.eqb workbook sheet with
  | Some dataframe => List.length dataframe
  | None => 0
  end.

(** The data rows of all the requested sheets together. *)
Definition rows_requested (workbook : Workbook) (sheet_names : list string) : nat :=
  fold_right (fun sheet total => sheet_rows workbook sheet + total) 0 sheet_names.

(** A step of [load] that appended [k] transactions under the next [k]
    identifiers. *)
Definition appends (k : nat) (acc acc' : Loaded) (w w' : World) : Prop :=
  exists new : list NormalisedTransaction,
    fst acc' = (fst acc ++ new)%list
    /\ map tx_id new = ids_from (minted w) k
    /\ minted w' = (minted w + N.of_nat k)%N.

(** The store and the world an import leaves. *)
Definition store_after (outcome : result (nat * Database * World)) : Database :=
  match outcome with
  | Ok (_, db, _) => db
  | Raise _ => empty_database
  end.

Definition world_after (outcome : result (nat * Database * World)) : World :=
  match outcome with
  | Ok (_, _, w) => w
  | Raise _ => first_world
  end.

(** The sheet "bank" of [ledger] imported into the empty store, and
    imported again into the store and the world the first run left. *)
Definition first_import : result (nat * Database * World) :=
  import_workbook parse_nothing ledger ["bank"] empty_database first_world.

Definition second_import : result (nat * Database * World) :=
  import_workbook parse_nothing ledger ["bank"]
    (store_after first_import) (world_after first_import).

(** A record whose category, not its description, speaks of fees. *)
Definition fee_category_record : BankTransactionRecord :=
  {| id := 0%N; sheet_name := "bank"; account_id := VStr "CH01";
     account_name := VStr "Compte courant"; account_holder := VStr "A. Muster";
     transaction_date := None; transaction_time := None; accounting_date := None;
     amount_chf := None; debit := None; credit := None; balance := None;
     transaction_currency := Some "CHF"; fx_rate := None;
     description := "Monthly charge"; transaction_number := None;
     category := Some "Bank fees"; sub_category := None; micro_category := None;
     raw_payload := [] |}.

(** The row [rows] leaves where [r] stood: that of the last of [rows] with
    the identifier of [r], or [r] itself. *)
Definition overwritten_by (rows : list TransactionRow) (r : TransactionRow)
    : TransactionRow :=
  match find (has_id (row_id r)) (rev rows) with
  | Some written => written
  | None => r
  end.

(** No two rows of a table are in conflict. *)
Definition conflict_free {Row : Type} (conflict : Row -> Row -> bool)
    (table : list Row) : Prop :=
  ForallOrdPairs (fun a b => conflict a b = false) table.

(** The row the table [fx_rates] holds for a rate. *)
Definition row_of_rate (r : FxRate) : FxRow :=
  mkFxRow (Text.upper (base r)) (Text.upper (quote r))
          (valuation_date r) (rate r) (source r).

(** The rows of a sheet as the importer reads them, each with the name of
    its sheet: column names stripped, in row order; and those of all the
    requested sheets, in the order asked. *)
Definition sheet_source (workbook : Workbook) (sheet : string) : list (string * row) :=
  match _load_sheet workbook sheet with
  | Ok dataframe => map (pair sheet) dataframe
  | Raise _ => []
  end.

Definition source_rows (workbook : Workbook) (sheet_names : list string)
    : list (string * row) :=
  flat_map (sheet_source workbook) sheet_names.

(** A transaction that came from a source row, with its payload on file. *)
Definition loaded_from (raw_lookup : list (UUID * payload))
    (item : string * row) (tx : NormalisedTransaction) : Prop :=
  tx_sheet_name tx = fst item
  /\ tx_description tx = _collapse_description (snd item)
  /\ dict_get N.eqb raw_lookup (tx_id tx) = Some (fillna_to_dict (snd item)).

(** What [load] has gathered after the source rows [items]: a transaction
    per row in order, each with its payload in the raw lookup, under
    identifiers minted before [w]. *)
Definition gathered (items : list (string * row)) (acc : Loaded) (w : World) : Prop :=
  Forall2 (loaded_from (snd acc)) items (fst acc)
  /\ Forall (fun entry => (fst entry < minted w)%N) (snd acc).

(** A stored row that is the audit record of a source row. *)
Definition stored_from (item : string * row) (stored : TransactionRow) : Prop :=
  row_sheet_name stored = fst item
  /\ row_description stored = _collapse_description (snd item)
  /\ row_raw_payload stored = fillna_to_dict (snd item)
  /\ row_debit stored = dict_get String.eqb (fillna_to_dict (snd item)) "debit"
  /\ row_credit stored = dict_get String.eqb (fillna_to_dict (snd item)) "credit".

(** A row of a sheet whose currency, rate and category cells are blank. *)
Definition blank_currency_row : row :=
  [ ("descr_1", VStr "Migros"); ("credit", VStr "10");
    ("transac_currency", VNaN); ("rate", VNaN); ("category", VNaN) ].

(** The description cells of a row that are not empty once trimmed, in
    column order. *)
Definition description_fragments (r : row) : list string :=
  filter Text.truthy
    [ _clean_string (row_get r "descr_1");
      _clean_string (row_get r "descr_2");
      _clean_string (row_get r "descr_3") ].

(** [text or None], as a cell. *)
Definition named (text : string) : option value :=
  match text with
  | EmptyString => None
  | _ => Some (VStr text)
  end.

(** * Properties *)

(** ** Classifier *)

Section Classifier.

Variable record : BankTransactionRecord.

Lemma classify_fee :
  fee_rule record = true ->
  classify record
  = mkClassification "FEE" (Some (account_name record)) (Some "Identified bank fee").
Proof. unfold classify. intros ->. reflexivity. Qed.

Lemma classify_deposit :
  fee_rule record = false -> _is_inflow record = true ->
  classify record = mkClassification "DEPOSIT" (_extract_counterparty record) None.
Proof. unfold classify. intros -> ->. reflexivity. Qed.

Lemma classify_withdrawal :
  fee_rule record = false -> _is_inflow record = false -> _is_outflow record = true ->
  classify record = mkClassification "WITHDRAWAL" (_extract_counterparty record) None.
Proof. unfold classify. intros -> -> ->. reflexivity. Qed.

Lemma classify_unknown :
  fee_rule record = false -> _is_inflow record = false -> _is_outflow record = false ->
  classify record = mkClassification "UNKNOWN" None (Some "Unable to infer direction").
Proof. unfold classify. intros -> -> ->. reflexivity. Qed.

Lemma fee_rule_of_description :
  Text.contains "frais" (Text.lower (description record)) = true
  \/ Text.contains "fee" (Text.lower (description record)) = true ->
  fee_rule record = true.
Proof.
  unfold fee_rule. intros [H | H]; rewrite H.
  - reflexivity.
  - now rewrite orb_true_r.
Qed.

Lemma extract_counterparty_blank :
  Text.strip (Text.before_first_comma (description record)) = "" ->
  _extract_counterparty record = None.
Proof.
  unfold _extract_counterparty. intros ->.
  now destruct (Text.truthy (description record)).
Qed.

End Classifier.

(** C6, as amended.  A record whose lower-cased description contains "frais"
    or "fee", or whose lower-cased category contains "frais", is classified
    FEE with the account name as counterparty and the note
    "Identified bank fee". *)
Theorem fee_rule_classification :
  forall record : BankTransactionRecord,
    Text.contains "frais" (Text.lower (description record)) = true
    \/ Text.contains "fee" (Text.lower (description record)) = true
    \/ Text.contains "frais" (Text.lower (or_empty (category record))) = true ->
    classify record
    = mkClassification "FEE" (Some (account_name record)) (Some "Identified bank fee").
Proof.
  intros record H. apply classify_fee. unfold fee_rule.
  destruct H as [H | [H | H]]; rewrite H.
  - reflexivity.
  - now rewrite orb_true_r.
  - now rewrite orb_true_r.
Qed.

Lemma fee_rule_classification_witness :
  classify credited_fee
  = mkClassification "FEE" (Some (VStr "Compte courant")) (Some "Identified bank fee").
Proof.
  apply (fee_rule_classification credited_fee). left. reflexivity.
Defined.

(** C6, as stated, fails: the description of [credited_fee] contains the fee
    keyword "frais", and its classification carries a note. *)
Lemma fee_classification_carries_a_note :
  Text.contains "frais" (Text.lower (description credited_fee)) = true
  /\ classify credited_fee
     <> mkClassification "FEE" (Some (account_name credited_fee)) None
  /\ notes (classify credited_fee) = Some "Identified bank fee".
Proof.
  split; [reflexivity | split; [discriminate | reflexivity]].
Qed.

(** C7.  [classify] always returns one of the four types, by the first rule
    that matches in the order fee, inflow, outflow, fallback; in particular
    a record whose description contains a fee keyword and that is an inflow
    (credit > 0 with debit = 0) is a FEE and not a DEPOSIT. *)
Theorem classify_first_match_wins :
  forall record : BankTransactionRecord,
    In (inferred_type (classify record)) ["FEE"; "DEPOSIT"; "WITHDRAWAL"; "UNKNOWN"]
    /\ (fee_rule record = true -> inferred_type (classify record) = "FEE")
    /\ (fee_rule record = false -> _is_inflow record = true ->
        inferred_type (classify record) = "DEPOSIT")
    /\ (fee_rule record = false -> _is_inflow record = false ->
        _is_outflow record = true ->
        inferred_type (classify record) = "WITHDRAWAL")
    /\ (fee_rule record = false -> _is_inflow record = false ->
        _is_outflow record = false ->
        inferred_type (classify record) = "UNKNOWN")
    /\ (Text.contains "frais" (Text.lower (description record)) = true
        \/ Text.contains "fee" (Text.lower (description record)) = true ->
        PrimFloat.ltb Float.zero (Float.or_zero (credit record)) = true ->
        PrimFloat.eqb (Float.or_zero (debit record)) Float.zero = true ->
        inferred_type (classify record) = "FEE"
        /\ inferred_type (classify record) <> "DEPOSIT").
Proof.
  intros record. repeat split.
  - unfold classify.
    destruct (fee_rule record); [simpl; tauto |].
    destruct (_is_inflow record); [simpl; tauto |].
    destruct (_is_outflow record); simpl; tauto.
  - intros H. now rewrite (classify_fee record H).
  - intros Hf Hi. now rewrite (classify_deposit record Hf Hi).
  - intros Hf Hi Ho. now rewrite (classify_withdrawal record Hf Hi Ho).
  - intros Hf Hi Ho. now rewrite (classify_unknown record Hf Hi Ho).
  - rewrite (classify_fee record (fee_rule_of_description record H)). reflexivity.
  - rewrite (classify_fee record (fee_rule_of_description record H)). discriminate.
Qed.

Lemma classify_first_match_wins_witness :
  _is_inflow credited_fee = true
  /\ inferred_type (classify credited_fee) = "FEE"
  /\ inferred_type (classify credited_fee) <> "DEPOSIT".
Proof.
  split; [reflexivity |].
  apply (proj2 (proj2 (proj2 (proj2 (proj2 (classify_first_match_wins credited_fee)))))).
  - left. reflexivity.
  - reflexivity.
  - reflexivity.
Defined.

(** C10.  When the fee rule fires the counterparty is the account name as it
    stands, the empty text included; when the inflow or the outflow rule
    decides, a counterparty that strips to the empty text is absent. *)
Theorem fee_counterparty_is_account_name_verbatim :
  forall record : BankTransactionRecord,
    (fee_rule record = true ->
     inferred_counterparty (classify record) = Some (account_name record))
    /\ (fee_rule record = true -> account_name record = VStr "" ->
        inferred_counterparty (classify record) = Some (VStr "")
        /\ inferred_counterparty (classify record) <> None)
    /\ (fee_rule record = false ->
        _is_inflow record = true \/ _is_outflow record = true ->
        Text.strip (Text.before_first_comma (description record)) = "" ->
        inferred_counterparty (classify record) = None).
Proof.
  intros record. split; [| split].
  - intros H. now rewrite (classify_fee record H).
  - intros H Hname. rewrite (classify_fee record H). simpl. rewrite Hname.
    split; [reflexivity | discriminate].
  - intros Hf Hdir Hblank.
    destruct (_is_inflow record) eqn:Hi.
    + rewrite (classify_deposit record Hf Hi). simpl.
      now apply extract_counterparty_blank.
    + destruct Hdir as [Hdir | Ho]; [discriminate |].
      rewrite (classify_withdrawal record Hf Hi Ho). simpl.
      now apply extract_counterparty_blank.
Qed.

Lemma fee_counterparty_is_account_name_verbatim_witness :
  inferred_counterparty (classify unnamed_account_fee) = Some (VStr "")
  /\ inferred_counterparty (classify anonymous_deposit) = None.
Proof.
  split.
  - apply (proj1 (proj2 (fee_counterparty_is_account_name_verbatim unnamed_account_fee)));
      reflexivity.
  - apply (proj2 (proj2 (fee_counterparty_is_account_name_verbatim anonymous_deposit))).
    + reflexivity.
    + left. reflexivity.
    + reflexivity.
Defined.

(** ** Normaliser *)

Lemma float_div_truthy :
  forall a fx : float,
    Float.truthy fx = true -> Float.div a fx = Ok (PrimFloat.div a fx).
Proof.
  unfold Float.truthy, Float.div. intros a fx H.
  destruct (PrimFloat.eqb fx Float.zero); [discriminate | reflexivity].
Qed.

(** [_normalise_record] never raises: the only division it performs has a
    divisor that was tested to be non-zero. *)
Lemma normalise_record_returns :
  forall now record classification,
  exists tx,
    _normalise_record now record classification = Ok tx
    /\ tx_amount_chf tx = signed_amount record
    /\ tx_amount_native tx = native_amount_of record
    /\ tx_transaction_currency tx
       = or_chf (or_empty (transaction_currency record))
    /\ tx_fx_rate tx = fx_rate record
    /\ tx_id tx = id record
    /\ tx_created_at tx = now.
Proof.
  intros now record classification.
  unfold _normalise_record, native_amount_of.
  destruct (transaction_currency record) as [currency |] eqn:Hc;
    destruct (fx_rate record) as [fx |] eqn:Hfx; simpl;
    try (eexists; repeat split; simpl; rewrite ?Hc, ?Hfx; reflexivity).
  destruct (Text.truthy currency && negb (String.eqb (Text.upper currency) "CHF"))
    eqn:Hcur; simpl.
  - destruct (Float.truthy fx) eqn:Ht; simpl.
    + rewrite (float_div_truthy _ _ Ht). simpl.
      eexists; repeat split; simpl; rewrite ?Hc, ?Hfx; reflexivity.
    + eexists; repeat split; simpl; rewrite ?Hc, ?Hfx; reflexivity.
  - eexists; repeat split; simpl; rewrite ?Hc, ?Hfx; reflexivity.
Qed.

Lemma or_zero_spec :
  Float.or_zero None = Float.zero
  /\ forall v : float,
       (PrimFloat.eqb v Float.zero = false /\ Float.or_zero (Some v) = v)
       \/ (PrimFloat.eqb v Float.zero = true /\ Float.or_zero (Some v) = Float.zero).
Proof.
  split; [reflexivity |].
  intros v. unfold Float.or_zero, Float.truthy.
  destruct (PrimFloat.eqb v Float.zero); simpl; [right | left]; now split.
Qed.

(** C2.  The normalised transaction's signed CHF amount is the record's
    [amount_chf] when it is present, and otherwise credit minus debit, where
    an absent credit or debit counts as zero (and a present one as itself,
    a zero of either sign as [0.0]). *)
Theorem normalised_amount_chf :
  forall now record classification,
  exists tx,
    _normalise_record now record classification = Ok tx
    /\ (forall amount, amount_chf record = Some amount -> tx_amount_chf tx = amount)
    /\ (amount_chf record = None ->
        tx_amount_chf tx
        = PrimFloat.sub (Float.or_zero (credit record)) (Float.or_zero (debit record)))
    /\ Float.or_zero None = Float.zero
    /\ (forall v : float,
          (PrimFloat.eqb v Float.zero = false /\ Float.or_zero (Some v) = v)
          \/ (PrimFloat.eqb v Float.zero = true /\ Float.or_zero (Some v) = Float.zero)).
Proof.
  intros now record classification.
  destruct (normalise_record_returns now record classification)
    as (tx & Htx & Hamount & _).
  exists tx. split; [exact Htx |].
  rewrite Hamount. unfold signed_amount.
  split; [| split; [| exact or_zero_spec]].
  - intros amount ->. reflexivity.
  - intros ->. reflexivity.
Qed.

(** The examples of the specification: credit 120.50 with debit 0 gives
    120.50, credit 0 with debit 45 gives -45. *)
Lemma normalised_amount_chf_witness :
  (exists tx,
     _normalise_record 0%Z
       (with_amounts None (Some 0%float) (Some 120.5%float) blank_record)
       (classify blank_record) = Ok tx
     /\ tx_amount_chf tx = 120.5%float)
  /\ (exists tx,
        _normalise_record 0%Z
          (with_amounts None (Some 45%float) (Some 0%float) blank_record)
          (classify blank_record) = Ok tx
        /\ tx_amount_chf tx = (-45)%float).
Proof.
  split.
  - destruct (normalised_amount_chf 0%Z
                (with_amounts None (Some 0%float) (Some 120.5%float) blank_record)
                (classify blank_record)) as (tx & Htx & _ & Hderived & _).
    exists tx. split; [exact Htx |]. rewrite (Hderived eq_refl). reflexivity.
  - destruct (normalised_amount_chf 0%Z
                (with_amounts None (Some 45%float) (Some 0%float) blank_record)
                (classify blank_record)) as (tx & Htx & _ & Hderived & _).
    exists tx. split; [exact Htx |]. rewrite (Hderived eq_refl). reflexivity.
Defined.

Lemma native_amount_of_spec :
  forall (record : BankTransactionRecord) (x : float),
    native_amount_of record = Some x
    <-> String.eqb
          (Text.upper (or_chf (or_empty (transaction_currency record)))) "CHF" = false
        /\ exists fx,
             fx_rate record = Some fx
             /\ PrimFloat.eqb fx Float.zero = false
             /\ x = PrimFloat.div (signed_amount record) fx.
Proof.
  intros record x. unfold native_amount_of, Float.truthy, or_chf, or_empty.
  destruct (transaction_currency record) as [currency |].
  - destruct (Text.truthy currency) eqn:Htext; cbn [andb].
    + destruct (fx_rate record) as [fx |].
      * destruct (String.eqb (Text.upper currency) "CHF") eqn:Hchf; cbn [andb negb].
        -- split; [discriminate | intros [H _]; discriminate H].
        -- destruct (PrimFloat.eqb fx Float.zero) eqn:Hz; cbn [negb].
           ++ split; [discriminate |].
              intros [_ (fx' & Hfx & Hnz & _)]. injection Hfx as <-. congruence.
           ++ split.
              ** intros H. injection H as <-. split; [reflexivity |].
                 exists fx. repeat split; assumption.
              ** intros [_ (fx' & Hfx & _ & ->)]. injection Hfx as <-. reflexivity.
      * split; [discriminate |]. intros [_ (fx' & Hfx & _)]. discriminate Hfx.
    + destruct (fx_rate record); split;
        try discriminate; intros [H _]; cbv in H; discriminate H.
  - split; [discriminate |]. intros [H _]. cbv in H. discriminate H.
Qed.

(** C3.  The native amount is present exactly when the transaction's
    currency is not "CHF" whatever its case and the record has an FX rate
    that is not zero, and it is then the signed CHF amount divided by that
    rate; without an FX rate, or with a zero one, the native amount is
    absent.  In every case a transaction is returned: nothing is raised. *)
Theorem normalised_amount_native :
  forall now record classification,
  exists tx,
    _normalise_record now record classification = Ok tx
    /\ (forall x : float,
          tx_amount_native tx = Some x
          <-> String.eqb (Text.upper (tx_transaction_currency tx)) "CHF" = false
              /\ exists fx,
                   fx_rate record = Some fx
                   /\ PrimFloat.eqb fx Float.zero = false
                   /\ x = PrimFloat.div (tx_amount_chf tx) fx)
    /\ (fx_rate record = None -> tx_amount_native tx = None)
    /\ (forall fx, fx_rate record = Some fx -> PrimFloat.eqb fx Float.zero = true ->
        tx_amount_native tx = None).
Proof.
  intros now record classification.
  destruct (normalise_record_returns now record classification)
    as (tx & Htx & Hamount & Hnative & Hcurrency & _).
  exists tx. split; [exact Htx |].
  rewrite Hnative, Hcurrency, Hamount.
  split; [intros x; apply native_amount_of_spec |].
  split.
  - intros Hnone. destruct (native_amount_of record) as [x |] eqn:Hx; [| reflexivity].
    apply native_amount_of_spec in Hx. destruct Hx as [_ (fx & Hfx & _)]. congruence.
  - intros fx Hfx Hzero.
    destruct (native_amount_of record) as [x |] eqn:Hx; [| reflexivity].
    apply native_amount_of_spec in Hx. destruct Hx as [_ (fx' & Hfx' & Hnz & _)].
    congruence.
Qed.

(** The examples of the specification: -90 CHF in "usd" at 0.90 is -100 in
    the native currency; at a rate of 0 the native amount is absent. *)
Lemma normalised_amount_native_witness :
  (exists tx,
     _normalise_record 0%Z dollar_purchase (classify dollar_purchase) = Ok tx
     /\ tx_amount_native tx = Some (-100)%float)
  /\ (exists tx,
        _normalise_record 0%Z
          (with_currency (Some "USD") (Some 0%float) dollar_purchase)
          (classify dollar_purchase) = Ok tx
        /\ tx_amount_native tx = None).
Proof.
  split.
  - destruct (normalised_amount_native 0%Z dollar_purchase (classify dollar_purchase))
      as (tx & Htx & Hiff & _).
    exists tx. split; [exact Htx |].
    apply Hiff. injection Htx as <-. split; [reflexivity |].
    exists 0.9%float. repeat split.
  - destruct (normalised_amount_native 0%Z
                (with_currency (Some "USD") (Some 0%float) dollar_purchase)
                (classify dollar_purchase))
      as (tx & Htx & _ & _ & Hzero).
    exists tx. split; [exact Htx |].
    now apply (Hzero 0%float).
Defined.

(** ** Decimal parsing *)

Lemma prefix_empty : forall s : string, prefix "" s = true.
Proof. now destruct s. Qed.

Lemma replace_single_char :
  forall (old : ascii) (new s : string),
    Text.replace (String old "") new s = subst_char old new s.
Proof.
  intros old new s. unfold Text.replace.
  induction s as [| c rest IH]; [reflexivity |].
  cbn [Text.replace_from subst_char prefix String.length Nat.sub].
  destruct (ascii_dec old c) as [-> | Hne].
  - rewrite prefix_empty, Ascii.eqb_refl. now rewrite IH.
  - assert (Ascii.eqb c old = false) as ->
      by (apply Ascii.eqb_neq; congruence).
    now rewrite IH.
Qed.

(** The three replacements of [_parse_decimal] are the normalisation the
    specification describes. *)
Lemma replacements_strip_separators :
  forall s : string,
    Text.replace "," "." (Text.replace " " "" (Text.replace "'" "" s))
    = strip_separators s.
Proof.
  intros s. rewrite !replace_single_char.
  induction s as [| c rest IH]; [reflexivity |].
  cbn [subst_char strip_separators].
  destruct (Ascii.eqb_spec c "'") as [-> | Hq]; cbn [orb append].
  - exact IH.
  - cbn [subst_char].
    destruct (Ascii.eqb_spec c " ") as [-> | Hb]; cbn [orb append].
    + exact IH.
    + cbn [subst_char].
      destruct (Ascii.eqb_spec c ",") as [-> | Hc]; cbn [append]; now rewrite IH.
Qed.

Lemma decimal_of_string_raises :
  forall (text : string) (e : exn),
    Decimal.of_string text = Raise e -> e = InvalidOperation.
Proof.
  intros text e. unfold Decimal.of_string.
  destruct (Decimal.split_sign _) as [negative body].
  destruct (Decimal.parse_number body) as [[coefficient exponent] |]; [discriminate |].
  destruct (_ || _); [discriminate |].
  destruct (Decimal.parse_nan _) as [[signaling diagnostic] |]; [discriminate |].
  now intros [= <-].
Qed.

Lemma decimal_to_float_raises :
  forall (d : Decimal.decimal) (e : exn),
    Decimal.to_float d = Raise e -> e = ValueError.
Proof.
  intros [negative coefficient exponent | negative | negative [|] diagnostic] e;
    cbn; try discriminate.
  now intros [= <-].
Qed.

Lemma parse_decimal_of_text :
  forall v : value,
    Text.truthy (Text.strip (str_of v)) = true ->
    _parse_decimal (Some v)
    = Ok (decimal_literal (strip_separators (Text.strip (str_of v)))).
Proof.
  intros v Hfilled. unfold _parse_decimal, decimal_literal.
  rewrite Hfilled. cbn [negb]. rewrite replacements_strip_separators.
  destruct (Decimal.of_string _) as [d | e] eqn:Hd; cbn [bind try_except].
  - destruct (Decimal.to_float d) as [f | e] eqn:Hf; cbn [bind try_except].
    + reflexivity.
    + now rewrite (decimal_to_float_raises d e Hf).
  - now rewrite (decimal_of_string_raises _ e Hd).
Qed.

(** C8.  Decimal parsing never raises; on a filled cell it reads the text
    with apostrophes and blanks dropped and commas turned into points, so
    "1'234,50" is 1234.50; a missing or empty cell, and a text that is no
    decimal literal such as "abc", give an absent value. *)
Theorem parse_decimal_tolerant :
  (forall value : option value, exists parsed, _parse_decimal value = Ok parsed)
  /\ (forall v : value,
        Text.truthy (Text.strip (str_of v)) = true ->
        _parse_decimal (Some v)
        = Ok (decimal_literal (strip_separators (Text.strip (str_of v)))))
  /\ (forall v : value,
        decimal_literal (strip_separators (Text.strip (str_of v))) = None ->
        _parse_decimal (Some v) = Ok None)
  /\ _parse_decimal (Some (VStr "1'234,50")) = Ok (Some 1234.5%float)
  /\ _parse_decimal (Some (VStr "1 234,50")) = Ok (Some 1234.5%float)
  /\ _parse_decimal None = Ok None
  /\ _parse_decimal (Some (VStr "")) = Ok None
  /\ _parse_decimal (Some (VStr "abc")) = Ok None.
Proof.
  assert (Hempty : forall v, Text.truthy (Text.strip (str_of v)) = false ->
                             _parse_decimal (Some v) = Ok None).
  { intros v H. unfold _parse_decimal. now rewrite H. }
  split; [| split; [exact parse_decimal_of_text | split]].
  - intros [v |]; [| now exists None].
    destruct (Text.truthy (Text.strip (str_of v))) eqn:Hfilled.
    + rewrite (parse_decimal_of_text v Hfilled). eauto.
    + rewrite (Hempty v Hfilled). eauto.
  - intros v Hnone.
    destruct (Text.truthy (Text.strip (str_of v))) eqn:Hfilled.
    + now rewrite (parse_decimal_of_text v Hfilled), Hnone.
    + exact (Hempty v Hfilled).
  - repeat split; vm_compute; reflexivity.
Qed.

Lemma parse_decimal_tolerant_witness :
  _parse_decimal (Some (VStr " 12'500,75 ")) = Ok (Some 12500.75%float)
  /\ _parse_decimal (Some (VStr "12.5.0")) = Ok None.
Proof.
  destruct parse_decimal_tolerant as (_ & Hfilled & Hnone & _).
  split.
  - rewrite (Hfilled (VStr " 12'500,75 ") eq_refl). vm_compute. reflexivity.
  - apply (Hnone (VStr "12.5.0")). vm_compute. reflexivity.
Defined.

(** ** Date parsing *)

Lemma build_raises :
  forall (y m d : Z) (e : exn), DateUtil.build y m d = Raise e -> e = ValueError.
Proof.
  intros y m d e. unfold DateUtil.build.
  destruct (_ && _); [discriminate | now intros [= <-]].
Qed.

Lemma resolve_ymd_raises :
  forall (dayfirst : bool) (a b c : Z) (e : exn),
    DateUtil.resolve_ymd dayfirst a b c = Raise e -> e = ValueError.
Proof.
  intros dayfirst a b c e. unfold DateUtil.resolve_ymd.
  destruct (31 <? a)%Z; [apply build_raises |].
  destruct (_ || _); apply build_raises.
Qed.

Section DateParsing.

Variable parse_other : string -> result date.
Hypothesis parse_other_documented : raises_as_documented parse_other.

Lemma dateutil_parse_raises :
  forall (dayfirst : bool) (timestr : string) (e : exn),
    DateUtil.parse parse_other dayfirst timestr = Raise e ->
    e = ValueError \/ e = OverflowError.
Proof.
  intros dayfirst timestr e. unfold DateUtil.parse.
  destruct (DateUtil.numeric_fields timestr) as [[[a b] c] |].
  - intros H. left. exact (resolve_ymd_raises _ _ _ _ _ H).
  - apply parse_other_documented.
Qed.

Lemma parse_date_returns :
  forall value : option value, exists parsed, _parse_date parse_other value = Ok parsed.
Proof.
  intros [v |]; [| now exists None].
  unfold _parse_date.
  destruct (_ || _); [now exists None |].
  destruct (DateUtil.parse parse_other true _) as [parsed | e] eqn:Hparse;
    cbn [bind try_except].
  - now exists (Some parsed).
  - destruct (dateutil_parse_raises _ _ _ Hparse) as [-> | ->]; now exists None.
Qed.

Lemma parse_date_unparsable :
  forall (v : value) (e : exn),
    DateUtil.parse parse_other true
      (Text.replace "[$]" "" (Text.strip (str_of v))) = Raise e ->
    _parse_date parse_other (Some v) = Ok None.
Proof.
  intros v e Hparse. unfold _parse_date.
  destruct (_ || _); [reflexivity |].
  rewrite Hparse. cbn [bind try_except].
  destruct (dateutil_parse_raises _ _ _ Hparse) as [-> | ->]; reflexivity.
Qed.

End DateParsing.

(** *** Numeric dates *)

Lemma plain_char :
  forall c : ascii,
    Decimal.is_digit c || DateUtil.is_separator c = true ->
    Text.is_space c = false /\ c <> "["%char.
Proof.
  intros [[] [] [] [] [] [] [] []]; cbn; intros H; try discriminate H;
    split; try reflexivity; discriminate.
Qed.

Lemma strip_plain : forall s : string, plain s = true -> Text.strip s = s.
Proof.
  intros s Hplain. unfold Text.strip.
  assert (Hleft : Text.lstrip s = s).
  { destruct s as [| c rest]; [reflexivity |]. cbn [plain] in Hplain.
    apply andb_prop in Hplain. destruct Hplain as [Hc _].
    cbn [Text.lstrip]. now rewrite (proj1 (plain_char c Hc)). }
  rewrite Hleft. clear Hleft.
  induction s as [| c rest IH]; [reflexivity |].
  cbn [plain] in Hplain. apply andb_prop in Hplain. destruct Hplain as [Hc Hrest].
  cbn [Text.rstrip]. rewrite (IH Hrest), (proj1 (plain_char c Hc)).
  now destruct rest.
Qed.

Lemma replace_plain :
  forall s : string, plain s = true -> Text.replace "[$]" "" s = s.
Proof.
  unfold Text.replace. induction s as [| c rest IH]; [reflexivity |].
  cbn [plain]. intros Hplain. apply andb_prop in Hplain. destruct Hplain as [Hc Hrest].
  cbn [Text.replace_from prefix].
  destruct (ascii_dec "[" c) as [Heq | _].
  - exfalso. now apply (proj2 (plain_char c Hc)).
  - now rewrite (IH Hrest).
Qed.

Lemma is_digit_of_decimal_digit :
  forall c : ascii, is_decimal_digit c -> Decimal.is_digit c = true.
Proof.
  intros c [Hlow Hhigh]. unfold Decimal.is_digit.
  now rewrite (proj2 (Nat.leb_le _ _) Hlow), (proj2 (Nat.leb_le _ _) Hhigh).
Qed.

Lemma digit_value_bounds :
  forall c : ascii, is_decimal_digit c -> (0 <= digit_value c <= 9)%Z.
Proof. intros c [Hlow Hhigh]. unfold digit_value. lia. Qed.

Lemma separator_is_separator :
  forall c : ascii,
    is_date_separator c ->
    DateUtil.is_separator c = true /\ Decimal.is_digit c = false.
Proof. intros c [-> | [-> | ->]]; split; reflexivity. Qed.

Lemma span_digits_digit :
  forall (c : ascii) (s : string),
    Decimal.is_digit c = true ->
    Decimal.span_digits (String c s)
    = (String c (fst (Decimal.span_digits s)), snd (Decimal.span_digits s)).
Proof.
  intros c s Hc. cbn [Decimal.span_digits]. rewrite Hc.
  now destruct (Decimal.span_digits s).
Qed.

Lemma span_digits_stop :
  forall (c : ascii) (s : string),
    Decimal.is_digit c = false ->
    Decimal.span_digits (String c s) = (EmptyString, String c s).
Proof. intros c s Hc. cbn [Decimal.span_digits]. now rewrite Hc. Qed.

Lemma days_in_month_at_least_28 :
  forall y m : Z, (28 <= DateUtil.days_in_month y m)%Z.
Proof.
  intros y m. unfold DateUtil.days_in_month.
  destruct (m =? 2)%Z; [destruct (DateUtil.is_leap y); lia |].
  destruct (_ || _); lia.
Qed.

Section NumericDates.

Variables d1 d2 sep m1 m2 y1 y2 y3 y4 : ascii.
Hypothesis day_digits : is_decimal_digit d1 /\ is_decimal_digit d2.
Hypothesis month_digits : is_decimal_digit m1 /\ is_decimal_digit m2.
Hypothesis year_digits :
  is_decimal_digit y1 /\ is_decimal_digit y2
  /\ is_decimal_digit y3 /\ is_decimal_digit y4.
Hypothesis separator : is_date_separator sep.

Lemma numeric_date_plain :
  plain (numeric_date d1 d2 sep m1 m2 y1 y2 y3 y4) = true.
Proof.
  destruct day_digits as [H1 H2], month_digits as [H3 H4],
    year_digits as (H5 & H6 & H7 & H8).
  unfold numeric_date. cbn [plain].
  rewrite (is_digit_of_decimal_digit d1 H1), (is_digit_of_decimal_digit d2 H2),
    (is_digit_of_decimal_digit m1 H3), (is_digit_of_decimal_digit m2 H4),
    (is_digit_of_decimal_digit y1 H5), (is_digit_of_decimal_digit y2 H6),
    (is_digit_of_decimal_digit y3 H7), (is_digit_of_decimal_digit y4 H8).
  now rewrite (proj1 (separator_is_separator sep separator)), !orb_true_r.
Qed.

Lemma numeric_fields_of_numeric_date :
  DateUtil.numeric_fields (numeric_date d1 d2 sep m1 m2 y1 y2 y3 y4)
  = Some ((10 * digit_value d1 + digit_value d2)%Z,
          (10 * digit_value m1 + digit_value m2)%Z,
          (1000 * digit_value y1 + 100 * digit_value y2
           + 10 * digit_value y3 + digit_value y4)%Z).
Proof.
  destruct day_digits as [H1 H2], month_digits as [H3 H4],
    year_digits as (H5 & H6 & H7 & H8).
  destruct (separator_is_separator sep separator) as [Hsep Hstop].
  apply is_digit_of_decimal_digit in H1, H2, H3, H4, H5, H6, H7, H8.
  unfold DateUtil.numeric_fields, numeric_date.
  rewrite (span_digits_digit d1), (span_digits_digit d2), (span_digits_stop sep)
    by assumption.
  cbn [fst snd].
  rewrite (span_digits_digit m1), (span_digits_digit m2), (span_digits_stop sep)
    by assumption.
  cbn [fst snd].
  rewrite (span_digits_digit y1), (span_digits_digit y2), (span_digits_digit y3),
    (span_digits_digit y4) by assumption.
  cbn [Decimal.span_digits fst snd].
  rewrite Hsep, Ascii.eqb_refl.
  cbn [andb DateUtil.short_field String.length Nat.eqb orb negb Text.truthy
       Decimal.digits_value].
  unfold digit_value. do 2 f_equal; [f_equal |]; lia.
Qed.

End NumericDates.

Lemma digit_is_no_letter :
  forall c : ascii,
    Decimal.is_digit c = true ->
    Ascii.eqb c "N" = false /\ Ascii.eqb c "n" = false.
Proof.
  intros [[] [] [] [] [] [] [] []]; cbn; intros H; try discriminate H;
    split; reflexivity.
Qed.

Lemma parse_date_of_numeric_date :
  forall (parse_other : string -> result date)
         (d1 d2 sep m1 m2 y1 y2 y3 y4 : ascii),
    is_decimal_digit d1 /\ is_decimal_digit d2 ->
    is_decimal_digit m1 /\ is_decimal_digit m2 ->
    is_decimal_digit y1 /\ is_decimal_digit y2
    /\ is_decimal_digit y3 /\ is_decimal_digit y4 ->
    is_date_separator sep ->
    let day := (10 * digit_value d1 + digit_value d2)%Z in
    let month := (10 * digit_value m1 + digit_value m2)%Z in
    let year := (1000 * digit_value y1 + 100 * digit_value y2
                 + 10 * digit_value y3 + digit_value y4)%Z in
    (1 <= day <= 28)%Z -> (1 <= month <= 12)%Z -> (1 <= year)%Z ->
    _parse_date parse_other (Some (VStr (numeric_date d1 d2 sep m1 m2 y1 y2 y3 y4)))
    = Ok (Some (mkDate year month day)).
Proof.
  intros parse_other d1 d2 sep m1 m2 y1 y2 y3 y4 Hday Hmonth Hyear Hsep
    day month year Hd Hm Hy.
  pose proof (numeric_date_plain d1 d2 sep m1 m2 y1 y2 y3 y4 Hday Hmonth Hyear Hsep)
    as Hplain.
  pose proof (numeric_fields_of_numeric_date d1 d2 sep m1 m2 y1 y2 y3 y4
                Hday Hmonth Hyear Hsep) as Hfields.
  fold day month year in Hfields.
  assert (Hyear_max : (year <= 9999)%Z).
  { destruct Hyear as (H5 & H6 & H7 & H8).
    apply digit_value_bounds in H5, H6, H7, H8. unfold year. lia. }
  unfold _parse_date. cbn [str_of]. rewrite (strip_plain _ Hplain).
  assert (Hkept :
    negb (Text.truthy (numeric_date d1 d2 sep m1 m2 y1 y2 y3 y4))
    || String.eqb (numeric_date d1 d2 sep m1 m2 y1 y2 y3 y4) "NaT"
    || String.eqb (numeric_date d1 d2 sep m1 m2 y1 y2 y3 y4) "nan" = false).
  { unfold numeric_date. cbn [Text.truthy negb orb String.eqb].
    destruct (digit_is_no_letter d1
                (is_digit_of_decimal_digit d1 (proj1 Hday))) as [-> ->].
    reflexivity. }
  rewrite Hkept, (replace_plain _ Hplain).
  unfold DateUtil.parse. rewrite Hfields. unfold DateUtil.resolve_ymd.
  destruct (Z.ltb_spec 31 day); [lia |].
  destruct (Z.leb_spec month 12); [| lia].
  rewrite orb_true_r. unfold DateUtil.build.
  pose proof (days_in_month_at_least_28 year month) as Hlength.
  destruct (Z.leb_spec 1 year); [| lia].
  destruct (Z.leb_spec year 9999); [| lia].
  destruct (Z.leb_spec 1 month); [| lia].
  destruct (Z.leb_spec month 12); [| lia].
  destruct (Z.leb_spec 1 day); [| lia].
  destruct (Z.leb_spec day (DateUtil.days_in_month year month)); [| lia].
  cbn [andb bind try_except]. reflexivity.
Qed.

Lemma parse_date_asks_the_library :
  forall (parse_other : string -> result date),
    raises_as_documented parse_other ->
    forall v : value,
      Text.strip (str_of v) <> "" ->
      Text.strip (str_of v) <> "NaT" ->
      Text.strip (str_of v) <> "nan" ->
      DateUtil.numeric_fields (Text.replace "[$]" "" (Text.strip (str_of v))) = None ->
      _parse_date parse_other (Some v)
      = match parse_other (Text.replace "[$]" "" (Text.strip (str_of v))) with
        | Ok parsed => Ok (Some parsed)
        | Raise _ => Ok None
        end.
Proof.
  intros parse_other Hdocumented v Hfilled Hnat Hnan Hfields.
  unfold _parse_date.
  destruct (Text.strip (str_of v)) as [| c rest] eqn:Htext; [contradiction |].
  cbn [Text.truthy negb orb].
  destruct (String.eqb_spec (String c rest) "NaT"); [contradiction |].
  destruct (String.eqb_spec (String c rest) "nan"); [contradiction |].
  cbn [orb]. unfold DateUtil.parse. rewrite Hfields.
  destruct (parse_other _) as [parsed | e] eqn:Hparse; cbn [bind try_except];
    [reflexivity |].
  destruct (Hdocumented _ _ Hparse) as [-> | ->]; reflexivity.
Qed.

(** Day first: of two leading members that could both be a month, the first
    is the day. *)
Lemma resolve_ymd_dayfirst :
  forall first second third : Z,
    (first <= 31)%Z -> (second <= 12)%Z ->
    DateUtil.resolve_ymd true first second third = DateUtil.build third second first.
Proof.
  intros first second third H31 H12. unfold DateUtil.resolve_ymd.
  destruct (Z.ltb_spec 31 first); [lia |].
  destruct (Z.leb_spec second 12); [| lia].
  now rewrite orb_true_r.
Qed.

(** C9.  With a date library that raises nothing but what it documents,
    date parsing never raises: it returns a date or an absent value for
    every cell.  "NaT", "nan" and the empty text are absent, and so is every
    text the library refuses; numeric dates are read day first, so
    "03.04.2024" is the 3rd of April 2024: every text of two digits, two
    digits and four digits joined by one of the separators is the date of
    that day, month and year, also where the day could be a month.  Of
    every other text the date is the one the library returns. *)
Theorem parse_date_total_dayfirst :
  forall parse_other : string -> result date,
    raises_as_documented parse_other ->
    (forall value : option value,
       exists parsed, _parse_date parse_other value = Ok parsed)
    /\ _parse_date parse_other (Some (VStr "NaT")) = Ok None
    /\ _parse_date parse_other (Some (VStr "nan")) = Ok None
    /\ _parse_date parse_other (Some (VStr "")) = Ok None
    /\ _parse_date parse_other (Some VNaN) = Ok None
    /\ _parse_date parse_other None = Ok None
    /\ (forall (v : value) (e : exn),
          DateUtil.parse parse_other true
            (Text.replace "[$]" "" (Text.strip (str_of v))) = Raise e ->
          _parse_date parse_other (Some v) = Ok None)
    /\ _parse_date parse_other (Some (VStr "03.04.2024")) = Ok (Some (mkDate 2024 4 3))
    /\ _parse_date parse_other (Some (VStr "03/04/2024")) = Ok (Some (mkDate 2024 4 3))
    /\ (forall first second third : Z,
          (first <= 31)%Z -> (second <= 12)%Z ->
          DateUtil.resolve_ymd true first second third
          = DateUtil.build third second first)
    /\ (forall d1 d2 sep m1 m2 y1 y2 y3 y4 : ascii,
          is_decimal_digit d1 /\ is_decimal_digit d2 ->
          is_decimal_digit m1 /\ is_decimal_digit m2 ->
          is_decimal_digit y1 /\ is_decimal_digit y2
          /\ is_decimal_digit y3 /\ is_decimal_digit y4 ->
          is_date_separator sep ->
          let day := (10 * digit_value d1 + digit_value d2)%Z in
          let month := (10 * digit_value m1 + digit_value m2)%Z in
          let year := (1000 * digit_value y1 + 100 * digit_value y2
                       + 10 * digit_value y3 + digit_value y4)%Z in
          (1 <= day <= 28)%Z -> (1 <= month <= 12)%Z -> (1 <= year)%Z ->
          _parse_date parse_other
            (Some (VStr (numeric_date d1 d2 sep m1 m2 y1 y2 y3 y4)))
          = Ok (Some (mkDate year month day)))
    /\ (forall v : value,
          Text.strip (str_of v) <> "" ->
          Text.strip (str_of v) <> "NaT" ->
          Text.strip (str_of v) <> "nan" ->
          DateUtil.numeric_fields (Text.replace "[$]" "" (Text.strip (str_of v)))
          = None ->
          _parse_date parse_other (Some v)
          = match parse_other (Text.replace "[$]" "" (Text.strip (str_of v))) with
            | Ok parsed => Ok (Some parsed)
            | Raise _ => Ok None
            end).
Proof.
  intros parse_other Hdocumented.
  split; [exact (parse_date_returns parse_other Hdocumented) |].
  do 5 (split; [reflexivity |]).
  split; [exact (parse_date_unparsable parse_other Hdocumented) |].
  do 2 (split; [reflexivity |]).
  split; [exact resolve_ymd_dayfirst |].
  split; [exact (parse_date_of_numeric_date parse_other) |].
  exact (parse_date_asks_the_library parse_other Hdocumented).
Qed.

Lemma parse_date_total_dayfirst_witness :
  _parse_date parse_nothing (Some (VStr "03.04.2024")) = Ok (Some (mkDate 2024 4 3))
  /\ _parse_date parse_nothing (Some (VStr "yesterday")) = Ok None.
Proof.
  assert (Hdocumented : raises_as_documented parse_nothing).
  { intros timestr e [= <-]. now left. }
  destruct (parse_date_total_dayfirst parse_nothing Hdocumented)
    as (_ & _ & _ & _ & _ & _ & Hrefused & _ & _ & _ & Hnumeric & _).
  split; [| apply (Hrefused (VStr "yesterday") ValueError); reflexivity].
  apply (Hnumeric "0" "3" "." "0" "4" "2" "0" "2" "4")%char.
  - unfold is_decimal_digit. cbn. lia.
  - unfold is_decimal_digit. cbn. lia.
  - unfold is_decimal_digit. cbn. lia.
  - now left.
  - change (1 <= 3 <= 28)%Z. lia.
  - change (1 <= 4 <= 12)%Z. lia.
  - change (1 <= 2024)%Z. lia.
Defined.

(** ** The transactions table *)

Lemma upsert_row_ids :
  forall (table : list TransactionRow) (new : TransactionRow),
    map row_id (upsert_row table new)
    = if existsb (has_id (row_id new)) table
      then map row_id table
      else (map row_id table ++ [row_id new])%list.
Proof.
  intros table new. induction table as [| r rest IH]; [reflexivity |].
  cbn [upsert_row existsb map]. unfold has_id at 1.
  destruct (N.eqb_spec (row_id r) (row_id new)) as [Heq | Hne]; cbn [orb map].
  - now rewrite Heq.
  - rewrite IH. now destruct (existsb _ rest).
Qed.

Lemma existsb_has_id_false :
  forall (table : list TransactionRow) (i : UUID),
    existsb (has_id i) table = false -> ~ In i (map row_id table).
Proof.
  intros table i. induction table as [| r rest IH]; [intros _ [] |].
  cbn [existsb map]. unfold has_id at 1.
  destruct (N.eqb_spec (row_id r) i) as [Heq | Hne]; [discriminate |].
  cbn [orb]. intros H [Hin | Hin]; [contradiction | now apply IH].
Qed.

Lemma upsert_row_nodup :
  forall (table : list TransactionRow) (new : TransactionRow),
    NoDup (map row_id table) -> NoDup (map row_id (upsert_row table new)).
Proof.
  intros table new Hnodup. rewrite upsert_row_ids.
  destruct (existsb _ table) eqn:Hknown; [exact Hnodup |].
  apply NoDup_app; [exact Hnodup | repeat constructor; intros [] |].
  intros i Hin [<- | []].
  exact (existsb_has_id_false table _ Hknown Hin).
Qed.

Lemma upsert_rows_nodup :
  forall (rows : list TransactionRow) (table : list TransactionRow),
    NoDup (map row_id table) ->
    NoDup (map row_id (fold_left upsert_row rows table)).
Proof.
  induction rows as [| r more IH]; intros table Hnodup; [exact Hnodup |].
  cbn [fold_left]. apply IH. now apply upsert_row_nodup.
Qed.

Lemma upsert_transactions_rows :
  forall (txs : list NormalisedTransaction) raw_lookup (table : list TransactionRow),
    fold_left (fun t tx => upsert_row t (row_of_transaction tx raw_lookup)) txs table
    = fold_left upsert_row (map (fun tx => row_of_transaction tx raw_lookup) txs) table.
Proof.
  induction txs as [| tx more IH]; intros raw_lookup table; [reflexivity |].
  cbn [fold_left map]. apply IH.
Qed.

Lemma reachable_nodup :
  forall db : Database, reachable db -> NoDup (map row_id (transactions db)).
Proof.
  induction 1 as [| db txs raw_lookup _ IH | db rates _ IH].
  - constructor.
  - cbn [upsert_transactions transactions].
    rewrite upsert_transactions_rows. now apply upsert_rows_nodup.
  - exact IH.
Qed.

Lemma find_upsert_row :
  forall (table : list TransactionRow) (new : TransactionRow) (i : UUID),
    find (has_id i) (upsert_row table new)
    = if N.eqb (row_id new) i then Some new else find (has_id i) table.
Proof.
  intros table new i. induction table as [| r rest IH].
  - cbn [upsert_row find]. unfold has_id. now destruct (N.eqb (row_id new) i).
  - cbn [upsert_row].
    destruct (N.eqb_spec (row_id r) (row_id new)) as [Heq | Hne].
    + cbn [find]. unfold has_id. rewrite Heq.
      now destruct (N.eqb (row_id new) i).
    + cbn [find]. rewrite IH. unfold has_id at 1 3.
      destruct (N.eqb_spec (row_id r) i) as [Hi | Hi]; [| reflexivity].
      destruct (N.eqb_spec (row_id new) i) as [Hn | Hn]; [congruence | reflexivity].
Qed.

Lemma find_last :
  forall {A : Type} (p : A -> bool) (l : list A) (x : A),
    find p (l ++ [x])
    = match find p l with
      | Some y => Some y
      | None => if p x then Some x else None
      end.
Proof.
  intros A p l x. induction l as [| a l IH]; [reflexivity |].
  cbn [app find]. now destruct (p a).
Qed.

(** The row a batch leaves for an identifier is that of the last
    transaction of the batch that carries it. *)
Lemma find_upsert_transactions :
  forall (txs : list NormalisedTransaction) raw_lookup (db : Database) (i : UUID),
    find_transaction (upsert_transactions db txs raw_lookup) i
    = match find (fun tx => N.eqb (tx_id tx) i) (rev txs) with
      | Some tx => Some (row_of_transaction tx raw_lookup)
      | None => find_transaction db i
      end.
Proof.
  intros txs raw_lookup [table fx] i.
  unfold find_transaction, upsert_transactions. cbn [transactions].
  revert table. induction txs as [| tx more IH]; intros table; [reflexivity |].
  cbn [fold_left rev]. rewrite IH, find_last.
  destruct (find _ (rev more)); [reflexivity |].
  fold (has_id i). rewrite find_upsert_row. cbn [row_of_transaction row_id].
  now destruct (N.eqb (tx_id tx) i).
Qed.

Lemma upsert_known_length :
  forall (table : list TransactionRow) (new old : TransactionRow),
    find (has_id (row_id new)) table = Some old ->
    List.length (upsert_row table new) = List.length table.
Proof.
  intros table new old Hfind.
  rewrite <- (length_map row_id (upsert_row table new)), upsert_row_ids.
  destruct (existsb _ table) eqn:Hknown; [apply length_map |].
  apply find_some in Hfind. destruct Hfind as [Hin Hid].
  assert (existsb (has_id (row_id new)) table = true) as Hknown'
    by (apply existsb_exists; eauto).
  congruence.
Qed.

(** C4.  In every state of the store no two rows of the transactions table
    share an identifier; an upsert leaves under the transaction's identifier
    the row of the values just written, [created_at] included, in place of
    the row that was there, and leaves the other rows alone.  Within a
    batch the last transaction of an identifier wins.  The row written for
    a transaction holds the transaction's value in every column, whatever
    the row of that identifier held before. *)
Theorem one_row_per_identifier_last_write_wins :
  forall db : Database,
    reachable db ->
    NoDup (map row_id (transactions db))
    /\ (forall tx raw_lookup,
          let db' := upsert_transactions db [tx] raw_lookup in
          NoDup (map row_id (transactions db'))
          /\ find_transaction db' (tx_id tx) = Some (row_of_transaction tx raw_lookup)
          /\ row_created_at (row_of_transaction tx raw_lookup)
             = isoformat_seconds (tx_created_at tx)
          /\ (forall old, find_transaction db (tx_id tx) = Some old ->
              List.length (transactions db') = List.length (transactions db))
          /\ (forall j, j <> tx_id tx ->
              find_transaction db' j = find_transaction db j))
    /\ (forall txs raw_lookup i,
          find_transaction (upsert_transactions db txs raw_lookup) i
          = match find (fun tx => N.eqb (tx_id tx) i) (rev txs) with
            | Some tx => Some (row_of_transaction tx raw_lookup)
            | None => find_transaction db i
            end)
    /\ (forall tx raw_lookup,
          holds_the_values_of tx (raw_payload_of raw_lookup tx)
            (row_of_transaction tx raw_lookup))
    /\ (forall tx raw_lookup,
          exists stored,
            find_transaction (upsert_transactions db [tx] raw_lookup) (tx_id tx)
            = Some stored
            /\ holds_the_values_of tx (raw_payload_of raw_lookup tx) stored).
Proof.
  intros db Hreach.
  assert (Hvalues : forall tx raw_lookup,
            holds_the_values_of tx (raw_payload_of raw_lookup tx)
              (row_of_transaction tx raw_lookup)).
  { intros tx raw_lookup. unfold holds_the_values_of, raw_payload_of.
    repeat split. }
  split; [exact (reachable_nodup db Hreach) |].
  split; [| split; [intros txs raw_lookup i; apply find_upsert_transactions |
                    split; [exact Hvalues |]]].
  2: { intros tx raw_lookup. exists (row_of_transaction tx raw_lookup).
       split; [| apply Hvalues].
       rewrite find_upsert_transactions. cbn [rev app find].
       now rewrite N.eqb_refl. }
  intros tx raw_lookup db'. split; [| split; [| split; [| split]]].
  - apply (reachable_nodup db'). now constructor.
  - unfold db'. rewrite find_upsert_transactions. cbn [rev app find].
    now rewrite N.eqb_refl.
  - reflexivity.
  - intros old Hold. unfold db', upsert_transactions. cbn [fold_left transactions].
    apply (upsert_known_length _ _ old). exact Hold.
  - intros j Hj. unfold db'. rewrite find_upsert_transactions. cbn [rev app find].
    destruct (N.eqb_spec (tx_id tx) j); [congruence | reflexivity].
Qed.

Lemma one_row_per_identifier_last_write_wins_witness :
  let stored := upsert_transactions empty_database [first_write] [] in
  let rewritten := upsert_transactions stored [second_write] [] in
  find_transaction rewritten 7%N = Some (row_of_transaction second_write [])
  /\ List.length (transactions rewritten) = 1%nat
  /\ option_map row_created_at (find_transaction rewritten 7%N) = Some 1712217600%Z
  /\ option_map row_amount_chf (find_transaction rewritten 7%N) = Some (-50)%float
  /\ holds_the_values_of second_write [] (row_of_transaction second_write []).
Proof.
  intros stored rewritten.
  assert (Hreach : reachable stored) by (constructor; constructor).
  destruct (one_row_per_identifier_last_write_wins stored Hreach)
    as (_ & Hupsert & _ & Hvalues & _).
  destruct (Hupsert second_write []) as (_ & Hfound & _ & Hlength & _).
  fold rewritten in Hfound, Hlength.
  change (tx_id second_write) with 7%N in Hfound.
  split; [exact Hfound |].
  split; [rewrite (Hlength (row_of_transaction first_write []) eq_refl); reflexivity |].
  rewrite Hfound. split; [reflexivity |]. split; [reflexivity |].
  exact (Hvalues second_write []).
Defined.

(** ** The cash aggregate *)

Lemma upper_char_idempotent :
  forall c : ascii, Text.upper_char (Text.upper_char c) = Text.upper_char c.
Proof.
  intros [[] [] [] [] [] [] [] []]; reflexivity.
Qed.

Lemma upper_idempotent :
  forall s : string, Text.upper (Text.upper s) = Text.upper s.
Proof.
  unfold Text.upper. induction s as [| c rest IH]; [reflexivity |].
  cbn [Text.map_chars]. now rewrite upper_char_idempotent, IH.
Qed.

Lemma date_ltb_spec :
  forall a b : date, date_ltb a b = true <-> date_lt a b.
Proof.
  intros a b. unfold date_ltb, date_lt.
  rewrite !orb_true_iff, !andb_true_iff, !orb_true_iff, !andb_true_iff,
    !Z.ltb_lt, !Z.eqb_eq.
  reflexivity.
Qed.

Lemma date_ltb_false :
  forall a b : date, date_ltb a b = false <-> ~ date_lt a b.
Proof.
  intros a b. rewrite <- date_ltb_spec. now destruct (date_ltb a b).
Qed.

(** [latest_row] returns one of the rows it was given, and none of them is
    of a later date. *)
Lemma latest_row_is_latest :
  forall (rows : list FxRow) (best : FxRow),
    In (latest_row best rows) (best :: rows)
    /\ forall r : FxRow,
         In r (best :: rows) ->
         date_ltb (fx_valuation_date (latest_row best rows)) (fx_valuation_date r)
         = false.
Proof.
  induction rows as [| a more IH]; intros best.
  - cbn [latest_row]. split; [now left |].
    intros r [<- | []]. apply date_ltb_false. unfold date_lt. lia.
  - cbn [latest_row].
    destruct (date_ltb (fx_valuation_date best) (fx_valuation_date a)) eqn:Hlater.
    + destruct (IH a) as [Hin Hmax]. split; [now right |].
      intros r [<- | Hr]; [| now apply Hmax].
      specialize (Hmax a (or_introl eq_refl)).
      apply date_ltb_spec in Hlater.
      rewrite date_ltb_false in Hmax |- *. unfold date_lt in *. lia.
    + destruct (IH best) as [Hin Hmax]. split.
      * destruct Hin as [<- | Hin]; [now left | now right; right].
      * intros r [<- | [<- | Hr]].
        -- apply Hmax. now left.
        -- specialize (Hmax best (or_introl eq_refl)).
           rewrite date_ltb_false in Hlater, Hmax |- *. unfold date_lt in *. lia.
        -- apply Hmax. now right.
Qed.

Lemma fx_candidates_in :
  forall (db : Database) (base quote : string) (r : FxRow),
    In r (fx_candidates db base quote)
    <-> In r (fx_rates db)
        /\ fx_base r = Text.upper base /\ fx_quote r = Text.upper quote.
Proof.
  intros db base quote r. unfold fx_candidates.
  rewrite filter_In, andb_true_iff, !String.eqb_eq. reflexivity.
Qed.

(** The rate found is that of a stored row of the pair, and no stored row
    of the pair has a later valuation date; none is found exactly when the
    pair has no stored row. *)
Lemma get_latest_fx_rate_spec :
  forall (db : Database) (base quote : string),
    (forall rate : float,
       get_latest_fx_rate db base quote = Some rate ->
       exists r : FxRow,
         In r (fx_rates db)
         /\ fx_base r = Text.upper base /\ fx_quote r = Text.upper quote
         /\ fx_rate_value r = rate
         /\ forall r' : FxRow,
              In r' (fx_rates db) ->
              fx_base r' = Text.upper base -> fx_quote r' = Text.upper quote ->
              date_ltb (fx_valuation_date r) (fx_valuation_date r') = false)
    /\ (get_latest_fx_rate db base quote = None
        <-> forall r : FxRow,
              In r (fx_rates db) ->
              fx_base r = Text.upper base -> fx_quote r = Text.upper quote -> False).
Proof.
  intros db base quote. unfold get_latest_fx_rate.
  pose proof (fx_candidates_in db base quote) as Hcandidates.
  destruct (fx_candidates db base quote) as [| first more].
  - split; [discriminate |]. split; [| reflexivity].
    intros _ r Hin Hbase Hquote. now apply (Hcandidates r).
  - split.
    + intros rate [= <-].
      destruct (latest_row_is_latest more first) as [Hin Hmax].
      exists (latest_row first more).
      apply Hcandidates in Hin. destruct Hin as (Hin & Hbase & Hquote).
      repeat split; try assumption.
      intros r' Hin' Hbase' Hquote'. apply Hmax. apply Hcandidates. now repeat split.
    + split; [discriminate |].
      intros Hnone. exfalso.
      destruct (proj1 (Hcandidates first) (or_introl eq_refl)) as (Hin & Hbase & Hquote).
      exact (Hnone first Hin Hbase Hquote).
Qed.

Lemma get_latest_fx_rate_upper :
  forall (db : Database) (base quote : string),
    get_latest_fx_rate db base (Text.upper quote) = get_latest_fx_rate db base quote.
Proof.
  intros db base quote. unfold get_latest_fx_rate, fx_candidates.
  now rewrite upper_idempotent.
Qed.

Lemma running_sum_of_fold :
  forall table : list TransactionRow,
    running_sum table
      (fold_left
         (fun acc r =>
            match stored_real (row_amount_chf r) with
            | Some amount => PrimFloat.add acc amount
            | None => acc
            end)
         table Float.zero).
Proof.
  induction table as [| r rows IH] using rev_ind; [constructor |].
  rewrite fold_left_app. cbn [fold_left]. unfold stored_real at 1.
  destruct (PrimFloat.is_nan (row_amount_chf r)) eqn:Hnan.
  - now apply sum_with_null.
  - now apply sum_with_amount.
Qed.

(** C5.  The aggregate always returns.  Its CHF total is the sum of the
    stored amounts, a NaN amount being stored as NULL and adding nothing,
    and zero when that sum is no number.  Asked for CHF in any case, it
    gives the CHF total unchanged with the flag false.  Asked for another
    currency of which no CHF rate is stored, it gives the CHF total
    unconverted under the requested currency's upper-cased code and the
    flag true.  With a stored rate it gives, with the flag false, the total
    times the rate of a stored row that no other row of the pair is later
    than; where one row is later than all the others, that row's rate. *)
Theorem cash_summary_conversion :
  forall (db : Database) (requested : string),
    (exists sum : float,
       running_sum (transactions db) sum
       /\ total_chf (cash_summary db requested)
          = if PrimFloat.is_nan sum then 0%float else sum)
    /\ transaction_count (cash_summary db requested) = List.length (transactions db)
    /\ (Text.upper requested = "CHF" ->
        display_currency (cash_summary db requested) = "CHF"
        /\ display_total (cash_summary db requested)
           = total_chf (cash_summary db requested)
        /\ fx_missing (cash_summary db requested) = false
        /\ summary_fx_rate (cash_summary db requested) = None)
    /\ (Text.upper requested <> "CHF" ->
        (forall r : FxRow, ~ chf_rate_of db requested r) ->
        display_currency (cash_summary db requested) = Text.upper requested
        /\ display_total (cash_summary db requested)
           = total_chf (cash_summary db requested)
        /\ fx_missing (cash_summary db requested) = true
        /\ summary_fx_rate (cash_summary db requested) = None)
    /\ (Text.upper requested <> "CHF" ->
        forall stored : FxRow,
          chf_rate_of db requested stored ->
          display_currency (cash_summary db requested) = Text.upper requested
          /\ fx_missing (cash_summary db requested) = false
          /\ exists latest : FxRow,
               chf_rate_of db requested latest
               /\ (forall other : FxRow,
                     chf_rate_of db requested other ->
                     ~ date_lt (fx_valuation_date latest) (fx_valuation_date other))
               /\ display_total (cash_summary db requested)
                  = PrimFloat.mul (total_chf (cash_summary db requested))
                                  (fx_rate_value latest)
               /\ summary_fx_rate (cash_summary db requested)
                  = Some (fx_rate_value latest))
    /\ (Text.upper requested <> "CHF" ->
        forall latest : FxRow,
          chf_rate_of db requested latest ->
          (forall other : FxRow,
             chf_rate_of db requested other ->
             other = latest
             \/ date_lt (fx_valuation_date other) (fx_valuation_date latest)) ->
          display_total (cash_summary db requested)
          = PrimFloat.mul (total_chf (cash_summary db requested)) (fx_rate_value latest)
          /\ fx_missing (cash_summary db requested) = false).
Proof.
  intros db requested.
  assert (Hsummary :
    cash_summary db requested
    = let total := sum_amount_chf (transactions db) in
      let count := List.length (transactions db) in
      if String.eqb (Text.upper requested) "CHF"
      then mkSummary total count "CHF" total false None
      else match get_latest_fx_rate db "CHF" requested with
           | None => mkSummary total count (Text.upper requested) total true None
           | Some rate =>
               mkSummary total count (Text.upper requested)
                         (PrimFloat.mul total rate) false (Some rate)
           end).
  { unfold cash_summary. now rewrite get_latest_fx_rate_upper. }
  assert (Htotal : total_chf (cash_summary db requested)
                   = sum_amount_chf (transactions db)).
  { rewrite Hsummary. cbv zeta.
    destruct (String.eqb _ "CHF"); [reflexivity |].
    now destruct (get_latest_fx_rate db "CHF" requested). }
  assert (Hconverted :
    Text.upper requested <> "CHF" ->
    forall stored : FxRow,
      chf_rate_of db requested stored ->
      display_currency (cash_summary db requested) = Text.upper requested
      /\ fx_missing (cash_summary db requested) = false
      /\ exists latest : FxRow,
           chf_rate_of db requested latest
           /\ (forall other : FxRow,
                 chf_rate_of db requested other ->
                 ~ date_lt (fx_valuation_date latest) (fx_valuation_date other))
           /\ display_total (cash_summary db requested)
              = PrimFloat.mul (total_chf (cash_summary db requested))
                              (fx_rate_value latest)
           /\ summary_fx_rate (cash_summary db requested)
              = Some (fx_rate_value latest)).
  { intros Hother stored (Hin & Hbase & Hquote).
    destruct (get_latest_fx_rate_spec db "CHF" requested) as [Hfound Hnone].
    change (Text.upper "CHF") with "CHF" in Hfound, Hnone.
    rewrite Htotal, Hsummary. cbv zeta.
    destruct (String.eqb_spec (Text.upper requested) "CHF") as [Hchf | _];
      [contradiction |].
    destruct (get_latest_fx_rate db "CHF" requested) as [rate |].
    - destruct (Hfound rate eq_refl) as (latest & Hl & Hlb & Hlq & Hrate & Hmax).
      split; [reflexivity |]. split; [reflexivity |].
      exists latest. split; [now repeat split |]. split.
      + intros other (Ho & Hob & Hoq). apply date_ltb_false. now apply Hmax.
      + cbn [display_total summary_fx_rate]. now rewrite Hrate.
    - exfalso. exact (proj1 Hnone eq_refl stored Hin Hbase Hquote). }
  split.
  { exists (fold_left
              (fun acc r =>
                 match stored_real (row_amount_chf r) with
                 | Some amount => PrimFloat.add acc amount
                 | None => acc
                 end)
              (transactions db) Float.zero).
    split; [apply running_sum_of_fold | exact Htotal]. }
  split.
  { rewrite Hsummary. cbv zeta.
    destruct (String.eqb _ "CHF"); [reflexivity |].
    now destruct (get_latest_fx_rate db "CHF" requested). }
  split.
  { intros Hchf. rewrite Hsummary. cbv zeta.
    rewrite (proj2 (String.eqb_eq _ _) Hchf). now repeat split. }
  split.
  { intros Hother Hnone. rewrite Hsummary. cbv zeta.
    destruct (String.eqb_spec (Text.upper requested) "CHF") as [Hchf | _];
      [contradiction |].
    destruct (get_latest_fx_rate_spec db "CHF" requested) as [Hfound _].
    change (Text.upper "CHF") with "CHF" in Hfound.
    destruct (get_latest_fx_rate db "CHF" requested) as [rate |];
      [| now repeat split].
    destruct (Hfound rate eq_refl) as (r & Hin & Hbase & Hquote & _).
    exfalso. apply (Hnone r). now repeat split. }
  split; [exact Hconverted |].
  intros Hother latest Hlatest Hlater.
  destruct (Hconverted Hother latest Hlatest)
    as (_ & Hflag & found & Hfound & Hmax & Hdisplay & _).
  split; [| exact Hflag].
  destruct (Hlater found Hfound) as [-> | Hearlier]; [exact Hdisplay |].
  exfalso. exact (Hmax latest Hlatest Hearlier).
Qed.

Lemma cash_summary_conversion_witness :
  (display_total (cash_summary store_with_rates "eur") = (-150)%float
   /\ fx_missing (cash_summary store_with_rates "eur") = false)
  /\ (display_currency (cash_summary store_with_rates "usd") = "USD"
      /\ display_total (cash_summary store_with_rates "usd") = (-100)%float
      /\ fx_missing (cash_summary store_with_rates "usd") = true)
  /\ (display_total (cash_summary store_with_rates "chf") = (-100)%float
      /\ fx_missing (cash_summary store_with_rates "chf") = false)
  /\ (total_chf (cash_summary store_with_blank_amount "chf") = (-55)%float
      /\ transaction_count (cash_summary store_with_blank_amount "chf") = 2%nat).
Proof.
  assert (Htotal : forall requested,
            total_chf (cash_summary store_with_rates requested) = (-100)%float).
  { intros requested. unfold cash_summary.
    destruct (String.eqb _ "CHF"); [reflexivity |].
    now destruct (get_latest_fx_rate _ _ _). }
  destruct (cash_summary_conversion store_with_rates "eur")
    as (_ & _ & _ & _ & _ & Hlatest).
  destruct (cash_summary_conversion store_with_rates "usd")
    as (_ & _ & _ & Hmissing & _).
  destruct (cash_summary_conversion store_with_rates "chf")
    as (_ & _ & Hchf & _).
  split; [| split; [| split]].
  4: { split; [reflexivity |].
       now rewrite (proj1 (proj2 (cash_summary_conversion store_with_blank_amount
                                    "chf"))). }
  - destruct (Hlatest ltac:(discriminate)
                (mkFxRow "CHF" "EUR" (mkDate 2024 4 3) 1.5%float "ecb"))
      as [Hdisplay Hflag].
    + repeat split. now left.
    + intros other (Hin & _). destruct Hin as [<- | [<- | []]].
      * now left.
      * right. unfold date_lt. cbn. lia.
    + rewrite Hdisplay, Htotal. split; [reflexivity | exact Hflag].
  - destruct (Hmissing ltac:(discriminate)) as (Hcurrency & Hdisplay & Hflag & _).
    + intros r (Hin & _ & Hquote). destruct Hin as [<- | [<- | []]]; discriminate Hquote.
    + rewrite Hdisplay, Htotal. now repeat split.
  - destruct (Hchf eq_refl) as (_ & Hdisplay & Hflag & _).
    rewrite Hdisplay, Htotal. split; [reflexivity | exact Hflag].
Defined.


(** ** Repeated imports *)

(** C1 fails on the code.  Importing the sheet "bank" of [ledger] into the
    empty store persists one transaction; importing the same, unchanged
    sheet again persists one more under a new identifier, and the store
    then counts two transactions for the one source row. *)
Theorem second_import_adds_a_row :
  match import_workbook parse_nothing ledger ["bank"] empty_database first_world with
  | Ok (persisted, once, world) =>
      match import_workbook parse_nothing ledger ["bank"] once world with
      | Ok (persisted', twice, _) =>
          persisted = 1%nat /\ persisted' = 1%nat
          /\ transaction_count (cash_summary once "CHF") = 1%nat
          /\ transaction_count (cash_summary twice "CHF") = 2%nat
          /\ map row_id (transactions twice) = [0%N; 1%N]
          /\ map row_description (transactions twice)
             = ["Acme Corp, invoice 123"; "Acme Corp, invoice 123"]
          /\ map row_amount_chf (transactions twice) = [(-45)%float; (-45)%float]
      | Raise _ => False
      end
  | Raise _ => False
  end.
Proof.
  vm_compute. repeat split.
Qed.

Lemma ids_from_length : forall n start, List.length (ids_from start n) = n.
Proof. induction n; intros start; cbn; [reflexivity | now rewrite IHn]. Qed.

Lemma ids_from_app :
  forall (a b : nat) (start : N),
    ids_from start (a + b)
    = (ids_from start a ++ ids_from (start + N.of_nat a) b)%list.
Proof.
  induction a as [| a IH]; intros b start.
  - cbn. now rewrite N.add_0_r.
  - cbn [Nat.add ids_from app]. rewrite IH. do 3 f_equal. lia.
Qed.

Lemma ids_from_bounds :
  forall (n : nat) (start i : N),
    In i (ids_from start n) -> (start <= i < start + N.of_nat n)%N.
Proof.
  induction n as [| n IH]; intros start i; [intros [] |].
  cbn [ids_from]. intros [<- | Hin]; [lia |].
  apply IH in Hin. lia.
Qed.

Lemma ids_from_nodup : forall (n : nat) (start : N), NoDup (ids_from start n).
Proof.
  induction n as [| n IH]; intros start; cbn [ids_from]; constructor.
  - intros Hin. apply ids_from_bounds in Hin. lia.
  - apply IH.
Qed.

Lemma appends_refl : forall acc w, appends 0 acc acc w w.
Proof.
  intros acc w. exists []. rewrite app_nil_r, N.add_0_r. now repeat split.
Qed.

Lemma appends_trans :
  forall a b acc acc1 acc2 w w1 w2,
    appends a acc acc1 w w1 -> appends b acc1 acc2 w1 w2 ->
    appends (a + b) acc acc2 w w2.
Proof.
  intros a b acc acc1 acc2 w w1 w2 (new1 & Hacc1 & Hids1 & Hw1) (new2 & Hacc2 & Hids2 & Hw2).
  exists (new1 ++ new2)%list. repeat split.
  - now rewrite Hacc2, Hacc1, app_assoc.
  - now rewrite map_app, Hids1, Hids2, Hw1, ids_from_app.
  - rewrite Hw2, Hw1. lia.
Qed.

Lemma io_bind_lift :
  forall {A B : Type} (c : result A) (k : A -> IO B) (w : World),
    io_bind (io_lift c) k w
    = match c with
      | Ok a => k a w
      | Raise e => Raise e
      end.
Proof. intros A B [a | e] k w; reflexivity. Qed.

Section Imports.

Variable parse_other : string -> result date.

Lemma record_of_row_mints :
  forall sheet r w record w',
    record_of_row parse_other sheet r w = Ok (record, w') ->
    id record = minted w /\ minted w' = N.succ (minted w).
Proof.
  intros sheet r w record w'. unfold record_of_row.
  repeat (rewrite io_bind_lift;
          match goal with
          | |- context [match ?c with Ok _ => _ | Raise _ => _ end] =>
              destruct c; [| discriminate]
          end).
  unfold io_bind, uuid4, io_ret. intros [= <- <-]. now split.
Qed.

Lemma load_record_appends :
  forall sheet acc r w acc' w',
    load_record acc (record_of_row parse_other sheet r) w = Ok (acc', w') ->
    appends 1 acc acc' w w'.
Proof.
  intros sheet acc r w acc' w'. unfold load_record, io_bind at 1.
  destruct (record_of_row parse_other sheet r w) as [[record w1] | e] eqn:Hrecord;
    [| discriminate].
  apply record_of_row_mints in Hrecord. destruct Hrecord as [Hid Hminted].
  unfold io_bind, utcnow, io_lift, io_ret.
  destruct (normalise_record_returns (clock w1 (readings w1)) record (classify record))
    as (tx & -> & _ & _ & _ & _ & Htx & _).
  intros [= <- <-]. exists [tx]. cbn [fst map ids_from minted].
  split; [reflexivity |]. split; [now rewrite Htx, Hid | lia].
Qed.

Lemma load_records_appends :
  forall sheet rows acc w acc' w',
    io_fold load_record acc (_iter_records parse_other sheet rows) w = Ok (acc', w') ->
    appends (List.length rows) acc acc' w w'.
Proof.
  intros sheet. induction rows as [| r more IH]; intros acc w acc' w'.
  - cbn. intros [= <- <-]. apply appends_refl.
  - cbn [_iter_records map io_fold List.length]. unfold io_bind at 1.
    destruct (load_record acc (record_of_row parse_other sheet r) w)
      as [[acc1 w1] | e] eqn:Hrow; [| discriminate].
    intros Hmore. change (S (List.length more)) with (1 + List.length more).
    eapply appends_trans; [exact (load_record_appends _ _ _ _ _ _ Hrow) | now apply IH].
Qed.

Lemma load_sheet_appends :
  forall workbook acc sheet w acc' w',
    load_sheet parse_other workbook acc sheet w = Ok (acc', w') ->
    appends (sheet_rows workbook sheet) acc acc' w w'.
Proof.
  intros workbook acc sheet w acc' w'.
  unfold load_sheet, io_bind, io_lift, _load_sheet, sheet_rows.
  destruct (dict_get String.eqb workbook sheet) as [dataframe |]; [| discriminate].
  intros Hrows. apply load_records_appends in Hrows. now rewrite length_map in Hrows.
Qed.

Lemma load_sheets_appends :
  forall workbook sheet_names acc w acc' w',
    io_fold (load_sheet parse_other workbook) acc sheet_names w = Ok (acc', w') ->
    appends (rows_requested workbook sheet_names) acc acc' w w'.
Proof.
  intros workbook. induction sheet_names as [| sheet more IH]; intros acc w acc' w'.
  - cbn. intros [= <- <-]. apply appends_refl.
  - cbn [io_fold rows_requested fold_right]. unfold io_bind at 1.
    destruct (load_sheet parse_other workbook acc sheet w) as [[acc1 w1] | e] eqn:Hsheet;
      [| discriminate].
    intros Hmore.
    eapply appends_trans; [exact (load_sheet_appends _ _ _ _ _ _ Hsheet) | now apply IH].
Qed.

End Imports.

Lemma has_id_absent :
  forall (table : list TransactionRow) (i : UUID),
    ~ In i (map row_id table) -> existsb (has_id i) table = false.
Proof.
  intros table i Habsent.
  destruct (existsb (has_id i) table) eqn:Hknown; [| reflexivity].
  apply existsb_exists in Hknown. destruct Hknown as (r & Hin & Hid).
  exfalso. apply Habsent. apply N.eqb_eq in Hid. rewrite <- Hid. now apply in_map.
Qed.

(** Rows of identifiers the table does not hold, all different, are
    appended in their order. *)
Lemma upsert_fresh_rows :
  forall (rows table : list TransactionRow),
    NoDup (map row_id rows) ->
    (forall i, In i (map row_id rows) -> ~ In i (map row_id table)) ->
    map row_id (fold_left upsert_row rows table)
    = (map row_id table ++ map row_id rows)%list.
Proof.
  induction rows as [| r more IH]; intros table Hnodup Hfresh.
  - cbn. now rewrite app_nil_r.
  - cbn [fold_left map] in *. inversion Hnodup as [| ? ? Hhead Htail]; subst.
    rewrite IH.
    + rewrite upsert_row_ids, (has_id_absent table (row_id r)).
      * now rewrite <- app_assoc.
      * apply Hfresh. now left.
    + exact Htail.
    + intros i Hin. rewrite upsert_row_ids, (has_id_absent table (row_id r)).
      * intros Hold. apply in_app_or in Hold. destruct Hold as [Hold | [<- | []]].
        -- apply (Hfresh i); [now right | exact Hold].
        -- contradiction.
      * apply Hfresh. now left.
Qed.

Lemma row_ids_of_transactions :
  forall (txs : list NormalisedTransaction) raw_lookup,
    map row_id (map (fun tx => row_of_transaction tx raw_lookup) txs) = map tx_id txs.
Proof.
  intros txs raw_lookup. rewrite map_map. reflexivity.
Qed.

(** Every import that succeeds appends one row per data row of the
    requested sheets, under identifiers the store did not hold. *)
Lemma import_appends_rows :
  forall parse_other workbook sheet_names db w persisted db' w',
    Forall (fun r => (row_id r < minted w)%N) (transactions db) ->
    import_workbook parse_other workbook sheet_names db w = Ok (persisted, db', w') ->
    persisted = rows_requested workbook sheet_names
    /\ map row_id (transactions db')
       = (map row_id (transactions db) ++ ids_from (minted w) persisted)%list
    /\ Forall (fun r => (row_id r < minted w')%N) (transactions db').
Proof.
  intros parse_other workbook sheet_names db w persisted db' w' Hold.
  unfold import_workbook, io_bind, io_ret.
  destruct (load parse_other workbook sheet_names w) as [[loaded w1] | e] eqn:Hload;
    [| discriminate].
  intros [= <- <- <-].
  apply load_sheets_appends in Hload. destruct Hload as (new & Hnew & Hids & Hminted).
  cbn [fst app] in Hnew. rewrite Hnew.
  assert (Hcount : List.length new = rows_requested workbook sheet_names).
  { now rewrite <- (length_map tx_id), Hids, ids_from_length. }
  assert (Hrows :
    map row_id (transactions (upsert_transactions db new (snd loaded)))
    = (map row_id (transactions db) ++ ids_from (minted w) (List.length new))%list).
  { cbn [upsert_transactions transactions].
    rewrite upsert_transactions_rows, upsert_fresh_rows, row_ids_of_transactions.
    - now rewrite Hids, Hcount.
    - rewrite row_ids_of_transactions, Hids. apply ids_from_nodup.
    - intros i. rewrite row_ids_of_transactions, Hids. intros Hnew' Holder.
      apply ids_from_bounds in Hnew'.
      apply in_map_iff in Holder. destruct Holder as (r & <- & Hin).
      rewrite Forall_forall in Hold. specialize (Hold r Hin). cbn beta in Hold. lia. }
  split; [exact Hcount |]. split; [exact Hrows |].
  apply Forall_forall. intros r Hin. apply (in_map row_id) in Hin.
  rewrite Hrows in Hin. apply in_app_or in Hin. destruct Hin as [Hin | Hin].
  - apply in_map_iff in Hin. destruct Hin as (r' & <- & Hin).
    rewrite Forall_forall in Hold. specialize (Hold r' Hin). cbn beta in Hold. lia.
  - apply ids_from_bounds in Hin. rewrite Hcount in Hin. lia.
Qed.

(** Two imports of the same sheets of the same workbook into a store just
    initialised leave two rows for every data row. *)
Theorem import_twice_doubles_the_rows :
  forall parse_other workbook sheet_names w persisted once w1 persisted' twice w2,
    import_workbook parse_other workbook sheet_names empty_database w
    = Ok (persisted, once, w1) ->
    import_workbook parse_other workbook sheet_names once w1
    = Ok (persisted', twice, w2) ->
    List.length (transactions once) = rows_requested workbook sheet_names
    /\ List.length (transactions twice) = 2 * rows_requested workbook sheet_names
    /\ NoDup (map row_id (transactions twice)).
Proof.
  intros parse_other workbook sheet_names w persisted once w1 persisted' twice w2
         Hfirst Hsecond.
  apply import_appends_rows in Hfirst; [| constructor].
  destruct Hfirst as (-> & Hids1 & Hbelow).
  apply import_appends_rows in Hsecond; [| exact Hbelow].
  destruct Hsecond as (-> & Hids2 & _).
  cbn [empty_database transactions map app] in Hids1.
  assert (Hlen1 : List.length (transactions once) = rows_requested workbook sheet_names).
  { now rewrite <- (length_map row_id), Hids1, ids_from_length. }
  split; [exact Hlen1 |]. split.
  - rewrite <- (length_map row_id (transactions twice)), Hids2, length_app,
      length_map, ids_from_length, Hlen1. lia.
  - rewrite Hids2, Hids1. apply NoDup_app; try apply ids_from_nodup.
    intros i Hin Hin'. apply ids_from_bounds in Hin'.
    rewrite <- Hids1 in Hin. apply in_map_iff in Hin. destruct Hin as (r & <- & Hin).
    rewrite Forall_forall in Hbelow. specialize (Hbelow r Hin). cbn beta in Hbelow. lia.
Qed.

Lemma import_twice_doubles_the_rows_witness :
  List.length (transactions (store_after first_import)) = 1%nat
  /\ List.length (transactions (store_after second_import)) = 2%nat.
Proof.
  assert (Hfirst :
    import_workbook parse_nothing ledger ["bank"] empty_database first_world
    = Ok (1%nat, store_after first_import, world_after first_import))
    by (vm_compute; reflexivity).
  assert (Hsecond :
    import_workbook parse_nothing ledger ["bank"]
      (store_after first_import) (world_after first_import)
    = Ok (1%nat, store_after second_import, world_after second_import))
    by (vm_compute; reflexivity).
  destruct (import_twice_doubles_the_rows _ _ _ _ _ _ _ _ _ _ Hfirst Hsecond)
    as (Hone & Htwo & _).
  split; [exact Hone | exact Htwo].
Defined.

(** ** Further properties of the helpers *)

Lemma before_first_comma_of_segment :
  forall segment rest : string,
    Text.contains "," segment = false ->
    Text.before_first_comma (segment ++ "," ++ rest) = segment.
Proof.
  intros segment rest. change ("," ++ rest) with (String "," rest).
  induction segment as [| c segment IH]; [reflexivity |].
  cbn [Text.contains prefix append Text.before_first_comma].
  destruct (ascii_dec "," c) as [<- | Hne].
  - rewrite prefix_empty. discriminate.
  - cbn [orb]. intros Hnone.
    assert (Ascii.eqb c "," = false) as ->
      by (apply Ascii.eqb_neq; congruence).
    now rewrite IH.
Qed.

Lemma before_first_comma_without_comma :
  forall s : string,
    Text.contains "," s = false -> Text.before_first_comma s = s.
Proof.
  induction s as [| c s IH]; [reflexivity |].
  cbn [Text.contains prefix Text.before_first_comma].
  destruct (ascii_dec "," c) as [<- | Hne].
  - rewrite prefix_empty. discriminate.
  - cbn [orb]. intros Hnone.
    assert (Ascii.eqb c "," = false) as ->
      by (apply Ascii.eqb_neq; congruence).
    now rewrite IH.
Qed.

Lemma extract_counterparty_named :
  forall record : BankTransactionRecord,
    _extract_counterparty record
    = named (Text.strip (Text.before_first_comma (description record))).
Proof.
  intros record. unfold _extract_counterparty, named.
  destruct (description record) as [| c rest]; [reflexivity |].
  cbn [Text.truthy].
  now destruct (Text.strip (Text.before_first_comma (String c rest))).
Qed.

(** Counterparty extraction: of a description with a comma, the text
    before the first comma, trimmed; of a description without one, the
    whole description, trimmed; and absent where that text is empty, never
    the empty text. *)
Theorem extract_counterparty_first_segment :
  (forall (record : BankTransactionRecord) (segment rest : string),
     description record = segment ++ "," ++ rest ->
     Text.contains "," segment = false ->
     _extract_counterparty record = named (Text.strip segment))
  /\ (forall record : BankTransactionRecord,
        Text.contains "," (description record) = false ->
        _extract_counterparty record = named (Text.strip (description record)))
  /\ (forall (record : BankTransactionRecord) (text : string),
        _extract_counterparty record = Some (VStr text) -> text <> "")
  /\ _extract_counterparty (with_description "Acme Corp, invoice 123" blank_record)
     = Some (VStr "Acme Corp")
  /\ _extract_counterparty (with_description "" blank_record) = None.
Proof.
  split; [| split; [| split; [| split; reflexivity]]].
  - intros record segment rest Hdescription Hsegment.
    now rewrite extract_counterparty_named, Hdescription,
      before_first_comma_of_segment.
  - intros record Hnone.
    now rewrite extract_counterparty_named, before_first_comma_without_comma.
  - intros record text. rewrite extract_counterparty_named. unfold named.
    destruct (Text.strip _); [discriminate |].
    intros [= <-]. discriminate.
Qed.

(** The text "nan", which is what a blank cell reads as and which
    [_parse_date] takes for absent, is a decimal literal: [_parse_decimal]
    returns the float NaN for it, and a record built from it has a NaN
    amount. *)
Theorem parse_decimal_of_blank_cell_is_nan :
  _parse_decimal (Some (VStr "nan")) = Ok (Some PrimFloat.nan)
  /\ _parse_decimal (Some VNaN) = Ok (Some PrimFloat.nan)
  /\ _parse_date parse_nothing (Some VNaN) = Ok None
  /\ signed_amount (with_amounts (Some PrimFloat.nan) None None blank_record)
     = PrimFloat.nan
  /\ signed_amount
       (with_amounts None (Some 45%float) (Some PrimFloat.nan) blank_record)
     = PrimFloat.nan.
Proof.
  repeat split; vm_compute; reflexivity.
Qed.

(** The category is searched for "frais" only: a record with neither
    keyword in its description and no "frais" in its category is not a FEE,
    whatever else its category holds, a "fee" included; its type is the one
    its amounts give. *)
Theorem fee_in_category_is_not_a_fee :
  forall record : BankTransactionRecord,
    Text.contains "frais" (Text.lower (description record)) = false ->
    Text.contains "fee" (Text.lower (description record)) = false ->
    Text.contains "frais" (Text.lower (or_empty (category record))) = false ->
    inferred_type (classify record) <> "FEE"
    /\ inferred_type (classify record)
       = if _is_inflow record then "DEPOSIT"
         else if _is_outflow record then "WITHDRAWAL" else "UNKNOWN".
Proof.
  intros record Hfrais Hfee Hcategory.
  assert (Hrule : fee_rule record = false).
  { unfold fee_rule. now rewrite Hfrais, Hfee, Hcategory. }
  unfold classify. rewrite Hrule.
  destruct (_is_inflow record); [split; [discriminate | reflexivity] |].
  destruct (_is_outflow record); split; (discriminate || reflexivity).
Qed.

Lemma fee_in_category_is_not_a_fee_witness :
  Text.contains "fee" (Text.lower (or_empty (category fee_category_record))) = true
  /\ inferred_type (classify fee_category_record) = "UNKNOWN".
Proof.
  split; [reflexivity |].
  destruct (fee_in_category_is_not_a_fee fee_category_record eq_refl eq_refl eq_refl)
    as [_ Htype].
  exact Htype.
Defined.

Lemma load_fails_on_missing_sheet :
  forall parse_other workbook sheet sheet_names acc w,
    In sheet sheet_names ->
    dict_get String.eqb workbook sheet = None ->
    exists e, io_fold (load_sheet parse_other workbook) acc sheet_names w = Raise e.
Proof.
  intros parse_other workbook sheet.
  induction sheet_names as [| first more IH]; intros acc w Hin Hmissing; [destruct Hin |].
  cbn [io_fold]. unfold io_bind at 1.
  destruct (load_sheet parse_other workbook acc first w) as [[acc1 w1] | e] eqn:Hfirst;
    [| now exists e].
  destruct Hin as [-> | Hin]; [| now apply IH].
  unfold load_sheet, io_bind, io_lift, _load_sheet in Hfirst.
  rewrite Hmissing in Hfirst. discriminate.
Qed.

(** Fail fast: when a requested sheet is not in the workbook the import
    raises, and no store comes out of it. *)
Theorem import_fails_on_missing_sheet :
  forall parse_other workbook sheet sheet_names db w,
    In sheet sheet_names ->
    dict_get String.eqb workbook sheet = None ->
    exists e, import_workbook parse_other workbook sheet_names db w = Raise e.
Proof.
  intros parse_other workbook sheet sheet_names db w Hin Hmissing.
  destruct (load_fails_on_missing_sheet parse_other workbook sheet sheet_names
              ([], []) w Hin Hmissing) as [e He].
  exists e. unfold import_workbook, io_bind, load. now rewrite He.
Qed.

Lemma import_fails_on_missing_sheet_witness :
  exists e,
    import_workbook parse_nothing ledger ["bank"; "crypto"] empty_database first_world
    = Raise e.
Proof.
  apply (import_fails_on_missing_sheet parse_nothing ledger "crypto").
  - right. left. reflexivity.
  - reflexivity.
Defined.

(** ** More on the classifier *)

Lemma or_zero_positive :
  forall x : option float,
    PrimFloat.ltb Float.zero (Float.or_zero x) = true ->
    exists c, x = Some c /\ PrimFloat.ltb Float.zero c = true
              /\ PrimFloat.eqb c Float.zero = false.
Proof.
  intros [c |]; unfold Float.or_zero, Float.truthy.
  - destruct (PrimFloat.eqb c Float.zero) eqn:Hzero; cbn [negb].
    + intros H. vm_compute in H. discriminate H.
    + intros H. now exists c.
  - intros H. vm_compute in H. discriminate H.
Qed.

Lemma or_zero_is_zero :
  forall x : option float,
    PrimFloat.eqb (Float.or_zero x) Float.zero = true ->
    x = None \/ exists d, x = Some d /\ PrimFloat.eqb d Float.zero = true.
Proof.
  intros [d |]; [| now left]. unfold Float.or_zero, Float.truthy.
  destruct (PrimFloat.eqb d Float.zero) eqn:Hzero; cbn [negb].
  - intros _. right. now exists d.
  - intros H. congruence.
Qed.

(** A record is classified FEE exactly when the fee rule fires: "frais" or
    "fee" in the lower-cased description, or "frais" in the lower-cased
    category.  A "fee" in the category, or anything in the sub-category,
    does not make a FEE. *)
Theorem classified_fee_iff_fee_keyword :
  forall record : BankTransactionRecord,
    inferred_type (classify record) = "FEE"
    <-> (Text.contains "frais" (Text.lower (description record)) = true
         \/ Text.contains "fee" (Text.lower (description record)) = true
         \/ Text.contains "frais" (Text.lower (or_empty (category record))) = true).
Proof.
  intros record.
  assert (Hrule :
    fee_rule record = true
    <-> (Text.contains "frais" (Text.lower (description record)) = true
         \/ Text.contains "fee" (Text.lower (description record)) = true
         \/ Text.contains "frais" (Text.lower (or_empty (category record))) = true)).
  { unfold fee_rule. rewrite !orb_true_iff. tauto. }
  rewrite <- Hrule. split.
  - destruct (fee_rule record) eqn:Hfee; [reflexivity |].
    unfold classify. rewrite Hfee.
    destruct (_is_inflow record); [discriminate |].
    destruct (_is_outflow record); discriminate.
  - intros Hfee. now rewrite (classify_fee record Hfee).
Qed.

(** No record is both an inflow and an outflow.  A DEPOSIT has a credit
    that is present and positive and a debit that is absent or zero, a
    WITHDRAWAL the converse; a record whose credit or debit is NaN is
    neither, so without a fee keyword it is UNKNOWN. *)
Theorem direction_rules_are_exclusive :
  forall record : BankTransactionRecord,
    (_is_inflow record = true -> _is_outflow record = false)
    /\ (inferred_type (classify record) = "DEPOSIT" ->
        (exists c, credit record = Some c /\ PrimFloat.ltb Float.zero c = true)
        /\ (debit record = None
            \/ exists d, debit record = Some d /\ PrimFloat.eqb d Float.zero = true))
    /\ (inferred_type (classify record) = "WITHDRAWAL" ->
        (exists d, debit record = Some d /\ PrimFloat.ltb Float.zero d = true)
        /\ (credit record = None
            \/ exists c, credit record = Some c /\ PrimFloat.eqb c Float.zero = true))
    /\ (fee_rule record = false ->
        credit record = Some PrimFloat.nan \/ debit record = Some PrimFloat.nan ->
        inferred_type (classify record) = "UNKNOWN").
Proof.
  intros record. split; [| split; [| split]].
  - unfold _is_inflow, _is_outflow. intros H.
    apply andb_true_iff in H. destruct H as [Hcredit _].
    apply or_zero_positive in Hcredit. destruct Hcredit as (c & Hc & _ & Hnonzero).
    rewrite Hc. unfold Float.or_zero at 2, Float.truthy. rewrite Hnonzero. cbn [negb].
    rewrite Hnonzero. apply andb_false_r.
  - unfold classify.
    destruct (fee_rule record); [discriminate |].
    destruct (_is_inflow record) eqn:Hin.
    + intros _. unfold _is_inflow in Hin. apply andb_true_iff in Hin.
      destruct Hin as [Hcredit Hdebit].
      apply or_zero_positive in Hcredit. destruct Hcredit as (c & Hc & Hpos & _).
      split; [now exists c | now apply or_zero_is_zero].
    + destruct (_is_outflow record); discriminate.
  - unfold classify.
    destruct (fee_rule record); [discriminate |].
    destruct (_is_inflow record); [discriminate |].
    destruct (_is_outflow record) eqn:Hout; [| discriminate].
    intros _. unfold _is_outflow in Hout. apply andb_true_iff in Hout.
    destruct Hout as [Hdebit Hcredit].
    apply or_zero_positive in Hdebit. destruct Hdebit as (d & Hd & Hpos & _).
    split; [now exists d | now apply or_zero_is_zero].
  - intros Hfee Hnan. rewrite (classify_unknown record Hfee); [reflexivity | |].
    + unfold _is_inflow. destruct Hnan as [-> | ->].
      * reflexivity.
      * apply andb_false_r.
    + unfold _is_outflow. destruct Hnan as [-> | ->].
      * apply andb_false_r.
      * reflexivity.
Qed.

Lemma direction_rules_are_exclusive_witness :
  inferred_type
    (classify (with_amounts None (Some 45%float) (Some PrimFloat.nan) blank_record))
  = "UNKNOWN".
Proof.
  apply (proj2 (proj2 (proj2 (direction_rules_are_exclusive
           (with_amounts None (Some 45%float) (Some PrimFloat.nan) blank_record))))).
  - reflexivity.
  - left. reflexivity.
Defined.

(** ** More on decimal parsing *)

Lemma lower_char_is_n :
  forall c : ascii, Text.lower_char c = "n"%char -> c = "n"%char \/ c = "N"%char.
Proof.
  intros [[] [] [] [] [] [] [] []] H; vm_compute in H; try discriminate H; auto.
Qed.

Lemma lower_char_is_a :
  forall c : ascii, Text.lower_char c = "a"%char -> c = "a"%char \/ c = "A"%char.
Proof.
  intros [[] [] [] [] [] [] [] []] H; vm_compute in H; try discriminate H; auto.
Qed.

(** A cell that reads "nan" in any case, white space around it or not, is
    a decimal literal for [_parse_decimal]: the value is the float NaN, not
    an absent value. *)
Theorem parse_decimal_nan_in_any_case :
  forall s : string,
    Text.lower (Text.strip s) = "nan" ->
    _parse_decimal (Some (VStr s)) = Ok (Some PrimFloat.nan).
Proof.
  intros s Hnan. unfold _parse_decimal. cbn [str_of].
  destruct (Text.strip s) as [| c1 [| c2 [| c3 [| c4 rest]]]]; try discriminate Hnan.
  injection Hnan as H1 H2 H3.
  apply lower_char_is_n in H1. apply lower_char_is_a in H2. apply lower_char_is_n in H3.
  destruct H1 as [-> | ->], H2 as [-> | ->], H3 as [-> | ->];
    vm_compute; reflexivity.
Qed.

Lemma parse_decimal_nan_in_any_case_witness :
  _parse_decimal (Some (VStr "  NaN ")) = Ok (Some PrimFloat.nan)
  /\ _parse_decimal (Some VNaN) = Ok (Some PrimFloat.nan).
Proof.
  split.
  - apply (parse_decimal_nan_in_any_case "  NaN "). reflexivity.
  - apply (parse_decimal_nan_in_any_case "nan"). reflexivity.
Defined.

(** ** More on the cash aggregate *)

(** The aggregate reads the currency code without regard to case, and the
    summary is always labelled with the upper-cased code: with "CHF" when
    that is what was asked, with the foreign code whether or not a rate was
    found.  Asked with the upper-cased code, it gives the same summary. *)
Theorem cash_summary_label_and_case :
  forall (db : Database) (requested : string),
    display_currency (cash_summary db requested) = Text.upper requested
    /\ (forall other : string,
          Text.upper other = Text.upper requested ->
          cash_summary db other = cash_summary db requested)
    /\ cash_summary db (Text.upper requested) = cash_summary db requested.
Proof.
  intros db requested.
  assert (Hlabel : forall c, display_currency (cash_summary db c) = Text.upper c).
  { intros c. unfold cash_summary.
    destruct (String.eqb_spec (Text.upper c) "CHF") as [-> | _]; [reflexivity |].
    now destruct (get_latest_fx_rate db "CHF" (Text.upper c)). }
  assert (Hcase : forall a b, Text.upper a = Text.upper b ->
                              cash_summary db a = cash_summary db b).
  { intros a b Hsame. unfold cash_summary. now rewrite Hsame. }
  split; [apply Hlabel |]. split; [intros other; apply Hcase |].
  apply Hcase. apply upper_idempotent.
Qed.

(** ** More on the transactions table *)

Lemma find_upsert_rows :
  forall (rows table : list TransactionRow) (i : UUID),
    find (has_id i) (fold_left upsert_row rows table)
    = match find (has_id i) (rev rows) with
      | Some written => Some written
      | None => find (has_id i) table
      end.
Proof.
  induction rows as [| r more IH]; intros table i; [reflexivity |].
  cbn [fold_left rev]. rewrite IH, find_last.
  destruct (find (has_id i) (rev more)); [reflexivity |].
  rewrite find_upsert_row. unfold has_id.
  now destruct (N.eqb (row_id r) i).
Qed.

Lemma find_known_row :
  forall (table : list TransactionRow) (r : TransactionRow),
    NoDup (map row_id table) -> In r table ->
    find (has_id (row_id r)) table = Some r.
Proof.
  induction table as [| a rest IH]; intros r Hnodup Hin; [destruct Hin |].
  cbn [map] in Hnodup. inversion Hnodup as [| ? ? Hhead Htail]; subst.
  cbn [find]. unfold has_id at 1.
  destruct Hin as [-> | Hin]; [now rewrite N.eqb_refl |].
  destruct (N.eqb_spec (row_id a) (row_id r)) as [Heq | _]; [| now apply IH].
  exfalso. apply Hhead. rewrite Heq. now apply in_map.
Qed.

(** With the identifier stored once, an upsert rewrites that row where it
    stands. *)
Lemma upsert_known_in_place :
  forall (table : list TransactionRow) (new : TransactionRow),
    NoDup (map row_id table) -> In (row_id new) (map row_id table) ->
    upsert_row table new
    = map (fun r => if has_id (row_id new) r then new else r) table.
Proof.
  induction table as [| a rest IH]; intros new Hnodup Hin; [destruct Hin |].
  cbn [map] in Hnodup. inversion Hnodup as [| ? ? Hhead Htail]; subst.
  cbn [upsert_row map]. unfold has_id at 1.
  destruct (N.eqb_spec (row_id a) (row_id new)) as [Heq | Hne].
  - f_equal.
    transitivity (map (fun r : TransactionRow => r) rest); [symmetry; apply map_id |].
    apply map_ext_in. intros r Hr. unfold has_id.
    destruct (N.eqb_spec (row_id r) (row_id new)) as [Hr' | _]; [| reflexivity].
    exfalso. apply Hhead. rewrite Heq, <- Hr'. now apply in_map.
  - f_equal. apply IH; [exact Htail |].
    destruct Hin as [Hin | Hin]; [contradiction | exact Hin].
Qed.

Lemma upsert_known_rows :
  forall (rows table : list TransactionRow),
    NoDup (map row_id table) ->
    (forall r, In r rows -> In (row_id r) (map row_id table)) ->
    fold_left upsert_row rows table = map (overwritten_by rows) table.
Proof.
  induction rows as [| new more IH]; intros table Hnodup Hknown.
  - cbn [fold_left]. unfold overwritten_by. cbn [rev find]. now rewrite map_id.
  - cbn [fold_left].
    assert (Hids : map row_id (upsert_row table new) = map row_id table).
    { rewrite upsert_row_ids.
      destruct (existsb (has_id (row_id new)) table) eqn:Hex; [reflexivity |].
      exfalso. apply (existsb_has_id_false table _ Hex). apply Hknown. now left. }
    rewrite IH.
    + rewrite upsert_known_in_place; [| exact Hnodup | apply Hknown; now left].
      rewrite map_map. apply map_ext. intros r.
      unfold overwritten_by. cbn [rev]. rewrite find_last.
      destruct (has_id (row_id new) r) eqn:Hsame; unfold has_id in Hsame.
      * apply N.eqb_eq in Hsame. rewrite Hsame.
        destruct (find (has_id (row_id new)) (rev more)); [reflexivity |].
        unfold has_id. now rewrite N.eqb_refl.
      * destruct (find (has_id (row_id r)) (rev more)); [reflexivity |].
        unfold has_id. now rewrite N.eqb_sym, Hsame.
    + now rewrite Hids.
    + intros r Hr. rewrite Hids. apply Hknown. now right.
Qed.

(** An upsert deletes nothing: the identifiers stored before keep their
    places, every identifier of the batch is stored afterwards, and what is
    appended are identifiers of the batch. *)
Theorem upsert_transactions_keeps_rows :
  forall (db : Database) (txs : list NormalisedTransaction) raw_lookup,
    (exists added : list UUID,
       map row_id (transactions (upsert_transactions db txs raw_lookup))
       = (map row_id (transactions db) ++ added)%list
       /\ incl added (map tx_id txs))
    /\ (forall tx, In tx txs ->
        In (tx_id tx)
           (map row_id (transactions (upsert_transactions db txs raw_lookup))))
    /\ fx_rates (upsert_transactions db txs raw_lookup) = fx_rates db.
Proof.
  intros [table fx] txs raw_lookup. cbn [upsert_transactions transactions fx_rates].
  rewrite upsert_transactions_rows.
  set (rows := map (fun tx => row_of_transaction tx raw_lookup) txs).
  assert (Hrows : map row_id rows = map tx_id txs)
    by apply row_ids_of_transactions.
  split; [| split; [| reflexivity]].
  - rewrite <- Hrows. clearbody rows. clear Hrows. revert table.
    induction rows as [| r more IH]; intros table.
    + exists []. cbn. rewrite app_nil_r. split; [reflexivity | intros ? []].
    + cbn [fold_left]. destruct (IH (upsert_row table r)) as (added & Hids & Hincl).
      rewrite Hids, upsert_row_ids.
      destruct (existsb (has_id (row_id r)) table).
      * exists added. split; [reflexivity |]. intros i Hi. right. now apply Hincl.
      * exists (row_id r :: added). rewrite <- app_assoc. split; [reflexivity |].
        intros i [<- | Hi]; [now left | right; now apply Hincl].
  - intros tx Htx.
    assert (Hfound : find (has_id (tx_id tx)) (fold_left upsert_row rows table) <> None).
    { rewrite find_upsert_rows.
      destruct (find (has_id (tx_id tx)) (rev rows)) eqn:Hlast; [discriminate |].
      exfalso.
      assert (Hin : In (row_of_transaction tx raw_lookup) (rev rows))
        by (apply (proj1 (in_rev rows _)); unfold rows;
            apply (in_map (fun t => row_of_transaction t raw_lookup)); exact Htx).
      pose proof (find_none _ _ Hlast _ Hin) as Hmiss.
      unfold has_id in Hmiss. cbn [row_of_transaction row_id] in Hmiss.
      rewrite N.eqb_refl in Hmiss. discriminate Hmiss. }
    destruct (find (has_id (tx_id tx)) (fold_left upsert_row rows table))
      as [stored |] eqn:Hstored; [| contradiction].
    apply find_some in Hstored. destruct Hstored as [Hin Hid].
    apply N.eqb_eq in Hid. rewrite <- Hid. now apply in_map.
Qed.

(** Writing a batch a second time changes nothing: with the identifiers
    unchanged the upsert is idempotent, on every store whose rows have
    different identifiers. *)
Theorem upsert_transactions_idempotent :
  forall (db : Database) (txs : list NormalisedTransaction) raw_lookup,
    NoDup (map row_id (transactions db)) ->
    upsert_transactions (upsert_transactions db txs raw_lookup) txs raw_lookup
    = upsert_transactions db txs raw_lookup.
Proof.
  intros [table fx] txs raw_lookup Hnodup.
  unfold upsert_transactions. cbn [transactions fx_rates]. f_equal.
  rewrite !upsert_transactions_rows.
  set (rows := map (fun tx => row_of_transaction tx raw_lookup) txs).
  set (written := fold_left upsert_row rows table).
  assert (Hwritten : NoDup (map row_id written))
    by (apply upsert_rows_nodup; exact Hnodup).
  assert (Hfind : forall r, In r rows ->
                    exists stored, find (has_id (row_id r)) written = Some stored).
  { intros r Hr. unfold written. rewrite find_upsert_rows.
    destruct (find (has_id (row_id r)) (rev rows)) as [last |] eqn:Hlast; [eauto |].
    exfalso.
    assert (Hin : In r (rev rows)) by (apply (proj1 (in_rev rows r)); exact Hr).
    pose proof (find_none _ _ Hlast _ Hin) as Hmiss.
    unfold has_id in Hmiss. rewrite N.eqb_refl in Hmiss. discriminate Hmiss. }
  rewrite upsert_known_rows.
  - transitivity (map (fun r : TransactionRow => r) written); [| apply map_id].
    apply map_ext_in. intros r Hr. unfold overwritten_by.
    destruct (find (has_id (row_id r)) (rev rows)) as [last |] eqn:Hlast;
      [| reflexivity].
    pose proof (find_known_row written r Hwritten Hr) as Hstored.
    unfold written in Hstored at 1. rewrite find_upsert_rows, Hlast in Hstored.
    now injection Hstored.
  - exact Hwritten.
  - intros r Hr. destruct (Hfind r Hr) as [stored Hstored].
    apply find_some in Hstored. destruct Hstored as [Hin Hid].
    apply N.eqb_eq in Hid. rewrite <- Hid. now apply in_map.
Qed.

Lemma upsert_transactions_idempotent_witness :
  upsert_transactions
    (upsert_transactions store_with_rates [first_write; second_write] [])
    [first_write; second_write] []
  = upsert_transactions store_with_rates [first_write; second_write] [].
Proof.
  apply (upsert_transactions_idempotent store_with_rates).
  cbn. repeat constructor; cbn; intuition discriminate.
Defined.

(** ** Replace on conflict: settings, FX rates, quotes *)

Section ReplaceOnConflict.

Context {Row : Type} (conflict : Row -> Row -> bool).

Lemma insert_or_replace_in :
  forall (table : list Row) (new x : Row),
    In x (insert_or_replace conflict table new)
    <-> x = new \/ (In x table /\ conflict x new = false).
Proof.
  intros table new x. unfold insert_or_replace.
  rewrite in_app_iff, filter_In, negb_true_iff. cbn [In]. intuition congruence.
Qed.

Lemma conflict_free_filter :
  forall (p : Row -> bool) (table : list Row),
    conflict_free conflict table -> conflict_free conflict (filter p table).
Proof.
  intros p table. unfold conflict_free. induction 1 as [| a rest Hhead Htail IH].
  - constructor.
  - cbn [filter]. destruct (p a); [| exact IH].
    constructor; [| exact IH].
    apply Forall_forall. intros b Hb. apply filter_In in Hb.
    rewrite Forall_forall in Hhead. now apply Hhead.
Qed.

Lemma conflict_free_snoc :
  forall (table : list Row) (new : Row),
    conflict_free conflict table ->
    (forall old, In old table -> conflict old new = false) ->
    conflict_free conflict (table ++ [new]).
Proof.
  intros table new. unfold conflict_free. induction 1 as [| a rest Hhead Htail IH];
    intros Hnew; cbn [app].
  - constructor; constructor.
  - constructor.
    + apply Forall_forall. intros b Hb. apply in_app_or in Hb.
      destruct Hb as [Hb | [<- | []]].
      * rewrite Forall_forall in Hhead. now apply Hhead.
      * apply Hnew. now left.
    + apply IH. intros old Hold. apply Hnew. now right.
Qed.

(** The uniqueness constraint is kept. *)
Lemma insert_or_replace_conflict_free :
  forall (table : list Row) (new : Row),
    conflict_free conflict table ->
    conflict_free conflict (insert_or_replace conflict table new).
Proof.
  intros table new Hfree. unfold insert_or_replace.
  apply conflict_free_snoc; [now apply conflict_free_filter |].
  intros old Hold. apply filter_In in Hold. now apply negb_true_iff.
Qed.

Lemma insert_all_conflict_free :
  forall (news : list Row) (table : list Row),
    conflict_free conflict table ->
    conflict_free conflict (fold_left (insert_or_replace conflict) news table).
Proof.
  induction news as [| new more IH]; intros table Hfree; [exact Hfree |].
  cbn [fold_left]. apply IH. now apply insert_or_replace_conflict_free.
Qed.

(** After a batch, a row is in the table exactly when it was written by the
    batch and nothing written after it is in conflict with it, or it was
    there before and nothing of the batch is in conflict with it. *)
Lemma insert_all_in :
  forall (news : list Row) (table : list Row) (x : Row),
    In x (fold_left (insert_or_replace conflict) news table)
    <-> (exists before after,
           news = (before ++ x :: after)%list
           /\ forall y, In y after -> conflict x y = false)
        \/ (In x table /\ forall y, In y news -> conflict x y = false).
Proof.
  induction news as [| new more IH]; intros table x.
  - cbn [fold_left]. split.
    + intros Hin. right. split; [exact Hin | intros y []].
    + intros [(before & after & Hsplit & _) | [Hin _]]; [| exact Hin].
      destruct before; discriminate Hsplit.
  - cbn [fold_left]. rewrite IH, insert_or_replace_in. split.
    + intros [(before & after & -> & Hafter) | [[-> | [Hin Hnew]] Hmore]].
      * left. exists (new :: before), after. now split.
      * left. exists [], more. now split.
      * right. split; [exact Hin |]. intros y [<- | Hy]; [exact Hnew | now apply Hmore].
    + intros [(before & after & Hsplit & Hafter) | [Hin Hall]].
      * destruct before as [| b before]; cbn [app] in Hsplit;
          injection Hsplit as -> ->.
        -- right. split; [now left | exact Hafter].
        -- left. exists before, after. now split.
      * right. split.
        -- right. split; [exact Hin | apply Hall; now left].
        -- intros y Hy. apply Hall. now right.
Qed.

End ReplaceOnConflict.

(** *** Settings *)

Lemma find_filter_implied :
  forall {A : Type} (p q : A -> bool) (l : list A),
    (forall x, p x = true -> q x = true) ->
    find p (filter q l) = find p l.
Proof.
  intros A p q l Himplied. induction l as [| a rest IH]; [reflexivity |].
  cbn [filter find]. destruct (p a) eqn:Hp.
  - rewrite (Himplied a Hp). cbn [find]. now rewrite Hp.
  - destruct (q a); [cbn [find]; now rewrite Hp | exact IH].
Qed.

Lemma find_app_last :
  forall {A : Type} (p : A -> bool) (l : list A) (x : A),
    find p (l ++ [x])
    = match find p l with
      | Some y => Some y
      | None => if p x then Some x else None
      end.
Proof. intros A p l x. apply find_last. Qed.

Lemma get_setting_after_set :
  forall (settings : SettingsTable) (key value : string) (default : option string),
    get_setting (set_setting settings key value) key default = Some value.
Proof.
  intros settings key value default. unfold get_setting, set_setting, insert_or_replace.
  rewrite find_app_last.
  destruct (find _ (filter _ settings)) as [row |] eqn:Hfound.
  - apply find_some in Hfound. destruct Hfound as [Hin Hkey].
    apply filter_In in Hin. destruct Hin as [_ Hkept].
    unfold same_setting_key in Hkept. cbn [fst] in Hkept.
    rewrite Hkey in Hkept. discriminate Hkept.
  - cbn [fst snd]. now rewrite String.eqb_refl.
Qed.

Lemma get_setting_after_set_other :
  forall (settings : SettingsTable) (key value other : string) (default : option string),
    other <> key ->
    get_setting (set_setting settings key value) other default
    = get_setting settings other default.
Proof.
  intros settings key value other default Hother.
  unfold get_setting, set_setting, insert_or_replace.
  rewrite find_app_last, find_filter_implied.
  - destruct (find _ settings); [reflexivity |].
    cbn [fst]. destruct (String.eqb_spec key other); [congruence | reflexivity].
  - intros row Hrow. apply String.eqb_eq in Hrow.
    unfold same_setting_key. cbn [fst]. rewrite Hrow.
    apply negb_true_iff. apply String.eqb_neq. exact Hother.
Qed.

(** Settings are a map from keys to values: a key read after it was set
    gives the value set, whatever was there; the other keys read as before;
    a key never set reads as the default; and no key is stored twice. *)
Theorem settings_set_then_get :
  forall (settings : SettingsTable) (key value : string) (default : option string),
    get_setting (set_setting settings key value) key default = Some value
    /\ (forall other : string,
          other <> key ->
          get_setting (set_setting settings key value) other default
          = get_setting settings other default)
    /\ ((forall row, In row settings -> fst row <> key) ->
        get_setting settings key default = default)
    /\ (conflict_free same_setting_key settings ->
        conflict_free same_setting_key (set_setting settings key value)).
Proof.
  intros settings key value default. split; [| split; [| split]].
  - apply get_setting_after_set.
  - intros other Hother. now apply get_setting_after_set_other.
  - intros Hunset. unfold get_setting.
    destruct (find _ settings) as [row |] eqn:Hfound; [| reflexivity].
    apply find_some in Hfound. destruct Hfound as [Hin Hkey].
    apply String.eqb_eq in Hkey. exfalso. exact (Hunset row Hin Hkey).
  - apply insert_or_replace_conflict_free.
Qed.

Lemma settings_set_then_get_witness :
  get_setting (set_setting [("display_currency", "EUR")] "theme" "dark")
    "display_currency" None = Some "EUR"
  /\ get_setting [("display_currency", "EUR")] "theme" (Some "light") = Some "light".
Proof.
  destruct (settings_set_then_get [("display_currency", "EUR")] "theme" "dark" None)
    as (_ & Hother & _).
  destruct (settings_set_then_get [("display_currency", "EUR")] "theme" "dark"
              (Some "light")) as (_ & _ & Hunset & _).
  split.
  - rewrite (Hother "display_currency"); [reflexivity | discriminate].
  - apply Hunset. intros row [<- | []]. discriminate.
Defined.

Lemma same_thread_spec :
  forall a b : thread, same_thread a b = true <-> a = b.
Proof.
  intros [| n] [| m]; cbn; split; try discriminate; try reflexivity.
  - intros H. apply Nat.eqb_eq in H. now subst.
  - intros [= ->]. apply Nat.eqb_refl.
Qed.

Lemma same_thread_other :
  forall a b : thread, b <> a -> same_thread a b = false.
Proof.
  intros a b Hother. destruct (same_thread a b) eqn:Hsame; [| reflexivity].
  apply same_thread_spec in Hsame. congruence.
Qed.

(** The display currency.  In the thread that opened the connection the
    handlers answer: the code read back is the upper-cased code last put,
    "CHF" as long as none was put, and putting it leaves the other settings
    alone.  In any other thread they raise [ProgrammingError] and change
    nothing; that is every request of the application, whose connection is
    opened by [lifespan] and whose handlers run in worker threads. *)
Theorem display_currency_round_trip :
  forall (repository : Repository SettingsTable) (caller : thread) (currency : string),
    (caller = opened_in repository ->
     set_display_currency repository caller currency
     = (Answered (Text.upper currency),
        set_setting (tables repository) "display_currency" (Text.upper currency))
     /\ get_display_currency
          (mkRepository (opened_in repository)
             (snd (set_display_currency repository caller currency)))
          caller
        = Answered (Some (Text.upper currency))
     /\ (exists answer,
           get_display_currency repository caller = Answered (Some answer))
     /\ ((forall row, In row (tables repository) -> fst row <> "display_currency") ->
         get_display_currency repository caller = Answered (Some "CHF"))
     /\ (forall other default,
           other <> "display_currency" ->
           get_setting (snd (set_display_currency repository caller currency))
             other default
           = get_setting (tables repository) other default))
    /\ (caller <> opened_in repository ->
        get_display_currency repository caller = Uncaught ProgrammingError
        /\ set_display_currency repository caller currency
           = (Uncaught ProgrammingError, tables repository))
    /\ (forall (settings : SettingsTable) (n : nat),
          get_display_currency (lifespan settings) (Worker n)
          = Uncaught ProgrammingError
          /\ set_display_currency (lifespan settings) (Worker n) currency
             = (Uncaught ProgrammingError, settings)).
Proof.
  intros repository caller currency. split; [| split].
  - intros ->. unfold set_display_currency, get_display_currency.
    cbn [opened_in tables].
    rewrite (proj2 (same_thread_spec _ _) eq_refl). cbn [snd].
    split; [reflexivity |].
    split; [now rewrite get_setting_after_set |].
    split; [| split].
    + unfold get_setting. destruct (find _ (tables repository)); eauto.
    + intros Hunset. unfold get_setting.
      destruct (find _ (tables repository)) as [row |] eqn:Hfound; [| reflexivity].
      apply find_some in Hfound. destruct Hfound as [Hin Hkey].
      apply String.eqb_eq in Hkey. exfalso. exact (Hunset row Hin Hkey).
    + intros other default Hother. now apply get_setting_after_set_other.
  - intros Hother. unfold set_display_currency, get_display_currency.
    now rewrite (same_thread_other _ _ Hother).
  - intros settings n. split; reflexivity.
Qed.

Lemma display_currency_round_trip_witness :
  get_display_currency
    (mkRepository EventLoop
       (snd (set_display_currency (lifespan [("theme", "dark")]) EventLoop "eur")))
    EventLoop
  = Answered (Some "EUR")
  /\ get_display_currency (lifespan [("theme", "dark")]) (Worker 0)
     = Uncaught ProgrammingError.
Proof.
  destruct (display_currency_round_trip (lifespan [("theme", "dark")]) EventLoop "eur")
    as (Howner & _ & _).
  destruct (display_currency_round_trip (lifespan [("theme", "dark")]) (Worker 0) "eur")
    as (_ & Hworker & _).
  split.
  - exact (proj1 (proj2 (Howner eq_refl))).
  - apply Hworker. discriminate.
Defined.

(** *** FX rates *)

Lemma upsert_fx_rates_rows :
  forall (db : Database) (rates : list FxRate),
    upsert_fx_rates db rates
    = mkDatabase (transactions db)
        (fold_left (insert_or_replace same_fx_key) (map row_of_rate rates) (fx_rates db)).
Proof.
  intros [table fx] rates. unfold upsert_fx_rates. cbn [transactions fx_rates].
  f_equal. revert fx. induction rates as [| r more IH]; intros fx; [reflexivity |].
  cbn [fold_left map]. apply IH.
Qed.

Lemma row_of_rate_upper :
  forall r : FxRate,
    Text.upper (fx_base (row_of_rate r)) = fx_base (row_of_rate r)
    /\ Text.upper (fx_quote (row_of_rate r)) = fx_quote (row_of_rate r).
Proof.
  intros r. cbn [row_of_rate fx_base fx_quote]. now rewrite !upper_idempotent.
Qed.

(** In every state of the store no two FX rows agree on base, quote,
    valuation date and source, and every row carries upper-case currency
    codes. *)
Theorem fx_rates_unique_and_upper_case :
  forall db : Database,
    reachable db ->
    conflict_free same_fx_key (fx_rates db)
    /\ forall row : FxRow,
         In row (fx_rates db) ->
         Text.upper (fx_base row) = fx_base row
         /\ Text.upper (fx_quote row) = fx_quote row.
Proof.
  induction 1 as [| db txs raw_lookup _ IH | db rates _ IH].
  - split; [constructor | intros row []].
  - exact IH.
  - destruct IH as [Hfree Hupper]. rewrite upsert_fx_rates_rows. cbn [fx_rates].
    split; [now apply insert_all_conflict_free |].
    intros row Hrow. apply insert_all_in in Hrow.
    destruct Hrow as [(before & after & Hsplit & _) | [Hold _]]; [| now apply Hupper].
    assert (Hin : In row (map row_of_rate rates))
      by (rewrite Hsplit; apply in_elt).
    apply in_map_iff in Hin. destruct Hin as (r & <- & _). apply row_of_rate_upper.
Qed.

Lemma fx_rates_unique_and_upper_case_witness :
  conflict_free same_fx_key (fx_rates store_with_rates)
  /\ map fx_base (fx_rates store_with_rates) = ["CHF"; "CHF"].
Proof.
  assert (Hreach : reachable store_with_rates) by (repeat constructor).
  split; [exact (proj1 (fx_rates_unique_and_upper_case store_with_rates Hreach)) |].
  reflexivity.
Defined.

Lemma latest_row_snoc_later :
  forall (rows : list FxRow) (best new : FxRow),
    (forall x, In x (best :: rows) ->
       date_ltb (fx_valuation_date x) (fx_valuation_date new) = true) ->
    latest_row best (rows ++ [new]) = new.
Proof.
  induction rows as [| a more IH]; intros best new Hearlier.
  - cbn [app latest_row]. now rewrite (Hearlier best (or_introl eq_refl)).
  - cbn [app latest_row]. apply IH. intros x [<- | Hx].
    + destruct (date_ltb (fx_valuation_date best) (fx_valuation_date a));
        apply Hearlier; [right; now left | now left].
    + apply Hearlier. right. now right.
Qed.

Lemma date_eqb_eq : forall a b : date, date_eqb a b = true <-> a = b.
Proof.
  intros [y m d] [y' m' d']. unfold date_eqb. cbn [year month day].
  rewrite !andb_true_iff, !Z.eqb_eq. split.
  - intros [[-> ->] ->]. reflexivity.
  - intros [= -> -> ->]. now repeat split.
Qed.

(** The candidates of the pair of [r] once [r] is stored: those of before
    that are not replaced, then the row of [r]. *)
Lemma fx_candidates_after_upsert :
  forall (db : Database) (r : FxRate),
    fx_candidates (upsert_fx_rates db [r]) (base r) (quote r)
    = (filter (fun old => negb (same_fx_key old (row_of_rate r)))
         (fx_candidates db (base r) (quote r))
       ++ [row_of_rate r])%list.
Proof.
  intros db r. rewrite upsert_fx_rates_rows. unfold fx_candidates.
  cbn [fx_rates map fold_left]. unfold insert_or_replace.
  rewrite filter_app. cbn [filter row_of_rate fx_base fx_quote].
  rewrite !String.eqb_refl. cbn [andb]. f_equal.
  induction (fx_rates db) as [| a rest IH]; [reflexivity |].
  cbn [filter].
  destruct (negb (same_fx_key a (row_of_rate r))) eqn:Hkept;
    destruct (String.eqb (fx_base a) (Text.upper (base r))
              && String.eqb (fx_quote a) (Text.upper (quote r))) eqn:Hpair;
    cbn [filter]; rewrite ?Hkept, ?Hpair; now rewrite IH.
Qed.

(** A rate just stored is found: a lookup of its pair, in any case, has an
    answer; the answer is that very rate when every other stored rate of
    the pair is of an earlier date (a row of the same date and source being
    replaced); and with base CHF the summary in its quote currency is no
    longer flagged as unconverted.  The transactions are left alone.  The
    rate is a number: a NaN is bound as NULL, which the column
    [rate REAL NOT NULL] refuses. *)
Theorem fx_rate_stored_is_found :
  forall (db : Database) (r : FxRate),
    PrimFloat.is_nan (rate r) = false ->
    transactions (upsert_fx_rates db [r]) = transactions db
    /\ (exists found,
          get_latest_fx_rate (upsert_fx_rates db [r]) (base r) (quote r) = Some found)
    /\ ((forall old : FxRow,
           In old (fx_rates db) ->
           fx_base old = Text.upper (base r) -> fx_quote old = Text.upper (quote r) ->
           date_lt (fx_valuation_date old) (valuation_date r)
           \/ (fx_valuation_date old = valuation_date r /\ fx_source old = source r)) ->
        get_latest_fx_rate (upsert_fx_rates db [r]) (base r) (quote r) = Some (rate r))
    /\ (Text.upper (base r) = "CHF" ->
        forall requested : string,
          Text.upper requested = Text.upper (quote r) ->
          fx_missing (cash_summary (upsert_fx_rates db [r]) requested) = false).
Proof.
  intros db r _.
  assert (Hfound : exists found,
            get_latest_fx_rate (upsert_fx_rates db [r]) (base r) (quote r) = Some found).
  { unfold get_latest_fx_rate. rewrite fx_candidates_after_upsert.
    destruct (filter _ (fx_candidates db (base r) (quote r))); cbn [app]; eauto. }
  split; [now rewrite upsert_fx_rates_rows |]. split; [exact Hfound |]. split.
  - intros Holder. unfold get_latest_fx_rate. rewrite fx_candidates_after_upsert.
    assert (Hearlier : forall x,
              In x (filter (fun old => negb (same_fx_key old (row_of_rate r)))
                      (fx_candidates db (base r) (quote r))) ->
              date_ltb (fx_valuation_date x) (fx_valuation_date (row_of_rate r)) = true).
    { intros x Hx. apply filter_In in Hx. destruct Hx as [Hcandidate Hkept].
      apply fx_candidates_in in Hcandidate. destruct Hcandidate as (Hin & Hbase & Hquote).
      apply date_ltb_spec. cbn [row_of_rate fx_valuation_date].
      destruct (Holder x Hin Hbase Hquote) as [Hlt | [Hdate Hsource]]; [exact Hlt |].
      exfalso. apply negb_true_iff in Hkept. unfold same_fx_key in Hkept.
      cbn [row_of_rate fx_base fx_quote fx_valuation_date fx_source] in Hkept.
      rewrite Hbase, Hquote, Hdate, Hsource, !String.eqb_refl in Hkept.
      rewrite (proj2 (date_eqb_eq _ _) eq_refl) in Hkept. discriminate Hkept. }
    destruct (filter _ (fx_candidates db (base r) (quote r))) as [| first more];
      cbn [app].
    + reflexivity.
    + now rewrite (latest_row_snoc_later more first (row_of_rate r) Hearlier).
  - intros Hchf requested Hrequested. unfold cash_summary.
    destruct (String.eqb (Text.upper requested) "CHF"); [reflexivity |].
    assert (Hsame :
      get_latest_fx_rate (upsert_fx_rates db [r]) "CHF" (Text.upper requested)
      = get_latest_fx_rate (upsert_fx_rates db [r]) (base r) (quote r)).
    { unfold get_latest_fx_rate, fx_candidates.
      rewrite upper_idempotent, Hrequested, Hchf. reflexivity. }
    rewrite Hsame. destruct Hfound as [found ->]. reflexivity.
Qed.

Lemma fx_rate_stored_is_found_witness :
  get_latest_fx_rate
    (upsert_fx_rates store_with_rates
       [mkFxRate "chf" "eur" (mkDate 2024 4 3) 1.75%float "ecb"])
    "chf" "eur" = Some 1.75%float.
Proof.
  destruct (fx_rate_stored_is_found store_with_rates
              (mkFxRate "chf" "eur" (mkDate 2024 4 3) 1.75%float "ecb") eq_refl)
    as (_ & _ & Hlatest & _).
  apply Hlatest.
  intros old Hold Hbase Hquote. vm_compute in Hold.
  destruct Hold as [<- | [<- | []]].
  - right. split; reflexivity.
  - left. unfold date_lt. cbn. lia.
Defined.

Lemma fx_rate_stored_has_answer :
  forall (db : Database) (r : FxRate),
    exists found,
      get_latest_fx_rate (upsert_fx_rates db [r]) (base r) (quote r) = Some found.
Proof.
  intros db r. unfold get_latest_fx_rate. rewrite fx_candidates_after_upsert.
  destruct (filter _ (fx_candidates db (base r) (quote r))); cbn [app]; eauto.
Qed.

(** [POST /fx/refresh] asks the price service with the upper-cased codes.
    Without a rate the request is refused with status 503, and an
    exception of the price service goes through, the store unchanged, in
    whatever thread.  A rate fetched is answered and stored, and its pair
    has an answer from then on, in the thread that opened the connection
    (the rate being a number); in any other thread the request raises
    [ProgrammingError] and nothing is stored, which is every request of the
    application, whose connection is opened by [lifespan] and whose
    handlers run in worker threads. *)
Theorem fx_refresh_stores_what_it_answers :
  forall (fetch : string -> string -> result (option FxRate))
         (requested_base requested_quote : string)
         (repository : Repository Database) (caller : thread),
    (fetch (Text.upper requested_base) (Text.upper requested_quote) = Ok None ->
     api_refresh_fx_rate fetch requested_base requested_quote repository caller
     = (HTTPException 503, tables repository))
    /\ (forall e : exn,
          fetch (Text.upper requested_base) (Text.upper requested_quote) = Raise e ->
          api_refresh_fx_rate fetch requested_base requested_quote repository caller
          = (Uncaught (Propagated e), tables repository))
    /\ (forall r : FxRate,
          fetch (Text.upper requested_base) (Text.upper requested_quote) = Ok (Some r) ->
          (caller = opened_in repository ->
           PrimFloat.is_nan (rate r) = false ->
           api_refresh_fx_rate fetch requested_base requested_quote repository caller
           = (Answered r, upsert_fx_rates (tables repository) [r])
           /\ exists found,
                get_latest_fx_rate
                  (snd (api_refresh_fx_rate fetch requested_base requested_quote
                          repository caller))
                  (base r) (quote r) = Some found)
          /\ (caller <> opened_in repository ->
              api_refresh_fx_rate fetch requested_base requested_quote repository caller
              = (Uncaught ProgrammingError, tables repository)))
    /\ (forall (db : Database) (n : nat) (r : FxRate),
          fetch (Text.upper requested_base) (Text.upper requested_quote) = Ok (Some r) ->
          api_refresh_fx_rate fetch requested_base requested_quote (lifespan db)
            (Worker n)
          = (Uncaught ProgrammingError, db)).
Proof.
  intros fetch requested_base requested_quote repository caller.
  unfold api_refresh_fx_rate, refresh_fx_rate. split; [| split; [| split]].
  - intros ->. reflexivity.
  - intros e ->. reflexivity.
  - intros r ->. cbn [bind]. split.
    + intros -> _. rewrite (proj2 (same_thread_spec _ _) eq_refl).
      split; [reflexivity |]. cbn [snd].
      exact (fx_rate_stored_has_answer (tables repository) r).
    + intros Hother. now rewrite (same_thread_other _ _ Hother).
  - intros db n r ->. reflexivity.
Qed.

Lemma fx_refresh_stores_what_it_answers_witness :
  api_refresh_fx_rate
    (fun base quote =>
       Ok (Some (mkFxRate base quote (mkDate 2024 4 5) 1.5%float "alpha_vantage")))
    "chf" "usd" (lifespan empty_database) EventLoop
  = (Answered (mkFxRate "CHF" "USD" (mkDate 2024 4 5) 1.5%float "alpha_vantage"),
     upsert_fx_rates empty_database
       [mkFxRate "CHF" "USD" (mkDate 2024 4 5) 1.5%float "alpha_vantage"])
  /\ api_refresh_fx_rate
       (fun base quote =>
          Ok (Some (mkFxRate base quote (mkDate 2024 4 5) 1.5%float "alpha_vantage")))
       "chf" "usd" (lifespan empty_database) (Worker 0)
     = (Uncaught ProgrammingError, empty_database).
Proof.
  destruct (fx_refresh_stores_what_it_answers
              (fun base quote =>
                 Ok (Some (mkFxRate base quote (mkDate 2024 4 5) 1.5%float
                             "alpha_vantage")))
              "chf" "usd" (lifespan empty_database) EventLoop)
    as (_ & _ & Hfetched & _).
  destruct (fx_refresh_stores_what_it_answers
              (fun base quote =>
                 Ok (Some (mkFxRate base quote (mkDate 2024 4 5) 1.5%float
                             "alpha_vantage")))
              "chf" "usd" (lifespan empty_database) (Worker 0))
    as (_ & _ & _ & Hworker).
  split.
  - exact (proj1 (proj1 (Hfetched _ eq_refl) eq_refl eq_refl)).
  - exact (Hworker empty_database 0%nat _ eq_refl).
Defined.

(** *** Quotes *)

Lemma log_quotes_rows :
  forall (quotes : list Quote) (table : list QuoteRow),
    log_quotes table quotes
    = fold_left (insert_or_replace same_quote_key) (map row_of_quote quotes) table.
Proof.
  unfold log_quotes. induction quotes as [| q more IH]; intros table; [reflexivity |].
  cbn [fold_left map]. apply IH.
Qed.

Lemma same_quote_key_refl : forall a : QuoteRow, same_quote_key a a = true.
Proof.
  intros a. unfold same_quote_key.
  now rewrite !String.eqb_refl, (proj2 (date_eqb_eq _ _) eq_refl).
Qed.

Lemma same_quote_key_spec :
  forall a b : QuoteRow,
    same_quote_key a b = true
    <-> qrow_symbol a = qrow_symbol b
        /\ qrow_valuation_date a = qrow_valuation_date b
        /\ qrow_source a = qrow_source b.
Proof.
  intros a b. unfold same_quote_key.
  rewrite !andb_true_iff, !String.eqb_eq, date_eqb_eq. tauto.
Qed.

(** A key written stays written: later quotes replace the row, they do not
    remove the key. *)
Lemma logged_key_stays :
  forall (news : list QuoteRow) (table : list QuoteRow) (x : QuoteRow),
    (exists y, In y table /\ same_quote_key y x = true) ->
    exists y, In y (fold_left (insert_or_replace same_quote_key) news table)
              /\ same_quote_key y x = true.
Proof.
  induction news as [| new more IH]; intros table x Hkey; [exact Hkey |].
  cbn [fold_left]. apply IH. destruct Hkey as (y & Hy & Hsame).
  destruct (same_quote_key y new) eqn:Hconflict.
  - exists new. split; [apply insert_or_replace_in; now left |].
    apply same_quote_key_spec in Hsame, Hconflict. apply same_quote_key_spec.
    destruct Hsame as (? & ? & ?), Hconflict as (? & ? & ?). repeat split; congruence.
  - exists y. split; [apply insert_or_replace_in; right; now split | exact Hsame].
Qed.

(** [log_quotes] keeps the quotes unique by symbol, valuation date and
    source: every quote of a batch of quotes priced with numbers leaves a
    row of its key, the last one its own row, and every row it writes has
    an upper-case symbol and currency. *)
Theorem log_quotes_unique_per_key :
  forall (table : list QuoteRow) (quotes : list Quote),
    (forall q : Quote, In q quotes -> PrimFloat.is_nan (quote_price q) = false) ->
    (conflict_free same_quote_key table ->
     conflict_free same_quote_key (log_quotes table quotes))
    /\ (forall q : Quote,
          In q quotes ->
          exists row,
            In row (log_quotes table quotes)
            /\ qrow_symbol row = Text.upper (quote_symbol q)
            /\ qrow_valuation_date row = quote_valuation_date q
            /\ qrow_source row = quote_source q)
    /\ (forall (earlier : list Quote) (q : Quote),
          quotes = (earlier ++ [q])%list ->
          In (row_of_quote q) (log_quotes table quotes))
    /\ (forall row : QuoteRow,
          In row (log_quotes table quotes) ->
          In row table
          \/ (Text.upper (qrow_symbol row) = qrow_symbol row
              /\ Text.upper (qrow_currency row) = qrow_currency row)).
Proof.
  intros table quotes _. rewrite log_quotes_rows. split; [| split; [| split]].
  - apply insert_all_conflict_free.
  - intros q Hq.
    assert (Hkey : exists y,
              In y (fold_left (insert_or_replace same_quote_key)
                      (map row_of_quote quotes) table)
              /\ same_quote_key y (row_of_quote q) = true).
    { apply (in_map row_of_quote) in Hq. clear -Hq. revert table.
      induction (map row_of_quote quotes) as [| new more IH]; intros table;
        [destruct Hq |].
      cbn [fold_left]. destruct Hq as [-> | Hq]; [| now apply IH].
      apply logged_key_stays. exists (row_of_quote q).
      split; [apply insert_or_replace_in; now left | apply same_quote_key_refl]. }
    destruct Hkey as (row & Hrow & Hsame). exists row. split; [exact Hrow |].
    apply same_quote_key_spec in Hsame. exact Hsame.
  - intros earlier q ->. apply insert_all_in. left.
    exists (map row_of_quote earlier), []. rewrite map_app. split; [reflexivity |].
    intros y [].
  - intros row Hrow. apply insert_all_in in Hrow.
    destruct Hrow as [(before & after & Hsplit & _) | [Hold _]]; [| now left].
    right.
    assert (Hin : In row (map row_of_quote quotes)) by (rewrite Hsplit; apply in_elt).
    apply in_map_iff in Hin. destruct Hin as (q & <- & _).
    cbn [row_of_quote qrow_symbol qrow_currency]. now rewrite !upper_idempotent.
Qed.

Lemma log_quotes_unique_per_key_witness :
  In (row_of_quote (mkQuote "nesn" (mkDate 2024 4 5) 92.5%float "chf" "alpha_vantage"))
     (log_quotes
        [mkQuoteRow "NESN" (mkDate 2024 4 5) 91%float "CHF" "alpha_vantage"]
        [mkQuote "nesn" (mkDate 2024 4 5) 92.5%float "chf" "alpha_vantage"])
  /\ List.length
       (log_quotes
          [mkQuoteRow "NESN" (mkDate 2024 4 5) 91%float "CHF" "alpha_vantage"]
          [mkQuote "nesn" (mkDate 2024 4 5) 92.5%float "chf" "alpha_vantage"])
     = 1%nat.
Proof.
  split; [| reflexivity].
  refine (proj1 (proj2 (proj2
    (log_quotes_unique_per_key
       [mkQuoteRow "NESN" (mkDate 2024 4 5) 91%float "CHF" "alpha_vantage"]
       [mkQuote "nesn" (mkDate 2024 4 5) 92.5%float "chf" "alpha_vantage"] _)))
    [] _ eq_refl).
  intros q [<- | []]. reflexivity.
Defined.

(** ** Listing the transactions *)

Lemma lex_leb_total :
  forall a b : list Z, lex_leb a b = true \/ lex_leb b a = true.
Proof.
  induction a as [| x a IH]; intros [| y b]; cbn [lex_leb]; auto.
  destruct (IH b) as [H | H]; rewrite H;
    destruct (Z.ltb_spec x y), (Z.ltb_spec y x), (Z.eqb_spec x y), (Z.eqb_spec y x);
    cbn; auto; lia.
Qed.

Lemma lex_leb_trans :
  forall a b c : list Z,
    lex_leb a b = true -> lex_leb b c = true -> lex_leb a c = true.
Proof.
  induction a as [| x a IH]; intros [| y b] [| z c]; cbn [lex_leb];
    try discriminate; auto.
  rewrite !orb_true_iff, !andb_true_iff, !Z.ltb_lt, !Z.eqb_eq.
  intros [Hxy | [Hxy Hab]] [Hyz | [Hyz Hbc]]; try (left; lia).
  right. split; [lia | now apply (IH b c)].
Qed.

Lemma not_older_total :
  forall a b : TransactionRow, not_older a b = true \/ not_older b a = true.
Proof. intros a b. apply lex_leb_total. Qed.

Lemma not_older_trans :
  forall a b c : TransactionRow,
    not_older a b = true -> not_older b c = true -> not_older a c = true.
Proof.
  unfold not_older. intros a b c Hab Hbc. exact (lex_leb_trans _ _ _ Hbc Hab).
Qed.

Lemma insert_newest_first_permutation :
  forall (r : TransactionRow) (ordered : list TransactionRow),
    Permutation (insert_newest_first r ordered) (r :: ordered).
Proof.
  intros r. induction ordered as [| x rest IH]; cbn [insert_newest_first].
  - apply Permutation_refl.
  - destruct (not_older x r); [| apply Permutation_refl].
    apply perm_trans with (x :: r :: rest); [now apply perm_skip | apply perm_swap].
Qed.

Lemma order_by_newest_permutation :
  forall table : list TransactionRow, Permutation (order_by_newest table) table.
Proof.
  induction table as [| r rest IH]; [apply Permutation_refl |].
  cbn [order_by_newest fold_right].
  apply perm_trans with (r :: order_by_newest rest).
  - apply insert_newest_first_permutation.
  - now apply perm_skip.
Qed.

Lemma insert_newest_first_sorted :
  forall (r : TransactionRow) (ordered : list TransactionRow),
    StronglySorted (fun a b => not_older a b = true) ordered ->
    StronglySorted (fun a b => not_older a b = true) (insert_newest_first r ordered).
Proof.
  intros r. induction ordered as [| x rest IH]; intros Hsorted;
    cbn [insert_newest_first].
  - repeat constructor.
  - inversion Hsorted as [| ? ? Hrest Hhead]; subst.
    destruct (not_older x r) eqn:Hxr.
    + constructor; [now apply IH |].
      apply Forall_forall. intros y Hy.
      apply (Permutation_in _ (insert_newest_first_permutation r rest)) in Hy.
      destruct Hy as [<- | Hy]; [exact Hxr |].
      rewrite Forall_forall in Hhead. now apply Hhead.
    + assert (Hrx : not_older r x = true)
        by (destruct (not_older_total r x) as [H | H]; [exact H | congruence]).
      constructor; [exact Hsorted |].
      constructor; [exact Hrx |].
      apply Forall_forall. intros y Hy. rewrite Forall_forall in Hhead.
      exact (not_older_trans r x y Hrx (Hhead y Hy)).
Qed.

Lemma order_by_newest_sorted :
  forall table : list TransactionRow,
    StronglySorted (fun a b => not_older a b = true) (order_by_newest table).
Proof.
  induction table as [| r rest IH]; [constructor |].
  cbn [order_by_newest fold_right]. now apply insert_newest_first_sorted.
Qed.

Lemma strongly_sorted_app :
  forall {A : Type} (R : A -> A -> Prop) (front back : list A),
    StronglySorted R (front ++ back) ->
    StronglySorted R front
    /\ forall a b, In a front -> In b back -> R a b.
Proof.
  intros A R front back. induction front as [| x front IH]; cbn [app]; intros Hsorted.
  - split; [constructor | intros a b []].
  - inversion Hsorted as [| ? ? Hrest Hhead]; subst.
    destruct (IH Hrest) as [Hfront Hcross]. split.
    + constructor; [exact Hfront |].
      rewrite Forall_forall in Hhead |- *. intros y Hy. apply Hhead.
      apply in_or_app. now left.
    + intros a b [<- | Ha] Hb.
      * rewrite Forall_forall in Hhead. apply Hhead. apply in_or_app. now right.
      * now apply Hcross.
Qed.

(** The listing returns stored rows, newest first, and at most [limit] of
    them: what it leaves out is no newer than anything it returns.  A
    negative limit lists every row; a limit that is no 64-bit integer is an
    [OverflowError]. *)
Theorem list_transactions_newest_first :
  forall (db : Database) (limit : Z),
    ((- 2 ^ 63 <= limit < 2 ^ 63)%Z ->
     exists listed omitted : list TransactionRow,
       list_transactions db limit = Ok listed
       /\ Permutation (listed ++ omitted) (transactions db)
       /\ StronglySorted (fun a b => not_older a b = true) listed
       /\ (forall a b, In a listed -> In b omitted -> not_older a b = true)
       /\ List.length listed
          = (if (limit <? 0)%Z then List.length (transactions db)
             else Nat.min (Z.to_nat limit) (List.length (transactions db)))
       /\ ((limit < 0)%Z -> omitted = []))
    /\ ((limit < - 2 ^ 63 \/ 2 ^ 63 <= limit)%Z ->
        list_transactions db limit = Raise OverflowError).
Proof.
  intros db limit. unfold list_transactions. split.
  - intros Hrange.
    destruct (Z.ltb_spec limit (- 2 ^ 63)); [lia |].
    destruct (Z.leb_spec (2 ^ 63) limit); [lia |]. cbn [orb].
    pose proof (order_by_newest_permutation (transactions db)) as Hperm.
    pose proof (order_by_newest_sorted (transactions db)) as Hsorted.
    destruct (Z.ltb_spec limit 0) as [Hneg | Hpos].
    + exists (order_by_newest (transactions db)), [].
      rewrite app_nil_r. repeat split; try assumption.
      * intros a b _ [].
      * now apply Permutation_length.
    + exists (firstn (Z.to_nat limit) (order_by_newest (transactions db))),
             (skipn (Z.to_nat limit) (order_by_newest (transactions db))).
      rewrite firstn_skipn.
      rewrite <- (firstn_skipn (Z.to_nat limit) (order_by_newest (transactions db)))
        in Hsorted.
      apply strongly_sorted_app in Hsorted. destruct Hsorted as [Hfront Hcross].
      repeat split; try assumption.
      * rewrite length_firstn. now rewrite (Permutation_length Hperm).
      * lia.
  - intros Hout.
    destruct (Z.ltb_spec limit (- 2 ^ 63)); [reflexivity |].
    destruct (Z.leb_spec (2 ^ 63) limit); [reflexivity | lia].
Qed.

Lemma list_transactions_newest_first_witness :
  exists listed omitted : list TransactionRow,
    list_transactions
      (upsert_transactions store_with_rates [first_write] []) 2 = Ok listed
    /\ List.length listed = 2%nat
    /\ List.length omitted = 1%nat
    /\ forall a b, In a listed -> In b omitted -> not_older a b = true.
Proof.
  destruct (proj1 (list_transactions_newest_first
                     (upsert_transactions store_with_rates [first_write] []) 2))
    as (listed & omitted & Hlisted & Hperm & _ & Hcross & Hlength & _); [lia |].
  exists listed, omitted. split; [exact Hlisted |]. split; [exact Hlength |].
  split; [| exact Hcross].
  apply Permutation_length in Hperm. rewrite length_app, Hlength in Hperm.
  cbn in Hperm. lia.
Defined.

(** ** The audit trail of an import *)

Lemma dict_get_set :
  forall (d : list (UUID * payload)) (k k' : UUID) (v : payload),
    dict_get N.eqb (dict_set N.eqb d k v) k'
    = if N.eqb k k' then Some v else dict_get N.eqb d k'.
Proof.
  intros d k k' v. induction d as [| [k0 v0] rest IH]; cbn [dict_set dict_get].
  - reflexivity.
  - destruct (N.eqb_spec k0 k) as [-> | Hne]; cbn [dict_get].
    + now destruct (N.eqb k k').
    + rewrite IH. destruct (N.eqb_spec k0 k') as [-> | Hne'].
      * destruct (N.eqb_spec k k'); [congruence | reflexivity].
      * reflexivity.
Qed.

Lemma dict_get_key_below :
  forall (d : list (UUID * payload)) (bound k : UUID) (v : payload),
    Forall (fun entry => (fst entry < bound)%N) d ->
    dict_get N.eqb d k = Some v -> (k < bound)%N.
Proof.
  intros d bound k v Hbelow. induction Hbelow as [| [k0 v0] rest Hhead _ IH];
    cbn [dict_get]; [discriminate |].
  destruct (N.eqb_spec k0 k) as [<- | _]; [intros _; exact Hhead | exact IH].
Qed.

Lemma dict_set_keys_below :
  forall (d : list (UUID * payload)) (bound k : UUID) (v : payload),
    Forall (fun entry => (fst entry < bound)%N) d -> (k < bound)%N ->
    Forall (fun entry => (fst entry < bound)%N) (dict_set N.eqb d k v).
Proof.
  intros d bound k v Hbelow Hk. induction Hbelow as [| [k0 v0] rest Hhead Htail IH];
    cbn [dict_set].
  - now repeat constructor.
  - destruct (N.eqb k0 k); constructor; assumption.
Qed.

Lemma normalise_record_copies :
  forall now record classification tx,
    _normalise_record now record classification = Ok tx ->
    tx_id tx = id record
    /\ tx_sheet_name tx = sheet_name record
    /\ tx_description tx = description record.
Proof.
  intros now record classification tx. unfold _normalise_record.
  match goal with |- context [bind ?c _] => destruct c as [native | e] end;
    cbn [bind]; [| discriminate].
  intros [= <-]. now repeat split.
Qed.

Section AuditTrail.

Variable parse_other : string -> result date.

Lemma record_of_row_fields :
  forall sheet r w record w',
    record_of_row parse_other sheet r w = Ok (record, w') ->
    id record = minted w
    /\ minted w' = N.succ (minted w)
    /\ sheet_name record = sheet
    /\ description record = _collapse_description r
    /\ raw_payload record = fillna_to_dict r.
Proof.
  intros sheet r w record w'. unfold record_of_row.
  repeat (rewrite io_bind_lift;
          match goal with
          | |- context [match ?c with Ok _ => _ | Raise _ => _ end] =>
              destruct c; [| discriminate]
          end).
  unfold io_bind, uuid4, io_ret. intros [= <- <-]. now repeat split.
Qed.

Lemma load_record_gathers :
  forall items sheet acc r w acc' w',
    gathered items acc w ->
    load_record acc (record_of_row parse_other sheet r) w = Ok (acc', w') ->
    gathered (items ++ [(sheet, r)]) acc' w'.
Proof.
  intros items sheet acc r w acc' w' [Hitems Hbelow].
  unfold load_record, io_bind at 1.
  destruct (record_of_row parse_other sheet r w) as [[record w1] | e] eqn:Hrecord;
    [| discriminate].
  apply record_of_row_fields in Hrecord.
  destruct Hrecord as (Hid & Hminted & Hsheet & Hdescription & Hpayload).
  unfold io_bind, utcnow, io_lift, io_ret.
  destruct (_normalise_record (clock w1 (readings w1)) record (classify record))
    as [tx | e] eqn:Htx; [| discriminate].
  apply normalise_record_copies in Htx. destruct Htx as (Htxid & Htxsheet & Htxdescr).
  intros [= <- <-]. cbn [fst snd minted]. split.
  - apply Forall2_app.
    + eapply Forall2_impl; [| exact Hitems].
      intros item old (Hs & Hd & Hlookup). repeat split; try assumption.
      cbn [fst snd]. rewrite dict_get_set, Hid.
      destruct (N.eqb_spec (minted w) (tx_id old)) as [Heq | _]; [| exact Hlookup].
      apply (dict_get_key_below _ _ _ _ Hbelow) in Hlookup. lia.
    + constructor; [| constructor]. repeat split; cbn [fst snd].
      * congruence.
      * congruence.
      * rewrite dict_get_set, Htxid, N.eqb_refl. now rewrite Hpayload.
  - rewrite Hminted. apply dict_set_keys_below.
    + eapply Forall_impl; [| exact Hbelow]. intros entry Hentry. cbn in *. lia.
    + cbn. lia.
Qed.

Lemma load_records_gather :
  forall sheet rows items acc w acc' w',
    gathered items acc w ->
    io_fold load_record acc (_iter_records parse_other sheet rows) w = Ok (acc', w') ->
    gathered (items ++ map (pair sheet) rows) acc' w'.
Proof.
  intros sheet. induction rows as [| r more IH]; intros items acc w acc' w' Hitems.
  - cbn. intros [= <- <-]. now rewrite app_nil_r.
  - cbn [_iter_records map io_fold]. unfold io_bind at 1.
    destruct (load_record acc (record_of_row parse_other sheet r) w)
      as [[acc1 w1] | e] eqn:Hrow; [| discriminate].
    intros Hmore.
    apply (load_record_gathers items sheet acc r w acc1 w1 Hitems) in Hrow.
    apply (IH _ _ _ _ _ Hrow) in Hmore.
    now rewrite <- app_assoc in Hmore.
Qed.

Lemma load_sheet_gathers :
  forall workbook items acc sheet w acc' w',
    gathered items acc w ->
    load_sheet parse_other workbook acc sheet w = Ok (acc', w') ->
    gathered (items ++ sheet_source workbook sheet) acc' w'.
Proof.
  intros workbook items acc sheet w acc' w' Hitems.
  unfold load_sheet, io_bind, io_lift, sheet_source.
  destruct (_load_sheet workbook sheet) as [dataframe | e]; [| discriminate].
  now apply load_records_gather.
Qed.

Lemma load_sheets_gather :
  forall workbook sheet_names items acc w acc' w',
    gathered items acc w ->
    io_fold (load_sheet parse_other workbook) acc sheet_names w = Ok (acc', w') ->
    gathered (items ++ source_rows workbook sheet_names) acc' w'.
Proof.
  intros workbook. induction sheet_names as [| sheet more IH];
    intros items acc w acc' w' Hitems.
  - cbn. intros [= <- <-]. now rewrite app_nil_r.
  - cbn [io_fold source_rows flat_map]. unfold io_bind at 1.
    destruct (load_sheet parse_other workbook acc sheet w) as [[acc1 w1] | e] eqn:Hsheet;
      [| discriminate].
    intros Hmore.
    apply (load_sheet_gathers workbook items acc sheet w acc1 w1 Hitems) in Hsheet.
    apply (IH _ _ _ _ _ Hsheet) in Hmore.
    now rewrite <- app_assoc in Hmore.
Qed.

End AuditTrail.

Lemma upsert_fresh_rows_appended :
  forall (rows table : list TransactionRow),
    NoDup (map row_id rows) ->
    (forall i, In i (map row_id rows) -> ~ In i (map row_id table)) ->
    fold_left upsert_row rows table = (table ++ rows)%list.
Proof.
  assert (Hone : forall table new,
            ~ In (row_id new) (map row_id table) ->
            upsert_row table new = (table ++ [new])%list).
  { induction table as [| a rest IH]; intros new Hfresh; [reflexivity |].
    cbn [upsert_row app].
    destruct (N.eqb_spec (row_id a) (row_id new)) as [Heq | _].
    - exfalso. apply Hfresh. left. exact Heq.
    - f_equal. apply IH. intros Hin. apply Hfresh. now right. }
  induction rows as [| r more IH]; intros table Hnodup Hfresh.
  - cbn. now rewrite app_nil_r.
  - cbn [fold_left map] in *. inversion Hnodup as [| ? ? Hhead Htail]; subst.
    rewrite Hone by (apply Hfresh; now left).
    rewrite IH.
    + now rewrite <- app_assoc.
    + exact Htail.
    + intros i Hin Hold. rewrite map_app in Hold. apply in_app_or in Hold.
      destruct Hold as [Hold | [<- | []]].
      * apply (Hfresh i); [now right | exact Hold].
      * contradiction.
Qed.

(** An import that succeeds appends, for every data row of the requested
    sheets and in their order, one row that carries the sheet's name, the
    collapsed description and the row's payload as it was read, blanks as
    empty texts; the debit and credit the row is written with are the texts
    of the sheet, not the parsed amounts.  The rows stored before are left
    as they were.  The columns of a sheet have different names once
    stripped, and the identifiers stored are among those minted so far. *)
Theorem import_keeps_the_audit_trail :
  forall parse_other workbook sheet_names db w persisted db' w',
    Forall (fun item => NoDup (map fst (snd item))) (source_rows workbook sheet_names) ->
    Forall (fun r => (row_id r < minted w)%N) (transactions db) ->
    import_workbook parse_other workbook sheet_names db w = Ok (persisted, db', w') ->
    exists stored : list TransactionRow,
      transactions db' = (transactions db ++ stored)%list
      /\ Forall2 stored_from (source_rows workbook sheet_names) stored
      /\ persisted = List.length (source_rows workbook sheet_names).
Proof.
  intros parse_other workbook sheet_names db w persisted db' w' _ Hold.
  unfold import_workbook, io_bind, io_ret.
  destruct (load parse_other workbook sheet_names w) as [[loaded w1] | e] eqn:Hload;
    [| discriminate].
  intros [= <- <- <-].
  pose proof Hload as Hgathered.
  apply (load_sheets_gather parse_other workbook sheet_names [] ([], []) w loaded w1)
    in Hgathered; [| split; constructor].
  cbn [app] in Hgathered. destruct Hgathered as [Hitems _].
  apply load_sheets_appends in Hload. destruct Hload as (new & Hnew & Hids & _).
  cbn [fst app] in Hnew. rewrite Hnew in *.
  exists (map (fun tx => row_of_transaction tx (snd loaded)) new).
  split; [| split].
  - cbn [upsert_transactions transactions].
    rewrite upsert_transactions_rows. apply upsert_fresh_rows_appended.
    + rewrite row_ids_of_transactions, Hids. apply ids_from_nodup.
    + intros i. rewrite row_ids_of_transactions, Hids. intros Hnew' Holder.
      apply ids_from_bounds in Hnew'.
      apply in_map_iff in Holder. destruct Holder as (r & <- & Hin).
      rewrite Forall_forall in Hold. specialize (Hold r Hin). cbn beta in Hold. lia.
  - clear -Hitems. induction Hitems as [| item tx items txs Hhead _ IH];
      cbn [map]; constructor; [| exact IH].
    destruct Hhead as (Hsheet & Hdescription & Hlookup).
    unfold stored_from. cbn [row_of_transaction row_sheet_name row_description
                              row_raw_payload row_debit row_credit].
    rewrite Hlookup. now repeat split.
  - now rewrite (Forall2_length Hitems).
Qed.

Lemma import_keeps_the_audit_trail_witness :
  exists stored : list TransactionRow,
    transactions (store_after first_import) = stored
    /\ Forall2 stored_from (source_rows ledger ["bank"]) stored.
Proof.
  assert (Hfirst :
    import_workbook parse_nothing ledger ["bank"] empty_database first_world
    = Ok (1%nat, store_after first_import, world_after first_import))
    by (vm_compute; reflexivity).
  assert (Hcolumns :
    Forall (fun item => NoDup (map fst (snd item))) (source_rows ledger ["bank"])).
  { vm_compute. repeat constructor; cbn; intuition discriminate. }
  destruct (import_keeps_the_audit_trail parse_nothing ledger ["bank"] empty_database
              first_world 1%nat (store_after first_import) (world_after first_import)
              Hcolumns (Forall_nil _) Hfirst)
    as (stored & Hstored & Htrail & _).
  exists stored. split; [exact Hstored | exact Htrail].
Defined.

(** ** Blank cells *)

Lemma div_by_nan_is_nan :
  forall x : float, PrimFloat.is_nan (PrimFloat.div x PrimFloat.nan) = true.
Proof.
  intros x. unfold PrimFloat.is_nan.
  rewrite FloatAxioms.eqb_spec, FloatAxioms.div_spec.
  replace (Prim2SF PrimFloat.nan) with S754_nan by reflexivity.
  now destruct (Prim2SF x) as [s | s | | s m e].
Qed.

Section BlankCells.

Variable parse_other : string -> result date.

Lemma record_of_row_columns :
  forall sheet r w record w',
    record_of_row parse_other sheet r w = Ok (record, w') ->
    _parse_date parse_other (row_get r "transac_date") = Ok (transaction_date record)
    /\ _parse_date parse_other (row_get r "accounting_date") = Ok (accounting_date record)
    /\ _parse_decimal (row_get r "amount_chf") = Ok (amount_chf record)
    /\ _parse_decimal (row_get r "debit") = Ok (debit record)
    /\ _parse_decimal (row_get r "credit") = Ok (credit record)
    /\ _parse_decimal (row_get r "balance") = Ok (balance record)
    /\ _parse_decimal (row_get r "rate") = Ok (fx_rate record)
    /\ transaction_currency record
       = Some (or_chf (_clean_string (row_get r "transac_currency")))
    /\ category record = Some (_clean_string (row_get r "category"))
    /\ description record = _collapse_description r.
Proof.
  intros sheet r w record w'. unfold record_of_row.
  repeat (rewrite io_bind_lift;
          match goal with
          | |- context [match ?c with Ok _ => _ | Raise _ => _ end] =>
              destruct c eqn:?; [| discriminate]
          end).
  unfold io_bind, uuid4, io_ret. intros [= <- <-].
  cbn [transaction_date accounting_date amount_chf debit credit balance fx_rate
       transaction_currency category description].
  repeat split; assumption.
Qed.

(** A blank cell is read as the text "nan", not as a missing value: the
    currency of such a row is "nan" where a row without the column gets
    "CHF", its category is "nan", its description starts with "nan", and
    its amounts and rate are the float NaN; only a blank date is absent.
    With the currency and the rate both blank the native amount is
    computed, and is NaN.  The columns of the row have different names. *)
Theorem blank_cells_read_as_nan :
  forall sheet r w record w',
    NoDup (map fst r) ->
    record_of_row parse_other sheet r w = Ok (record, w') ->
    (row_get r "transac_currency" = Some VNaN ->
       transaction_currency record = Some "nan")
    /\ (row_get r "transac_currency" = None ->
          transaction_currency record = Some "CHF")
    /\ (row_get r "category" = Some VNaN -> category record = Some "nan")
    /\ (row_get r "descr_1" = Some VNaN ->
          exists rest, description record = "nan" ++ rest)
    /\ (row_get r "amount_chf" = Some VNaN ->
          amount_chf record = Some PrimFloat.nan
          /\ signed_amount record = PrimFloat.nan)
    /\ (row_get r "rate" = Some VNaN -> fx_rate record = Some PrimFloat.nan)
    /\ (row_get r "transac_date" = Some VNaN -> transaction_date record = None)
    /\ (row_get r "transac_currency" = Some VNaN ->
        row_get r "rate" = Some VNaN ->
        forall now, exists tx native,
          _normalise_record now record (classify record) = Ok tx
          /\ tx_transaction_currency tx = "nan"
          /\ tx_amount_native tx = Some native
          /\ PrimFloat.is_nan native = true).
Proof.
  intros sheet r w record w' _ Hrecord.
  apply record_of_row_columns in Hrecord.
  destruct Hrecord as (Hdate & _ & Hamount & _ & _ & _ & Hrate & Hcurrency
                       & Hcategory & Hdescription).
  assert (Hnan : _parse_decimal (Some VNaN) = Ok (Some PrimFloat.nan))
    by (vm_compute; reflexivity).
  assert (Hblank_currency :
            row_get r "transac_currency" = Some VNaN ->
            transaction_currency record = Some "nan").
  { intros Hcell. now rewrite Hcurrency, Hcell. }
  assert (Hblank_rate :
            row_get r "rate" = Some VNaN -> fx_rate record = Some PrimFloat.nan).
  { intros Hcell. rewrite Hcell, Hnan in Hrate. congruence. }
  split; [exact Hblank_currency |].
  split; [intros Hcell; now rewrite Hcurrency, Hcell |].
  split; [intros Hcell; now rewrite Hcategory, Hcell |].
  split.
  { intros Hcell. rewrite Hdescription. unfold _collapse_description.
    rewrite Hcell. cbn [_clean_string str_of].
    change (Text.strip "nan") with "nan".
    match goal with
    | |- context [filter Text.truthy ("nan" :: ?l)] =>
        change (filter Text.truthy ("nan" :: l)) with ("nan" :: filter Text.truthy l);
        destruct (filter Text.truthy l) as [| part more]
    end.
    - now exists "".
    - now exists (", " ++ Text.join ", " (part :: more)). }
  split.
  { intros Hcell. rewrite Hcell, Hnan in Hamount.
    assert (Hchf : amount_chf record = Some PrimFloat.nan) by congruence.
    split; [exact Hchf |]. unfold signed_amount. now rewrite Hchf. }
  split; [exact Hblank_rate |].
  split.
  { intros Hcell. rewrite Hcell in Hdate.
    change (_parse_date parse_other (Some VNaN)) with (@Ok (option date) None) in Hdate.
    congruence. }
  intros Hcell_currency Hcell_rate now.
  unfold _normalise_record.
  rewrite (Hblank_currency Hcell_currency), (Hblank_rate Hcell_rate).
  change (Text.truthy "nan" && negb (String.eqb (Text.upper "nan") "CHF")
          && Float.truthy PrimFloat.nan) with true.
  cbv iota. unfold Float.div.
  change (PrimFloat.eqb PrimFloat.nan Float.zero) with false.
  cbn [bind try_except].
  eexists. exists (PrimFloat.div (signed_amount record) PrimFloat.nan).
  split; [reflexivity |].
  cbn [tx_transaction_currency tx_amount_native].
  split; [reflexivity |]. split; [reflexivity |]. apply div_by_nan_is_nan.
Qed.

End BlankCells.

Lemma blank_cells_read_as_nan_witness :
  exists record w',
    record_of_row parse_nothing "bank" blank_currency_row first_world = Ok (record, w')
    /\ transaction_currency record = Some "nan"
    /\ category record = Some "nan"
    /\ fx_rate record = Some PrimFloat.nan.
Proof.
  destruct (record_of_row parse_nothing "bank" blank_currency_row first_world)
    as [[record w'] | e] eqn:Hrecord; [| vm_compute in Hrecord; discriminate Hrecord].
  exists record, w'. split; [reflexivity |].
  assert (Hcolumns : NoDup (map fst blank_currency_row)).
  { vm_compute. repeat constructor; cbn; intuition discriminate. }
  destruct (blank_cells_read_as_nan parse_nothing "bank" blank_currency_row first_world
              record w' Hcolumns Hrecord)
    as (Hcurrency & _ & Hcategory & _ & _ & Hrate & _).
  split; [apply Hcurrency; reflexivity |].
  split; [apply Hcategory; reflexivity | apply Hrate; reflexivity].
Defined.

(** ** The counterparty of a row *)

Lemma before_first_comma_app :
  forall fragment rest : string,
    Text.before_first_comma (fragment ++ ", " ++ rest)
    = Text.before_first_comma fragment.
Proof.
  intros fragment rest. change (", " ++ rest) with (String "," (String " " rest)).
  generalize (String " " rest). clear rest.
  induction fragment as [| c fragment IH]; intros rest; [reflexivity |].
  cbn [append Text.before_first_comma].
  destruct (Ascii.eqb c ","); [reflexivity | now rewrite IH].
Qed.

Lemma join_of_fragments :
  forall (first : string) (more : list string),
    Text.truthy first = true ->
    Text.truthy (Text.join ", " (first :: more)) = true
    /\ Text.before_first_comma (Text.join ", " (first :: more))
       = Text.before_first_comma first.
Proof.
  intros first more Hfilled. destruct more as [| second more]; cbn [Text.join].
  - now split.
  - split; [| apply before_first_comma_app].
    destruct first; [discriminate | reflexivity].
Qed.

Lemma extract_counterparty_of_fragments :
  forall (record : BankTransactionRecord) (r : row),
    description record = _collapse_description r ->
    _extract_counterparty record
    = match description_fragments r with
      | [] => None
      | first :: _ => named (Text.strip (Text.before_first_comma first))
      end.
Proof.
  intros record r Hdescription. unfold _extract_counterparty.
  rewrite Hdescription.
  change (_collapse_description r) with (Text.join ", " (description_fragments r)).
  destruct (description_fragments r) as [| first more] eqn:Hfragments;
    [reflexivity |].
  assert (Hfilled : Text.truthy first = true).
  { assert (Hin : In first (description_fragments r))
      by (rewrite Hfragments; now left).
    unfold description_fragments in Hin. now apply filter_In in Hin. }
  destruct (join_of_fragments first more Hfilled) as [-> ->].
  unfold named. now destruct (Text.strip (Text.before_first_comma first)).
Qed.

(** The counterparty of a deposit or a withdrawal is read from the first
    description cell that is not empty, up to its first comma and trimmed;
    the later description cells never reach it, and a row with no
    description has no counterparty. *)
Theorem counterparty_is_first_description_fragment :
  forall (record : BankTransactionRecord) (r : row),
    description record = _collapse_description r ->
    fee_rule record = false ->
    _is_inflow record = true \/ _is_outflow record = true ->
    inferred_counterparty (classify record)
    = match description_fragments r with
      | [] => None
      | first :: _ => named (Text.strip (Text.before_first_comma first))
      end.
Proof.
  intros record r Hdescription Hfee Hdirection.
  rewrite <- (extract_counterparty_of_fragments record r Hdescription).
  destruct (_is_inflow record) eqn:Hin.
  - now rewrite (classify_deposit record Hfee Hin).
  - destruct Hdirection as [Habsurd | Hout]; [discriminate |].
    now rewrite (classify_withdrawal record Hfee Hin Hout).
Qed.

Lemma counterparty_is_first_description_fragment_witness :
  inferred_counterparty
    (classify (with_description "Migros, nan"
                 (with_amounts None None (Some 10%float) blank_record)))
  = Some (VStr "Migros").
Proof.
  rewrite (counterparty_is_first_description_fragment _
             [("descr_1", VStr " Migros"); ("descr_2", VNaN)]).
  - vm_compute. reflexivity.
  - vm_compute. reflexivity.
  - vm_compute. reflexivity.
  - left. vm_compute. reflexivity.
Defined.

(** ** Direction and sign *)

Lemma positive_float_cases :
  forall c : float,
    PrimFloat.ltb Float.zero c = true ->
    Prim2SF c = S754_infinity false
    \/ exists m e, Prim2SF c = S754_finite false m e.
Proof.
  intros c. rewrite FloatAxioms.ltb_spec.
  change (Prim2SF Float.zero) with (S754_zero false).
  destruct (Prim2SF c) as [s | [|] | | [|] m e]; cbn; try discriminate.
  - now left.
  - right. now exists m, e.
Qed.

Lemma sub_zero_of_positive :
  forall c : float,
    PrimFloat.ltb Float.zero c = true -> PrimFloat.sub c Float.zero = c.
Proof.
  intros c Hpositive. apply FloatAxioms.Prim2SF_inj.
  rewrite FloatAxioms.sub_spec.
  change (Prim2SF Float.zero) with (S754_zero false).
  destruct (positive_float_cases c Hpositive) as [-> | (m & e & ->)]; reflexivity.
Qed.

Lemma zero_sub_positive :
  forall d : float,
    PrimFloat.ltb Float.zero d = true ->
    PrimFloat.sub Float.zero d = PrimFloat.opp d
    /\ PrimFloat.ltb (PrimFloat.opp d) Float.zero = true.
Proof.
  intros d Hpositive. split.
  - apply FloatAxioms.Prim2SF_inj.
    rewrite FloatAxioms.sub_spec, FloatAxioms.opp_spec.
    change (Prim2SF Float.zero) with (S754_zero false).
    destruct (positive_float_cases d Hpositive) as [-> | (m & e & ->)]; reflexivity.
  - rewrite FloatAxioms.ltb_spec, FloatAxioms.opp_spec.
    change (Prim2SF Float.zero) with (S754_zero false).
    destruct (positive_float_cases d Hpositive) as [-> | (m & e & ->)]; reflexivity.
Qed.

Lemma or_zero_of_zero :
  forall x : option float,
    PrimFloat.eqb (Float.or_zero x) Float.zero = true -> Float.or_zero x = Float.zero.
Proof.
  intros x Hzero. destruct (or_zero_is_zero x Hzero) as [-> | (d & -> & Hd)];
    [reflexivity |].
  unfold Float.or_zero, Float.truthy. now rewrite Hd.
Qed.

Lemma inflow_amount :
  forall record : BankTransactionRecord,
    amount_chf record = None -> _is_inflow record = true ->
    exists c, credit record = Some c
              /\ signed_amount record = c
              /\ PrimFloat.ltb Float.zero c = true.
Proof.
  intros record Hamount. unfold _is_inflow, signed_amount. rewrite Hamount.
  intros Hin. apply andb_prop in Hin. destruct Hin as [Hcredit Hdebit].
  rewrite (or_zero_of_zero _ Hdebit).
  destruct (or_zero_positive _ Hcredit) as (c & Hc & Hpositive & Hnonzero).
  exists c. rewrite Hc. unfold Float.or_zero, Float.truthy. rewrite Hnonzero.
  cbn [negb]. repeat split; [| exact Hpositive].
  now apply sub_zero_of_positive.
Qed.

Lemma outflow_amount :
  forall record : BankTransactionRecord,
    amount_chf record = None -> _is_outflow record = true ->
    exists d, debit record = Some d
              /\ signed_amount record = PrimFloat.opp d
              /\ PrimFloat.ltb (PrimFloat.opp d) Float.zero = true.
Proof.
  intros record Hamount. unfold _is_outflow, signed_amount. rewrite Hamount.
  intros Hout. apply andb_prop in Hout. destruct Hout as [Hdebit Hcredit].
  rewrite (or_zero_of_zero _ Hcredit).
  destruct (or_zero_positive _ Hdebit) as (d & Hd & Hpositive & Hnonzero).
  exists d. rewrite Hd. unfold Float.or_zero, Float.truthy. rewrite Hnonzero.
  cbn [negb]. destruct (zero_sub_positive d Hpositive) as [Hsub Hnegative].
  now repeat split.
Qed.

(** Without an [amount_chf] cell the sign of the amount follows the
    classification: the amount of a DEPOSIT is its credit, exactly, and
    positive; the amount of a WITHDRAWAL is its debit negated, exactly, and
    negative. *)
Theorem direction_agrees_with_sign :
  forall record : BankTransactionRecord,
    amount_chf record = None ->
    (inferred_type (classify record) = "DEPOSIT" ->
       exists c, credit record = Some c
                 /\ signed_amount record = c
                 /\ PrimFloat.ltb Float.zero c = true)
    /\ (inferred_type (classify record) = "WITHDRAWAL" ->
          exists d, debit record = Some d
                    /\ signed_amount record = PrimFloat.opp d
                    /\ PrimFloat.ltb (PrimFloat.opp d) Float.zero = true).
Proof.
  intros record Hamount.
  destruct (fee_rule record) eqn:Hfee.
  { rewrite (classify_fee record Hfee). split; discriminate. }
  destruct (_is_inflow record) eqn:Hin.
  { rewrite (classify_deposit record Hfee Hin). split; [| discriminate].
    intros _. now apply inflow_amount. }
  destruct (_is_outflow record) eqn:Hout.
  { rewrite (classify_withdrawal record Hfee Hin Hout). split; [discriminate |].
    intros _. now apply outflow_amount. }
  rewrite (classify_unknown record Hfee Hin Hout). split; discriminate.
Qed.

Lemma direction_agrees_with_sign_witness :
  signed_amount (with_description "Migros"
                   (with_amounts None (Some 45%float) None blank_record))
  = (-45)%float.
Proof.
  destruct (direction_agrees_with_sign
              (with_description "Migros"
                 (with_amounts None (Some 45%float) None blank_record))
              eq_refl) as [_ Hwithdrawal].
  destruct (Hwithdrawal ltac:(vm_compute; reflexivity)) as (d & Hd & Hsigned & _).
  injection Hd as <-. exact Hsigned.
Defined.
